(** * Instaseis: seismogram extraction pipeline and spectral-basis wrappers

    A shallow embedding of

    - [instaseis/base_instaseis_db.py]: [BaseInstaseisDB.get_seismograms],
      [_convert_to_stream], [get_seismograms_finite_source],
      [_get_seismograms_sanity_checks], the [info] property and
      [sizeof_fmt];
    - [axisem_db/spectral_basis.py]: the ctypes wrappers [zelegl],
      [zemngl2], [def_lagrange_derivs_gll], [def_lagrange_derivs_glj] and
      [lagrange_interpol_2D_td].

    Python control flow is kept statement by statement.  Exceptions are an
    error result, and every call that leaves the function (database
    extraction, FFTs, the Lanczos resampler, numerical differentiation and
    integration, the compiled Fortran routines, warnings, the progress
    callback) is recorded in an event log, so that the order of validation
    and numeric work can be stated.

    Floating-point numbers are an abstract type [F] with the operators the
    code applies to them; nothing is assumed about them except that
    multiplying by the integer [1] returns the operand.  NumPy, SciPy and the
    modules of the package that are outside these two files are parameters. *)

From Stdlib Require Import ZArith List String Bool Lia QArith Qabs Lqa.
From stdpp Require Import base option list strings gmap.
Import ListNotations.
Open Scope Z_scope.

(** ** Exceptions, event logs and the monad of a Python call *)

Inductive Exc : Type :=
| ValueError (msg : string)
| NotImplementedError (msg : string)
| KeyError (key : string)
| TypeError (msg : string)
| AttributeError (attr : string)
| UnboundLocalError (var : string).

(** A computation yields the events it performed, then either the exception
    that ended it or its value. *)
Definition M (E A : Type) : Type := (list E * (Exc + A))%type.

Definition ret {E A} (a : A) : M E A := ([], inr a).
Definition raise {E A} (e : Exc) : M E A := ([], inl e).
Definition emit {E} (ev : E) : M E unit := ([ev], inr tt).
Definition lift {E A} (r : Exc + A) : M E A := ([], r).

Definition bind {E A B} (m : M E A) (k : A -> M E B) : M E B :=
  match m with
  | (l, inl e) => (l, inl e)
  | (l, inr a) => (l ++ fst (k a), snd (k a))
  end.

Declare Scope py_scope.
Delimit Scope py_scope with py.
Notation "'let*' x ':=' m 'in' k" := (bind m (fun x => k))
  (at level 10, x pattern, m at level 100, k at level 200) : py_scope.
Open Scope py_scope.

Definition log {E A} (m : M E A) : list E := fst m.
Definition outcome {E A} (m : M E A) : Exc + A := snd m.

(** [for x in xs: s = body x s] *)
Fixpoint for_each {E A S} (xs : list A) (body : A -> S -> M E S) (s : S)
  : M E S :=
  match xs with
  | [] => ret s
  | x :: xs' => let* s' := body x s in for_each xs' body s'
  end.

(** [for _ in np.arange(n): x = f x]; [np.arange n] is empty for [n <= 0]. *)
Fixpoint repeat_step {E S} (n : nat) (step : S -> M E S) (s : S) : M E S :=
  match n with
  | O => ret s
  | Datatypes.S n' => let* s' := step s in repeat_step n' step s'
  end.

Definition np_arange (n : Z) : nat := Z.to_nat n.

(** Python slices [l[k:]] and [l[:k]]; a negative bound counts from the
    end and is clamped at the start of the list. *)
Definition slice_from {A} (k : Z) (l : list A) : list A :=
  if k <? 0 then drop (Z.to_nat (Z.of_nat (length l) + k)) l
  else drop (Z.to_nat k) l.

Definition slice_to {A} (k : Z) (l : list A) : list A :=
  if k <? 0 then take (Z.to_nat (Z.of_nat (length l) + k)) l
  else take (Z.to_nat k) l.

(** [round(k, ndigits)] on an [int]: unchanged for [ndigits >= 0],
    otherwise rounded half-to-even to a multiple of [10 ^ -ndigits]. *)
Definition round_half_even_div (a b : Z) : Z :=
  let q := a / b in
  let r := a mod b in
  if 2 * r <? b then q
  else if b <? 2 * r then q + 1
  else if Z.even q then q else q + 1.

Definition round_int (k ndigits : Z) : Z :=
  if 0 <=? ndigits then k
  else let p := 10 ^ (- ndigits) in p * round_half_even_div k p.

(** ** axisem_db/spectral_basis.py *)

Module SpectralBasis.

(** The compiled AxiSEM kernel reached through [ctypes]; every routine
    receives the order as a C [int] and fills the buffer it is handed. *)
Record FortranLib (F : Type) : Type := {
  lib_zelegl : Z -> list F -> list F;
  lib_zemngl2 : Z -> list F -> list F;
  lib_def_lagrange_derivs_gll : Z -> list F -> list F
}.
Arguments lib_zelegl {F}.
Arguments lib_zemngl2 {F}.
Arguments lib_def_lagrange_derivs_gll {F}.

(** A call into the compiled library: routine name and order received. *)
Inductive Event : Type :=
| Foreign (routine : string) (n : Z).

(** [ctypes.c_int(n)]: no overflow check, the value wraps to 32 bits. *)
Definition c_int (n : Z) : Z := (n + 2 ^ 31) mod 2 ^ 32 - 2 ^ 31.

(** A two-dimensional array in Fortran order. *)
Record Matrix (F : Type) : Type := {
  shape : Z * Z;
  buf : list F
}.
Arguments shape {F}.
Arguments buf {F}.

Section Wrappers.
Context {F : Type}.
Variable zero : F.
Variable lib : FortranLib F.

(** [np.zeros(k)]: a negative dimension is refused. *)
Definition np_zeros (k : Z) : M Event (list F) :=
  if k <? 0 then raise (ValueError "negative dimensions are not allowed")
  else ret (replicate (Z.to_nat k) zero).

(** [np.zeros((r, c))] *)
Definition np_zeros2 (r c : Z) : M Event (Matrix F) :=
  if (r <? 0) || (c <? 0)
  then raise (ValueError "negative dimensions are not allowed")
  else ret {| shape := (r, c); buf := replicate (Z.to_nat (r * c)) zero |}.

Definition zelegl (n : Z) : M Event (list F) :=
  let* data := np_zeros (n + 1) in
  let* _ := emit (Foreign "zelegl" (c_int n)) in
  ret (lib_zelegl lib (c_int n) data).

Definition zemngl2 (n : Z) : M Event (list F) :=
  let* data := np_zeros (n + 1) in
  let* _ := emit (Foreign "zemngl2" (c_int n)) in
  ret (lib_zemngl2 lib (c_int n) data).

Definition def_lagrange_derivs_gll (npol : Z) : M Event (Matrix F) :=
  let* G := np_zeros2 (npol + 1) (npol + 1) in
  let* _ := emit (Foreign "def_lagrange_derivs_gll" (c_int npol)) in
  ret {| shape := shape G;
         buf := lib_def_lagrange_derivs_gll lib (c_int npol) (buf G) |}.

(** The GLJ wrapper calls the GLL routine of the library, handing it [G0]
    as an extra third argument which that routine does not take. *)
Definition def_lagrange_derivs_glj (npol : Z)
  : M Event (list F * Matrix F) :=
  let* G0 := np_zeros (npol + 1) in
  let* G1 := np_zeros2 (npol + 1) (npol + 1) in
  let* _ := emit (Foreign "def_lagrange_derivs_gll" (c_int npol)) in
  ret (G0, {| shape := shape G1;
              buf := lib_def_lagrange_derivs_gll lib (c_int npol) (buf G1) |}).

End Wrappers.

(** An operation rejects its argument before any computation when it ends
    in an exception without having called the compiled library. *)
Definition rejects_before_computation {A} (m : M Event A) : Prop :=
  exists e, m = ([], inl e).

(** A stand-in library over the integers that writes the order it received
    into every slot of the buffer. *)
Definition echo_lib : FortranLib Z := {|
  lib_zelegl := fun n b => map (fun _ => n) b;
  lib_zemngl2 := fun n b => map (fun _ => n) b;
  lib_def_lagrange_derivs_gll := fun n b => map (fun _ => n) b
|}.

End SpectralBasis.

(** ** instaseis/base_instaseis_db.py *)

Module Instaseis.

(** Float arithmetic as the code uses it.  [of_int] is the conversion of a
    Python [int] in mixed arithmetic, [lit m e] the literal [m * 10 ** e],
    [fmod] the operator [%], [round_nd x n] is [round(x, n)] and [int_of] is
    [int(x)]. *)
Class Numeric (F : Type) : Type := {
  of_int : Z -> F;
  lit : Z -> Z -> F;
  fadd : F -> F -> F;
  fsub : F -> F -> F;
  fmul : F -> F -> F;
  fdiv : F -> F -> F;
  fmod : F -> F -> F;
  fabs : F -> F;
  fgtb : F -> F -> bool;
  round_nd : F -> Z -> F;
  int_of : F -> Z;
  fmul_1_r : forall x, fmul x (of_int 1) = x
}.

(** NumPy, SciPy and ObsPy as far as the code calls them.  [phase_ramp nfft
    ts dt] stands for
    [np.exp(-1j * np.fft.rfftfreq(nfft) * 2 * np.pi * ts / dt)]. *)
Class Libs (F : Type) : Type := {
  Spectrum : Type;
  rfft : list F -> Z -> Spectrum;
  irfft : Spectrum -> list F;
  spec_mul : Spectrum -> Spectrum -> Spectrum;
  spec_div : Spectrum -> Spectrum -> Spectrum;
  phase_ramp : Z -> F -> F -> Spectrum;
  np_gradient : list F -> F -> list F;
  cumtrapz : list F -> F -> list F;
  UTCDateTime : Type;
  utc_of_int : Z -> UTCDateTime;
  utc_sub : UTCDateTime -> F -> UTCDateTime
}.

Section Model.
Context {F : Type} `{Numeric F} `{Libs F}.

(** A source after parsing.  [is_force_source] is
    [isinstance(source, ForceSource)]; [origin_time] is [None] when the
    object has no such attribute. *)
Record SourceObj : Type := {
  is_force_source : bool;
  src_dt : option F;
  src_sliprate : option (list F);
  src_time_shift : option F;
  src_depth_in_m : option F;
  origin_time : option UTCDateTime
}.

Record ReceiverObj : Type := {
  rec_depth_in_m : option F;
  station : string;
  network : string
}.

(** [self.info] *)
Record Info : Type := {
  is_reciprocal : bool;
  info_components : list string;
  info_dt : F;
  npts : Z;
  nfft : Z;
  stf : string;
  slip : list F;
  sliprate : list F;
  src_shift : F;
  src_shift_samples : Z
}.

(** The dictionary returned by [_get_seismograms]: one array per
    component, and the shear modulus under the key ["mu"]. *)
Record Data : Type := {
  series : gmap string (list F);
  mu : F
}.

Definition set_series (d : Data) (comp : string) (x : list F) : Data :=
  {| series := <[comp := x]> (series d); mu := mu d |}.

(** The modules of the package outside this file. [Raw] is whatever
    [Source.parse] and [Receiver.parse] accept. *)
Record Package : Type := {
  Raw : Type;
  parse_source : Raw -> Exc + SourceObj;
  parse_receiver : Raw -> Exc + list ReceiverObj;
  lanczos_interpolation :
    list F -> F -> F -> F -> F -> Z -> Z -> string -> list F;
  get_band_code : F -> string
}.

(** A concrete database class: the two abstract methods. *)
Record DB : Type := {
  info : Info;
  _get_seismograms :
    SourceObj -> ReceiverObj -> list string -> Exc + Data
}.

(** What a call does besides computing: warnings, the extraction from the
    database, transforms, and for the resampler, [np.gradient] and
    [cumtrapz] the component whose entry receives the result together
    with the arguments of the call. *)
Inductive Event : Type :=
| Warn (msg : string)
| Extract (components : list string)
| Rfft (x : list F) (n : Z)
| Irfft
| Resample (comp : string) (data : list F)
           (old_start old_dt new_start new_dt : F)
           (new_npts a : Z) (window : string)
| Gradient (comp : string) (x : list F) (dx : F)
| Cumtrapz (comp : string) (x : list F) (dx : F)
| Progress (i count : Z).

Record Trace : Type := {
  tr_data : list F;
  delta : F;
  starttime : option UTCDateTime;
  tr_station : string;
  tr_network : string;
  channel : string;
  instaseis_mu : option F
}.

Inductive Ret : Type :=
| RetStream (st : list Trace)
| RetData (d : Data).

Variable pkg : Package.
Variable self : DB.

Definition mem_str (x : string) (l : list string) : bool :=
  existsb (String.eqb x) l.

(** Subscription of a literal dictionary with string keys. *)
Fixpoint dict_get {V} (d : list (string * V)) (k : string) : M Event V :=
  match d with
  | [] => raise (KeyError k)
  | (k', v) :: d' => if String.eqb k k' then ret v else dict_get d' k
  end.

(** [data[comp]] *)
Definition get_series (d : Data) (comp : string) : M Event (list F) :=
  match series d !! comp with
  | Some x => ret x
  | None => raise (KeyError comp)
  end.

Definition DEFAULT_MU : F := lit 32 9.

Definition kind_map : list (string * Z) :=
  [("displacement", 0); ("velocity", 1); ("acceleration", 2)].

Definition stf_map : list (string * Z) :=
  [("errorf", 0); ("quheavi", 0); ("dirac_0", 1); ("gauss_0", 1);
   ("gauss_1", 2); ("gauss_2", 3)].

Definition stf_deconv_map : list (Z * list F) :=
  [(0, sliprate (info self)); (1, slip (info self))].

Fixpoint stf_deconv_get (d : list (Z * list F)) (k : Z)
  : M Event (list F) :=
  match d with
  | [] => raise (KeyError "stf_deconv_map")
  | (k', v) :: d' => if k =? k' then ret v else stf_deconv_get d' k
  end.

(** An argument given as source or receiver: already an object of the
    right class, or something to be parsed. *)
Inductive SourceArg : Type :=
| IsSource (s : SourceObj)
| ToParseSource (r : Raw pkg).

Inductive ReceiverArg : Type :=
| IsReceiver (r : ReceiverObj)
| ToParseReceiver (r : Raw pkg).

Definition _get_seismograms_sanity_checks
    (source : SourceArg) (receiver : ReceiverArg)
    (components : list string) (kind : string)
  : M Event (SourceObj * ReceiverObj) :=
  let* source :=
    match source with
    | IsSource s => ret s
    | ToParseSource r => lift (parse_source pkg r)
    end in
  let* receiver :=
    match receiver with
    | IsReceiver r => ret r
    | ToParseReceiver r =>
        let* rec := lift (parse_receiver pkg r) in
        match rec with
        | [r0] => ret r0
        | _ => raise (ValueError
                 "Receiver object/file contains multiple stations. Please parse outside the get_seismograms() function and call in a loop.")
        end
    end in
  let* _ :=
    if mem_str kind ["displacement"; "velocity"; "acceleration"]
    then ret tt
    else raise (ValueError ("unknown kind " +:+ kind)) in
  let* _ :=
    for_each components
      (fun comp _ =>
         if mem_str comp ["N"; "E"; "Z"; "R"; "T"] then ret tt
         else raise (ValueError ("Invalid component: " +:+ comp))) tt in
  let* _ :=
    if is_reciprocal (info self) then
      let* _ :=
        match rec_depth_in_m receiver with
        | Some _ =>
            emit (Warn
              "Receiver depth cannot be changed when reading from reciprocal DB. Using depth from the DB.")
        | None => ret tt
        end in
      let* _ :=
        if existsb (fun comp => mem_str comp components)
                   ["N"; "E"; "R"; "T"]
           && negb (mem_str "horizontal" (info_components (info self)))
        then raise (ValueError "vertical component only DB")
        else ret tt in
      if mem_str "Z" components
         && negb (mem_str "vertical" (info_components (info self)))
      then raise (ValueError "horizontal component only DB")
      else ret tt
    else
      match src_depth_in_m source with
      | Some _ =>
          emit (Warn
            "Source depth cannot be changed when reading from forward DB. Using depth from the DB.")
      | None => ret tt
      end in
  ret (source, receiver).

(** Lines 120-148: deconvolve the STF of the database and convolve with
    the one attached to the source. *)
Definition reconvolve (source : SourceObj) (comp : string) (data : Data)
  : M Event Data :=
  match src_dt source, src_sliprate source with
  | Some source_dt, Some source_sliprate =>
      let* order := dict_get stf_map (stf (info self)) in
      if negb (existsb (Z.eqb order) [0; 1]) then
        raise (NotImplementedError
                 ("deconvolution not implemented for stf "
                  +:+ stf (info self)))
      else
        let* order' := dict_get stf_map (stf (info self)) in
        let* reference := stf_deconv_get stf_deconv_map order' in
        let* _ := emit (Rfft reference (nfft (info self))) in
        let stf_deconv_f := rfft reference (nfft (info self)) in
        if fgtb (fabs (fdiv (fsub source_dt (info_dt (info self)))
                            (info_dt (info self))))
                (lit 1 (-7))
        then raise (ValueError "dt of the source not compatible")
        else
          let* _ := emit (Rfft source_sliprate (nfft (info self))) in
          let stf_conv_f := rfft source_sliprate (nfft (info self)) in
          let stf_conv_f :=
            match src_time_shift source with
            | Some ts =>
                spec_mul stf_conv_f
                  (phase_ramp (nfft (info self)) ts (info_dt (info self)))
            | None => stf_conv_f
            end in
          let* x := get_series data comp in
          let* _ := emit (Rfft x (nfft (info self))) in
          let dataf := rfft x (nfft (info self)) in
          let* _ := emit Irfft in
          ret (set_series data comp
                 (slice_to (npts (info self))
                    (irfft (spec_div (spec_mul dataf stf_conv_f)
                                     stf_deconv_f))))
  | _, _ => raise (ValueError "source has no source time function")
  end.

(** Lines 150-167: resampling to the requested [dt]; the second component
    is the new value of [time_shift]. *)
Definition resample (dt : option F) (a_lanczos : Z) (comp : string)
    (data : Data) : M Event (Data * F) :=
  match dt with
  | Some dt =>
      let shift := round_nd (fmod (src_shift (info self)) dt) 8 in
      let* x := get_series data comp in
      let duration :=
        fsub (fmul (of_int (Z.of_nat (length x) - 1)) (info_dt (info self)))
             shift in
      let new_npts := int_of (round_nd (fdiv duration dt) 6) + 1 in
      let* _ := emit (Resample comp x (of_int 0) (info_dt (info self))
                               shift dt new_npts a_lanczos "blackman") in
      ret (set_series data comp
             (lanczos_interpolation pkg x (of_int 0) (info_dt (info self))
                shift dt new_npts a_lanczos "blackman"),
           fsub (src_shift (info self)) shift)
  | None => ret (data, src_shift (info self))
  end.

(** Line 172, one pass of [data[comp] = np.gradient(data[comp], [dt_out])] *)
Definition differentiate (dt_out : F) (comp : string) (data : Data)
  : M Event Data :=
  let* x := get_series data comp in
  let* _ := emit (Gradient comp x dt_out) in
  ret (set_series data comp (np_gradient x dt_out)).

(** Line 176, one pass of
    [data[comp] = cumtrapz(data[comp], dx=dt_out, initial=0.0)] *)
Definition integrate (dt_out : F) (comp : string) (data : Data)
  : M Event Data :=
  let* x := get_series data comp in
  let* _ := emit (Cumtrapz comp x dt_out) in
  ret (set_series data comp (cumtrapz x dt_out)).

(** Lines 180-189 *)
Definition remove_shift (dt : option F)
    (remove_source_shift reconvolve_stf : bool) (comp : string)
    (data : Data) (time_shift : F) : M Event (Data * F) :=
  if remove_source_shift then
    let* x := get_series data comp in
    match dt with
    | Some dt =>
        ret (set_series data comp
               (slice_from (round_int (int_of (fdiv time_shift dt)) 8) x),
             of_int 0)
    | None =>
        ret (set_series data comp
               (slice_from (src_shift_samples (info self)) x),
             of_int 0)
    end
  else if reconvolve_stf then ret (data, of_int 0)
  else ret (data, time_shift).

(** The body of [for comp in components] (lines 119-189).  The loop
    carries the dictionary and the local [time_shift], unbound ([None])
    until an iteration has assigned it. *)
Definition process_component (source : SourceObj) (n_derivative : Z)
    (dt_out : F) (dt : option F) (a_lanczos : Z)
    (remove_source_shift reconvolve_stf : bool)
    (comp : string) (st : Data * option F) : M Event (Data * option F) :=
  let* data :=
    if reconvolve_stf then reconvolve source comp (fst st)
    else ret (fst st) in
  let* (data, time_shift) := resample dt a_lanczos comp data in
  let* data :=
    repeat_step (np_arange n_derivative) (differentiate dt_out comp) data in
  let* data :=
    repeat_step (np_arange (- n_derivative)) (integrate dt_out comp) data in
  let* (data, time_shift) :=
    remove_shift dt remove_source_shift reconvolve_stf comp data
                 time_shift in
  ret (data, Some time_shift).

Definition _convert_to_stream (source : SourceObj) (receiver : ReceiverObj)
    (components : list string) (data : Data) (dt_out time_shift : F)
  : M Event (list Trace) :=
  let origin_time :=
    match origin_time source with
    | Some t => t
    | None => utc_of_int 0
    end in
  let origin_time := utc_sub origin_time time_shift in
  let band_code := get_band_code pkg dt_out in
  for_each components
    (fun comp st =>
       let* x := get_series data comp in
       ret (st ++ [{| tr_data := x;
                      delta := dt_out;
                      starttime := Some origin_time;
                      tr_station := station receiver;
                      tr_network := network receiver;
                      channel := band_code +:+ "X" +:+ comp;
                      instaseis_mu := Some (mu data) |}]))
    [].

Definition get_seismograms
    (source : SourceArg) (receiver : ReceiverArg)
    (components : list string) (kind : string)
    (remove_source_shift reconvolve_stf return_obspy_stream : bool)
    (dt : option F) (a_lanczos : Z) : M Event Ret :=
  let* (source, receiver) :=
    _get_seismograms_sanity_checks source receiver components kind in
  let* _ := emit (Extract components) in
  let* data := lift (_get_seismograms self source receiver components) in
  let dt_out :=
    match dt with
    | None => info_dt (info self)
    | Some dt => dt
    end in
  let* kind_order := dict_get kind_map kind in
  let* stf_order := dict_get stf_map (stf (info self)) in
  let n_derivative := kind_order - stf_order in
  let n_derivative :=
    if is_force_source source then n_derivative + 2 else n_derivative in
  if reconvolve_stf && remove_source_shift then
    raise (ValueError
      "'remove_source_shift' argument not compatible with 'reconvolve_stf'.")
  else
    let* (data, time_shift) :=
      for_each components
        (process_component source n_derivative dt_out dt a_lanczos
                           remove_source_shift reconvolve_stf)
        (data, None) in
    if return_obspy_stream then
      let* time_shift :=
        match time_shift with
        | Some t => ret t
        | None => raise (UnboundLocalError "time_shift")
        end in
      let* st := _convert_to_stream source receiver components data
                                    dt_out time_shift in
      ret (RetStream st)
    else ret (RetData data).

(** [corr_fac]: the one-element tuple [(data["mu"] / DEFAULT_MU,)] left by
    the trailing comma of line 293, or the integer [1]. *)
Inductive CorrFac : Type :=
| CorrTuple (f : F)
| CorrInt (k : Z).

(** [x * corr_fac] for an array [x]: a one-element tuple broadcasts over
    the array like a scalar. *)
Definition arr_mul (x : list F) (c : CorrFac) : list F :=
  match c with
  | CorrTuple f => map (fun v => fmul v f) x
  | CorrInt k => map (fun v => fmul v (of_int k)) x
  end.

(** [acc += y] on arrays: elementwise when the lengths agree, a
    one-element [y] broadcasts, anything else cannot be broadcast. *)
Definition np_iadd (acc y : list F) : M Event (list F) :=
  if Nat.eqb (length acc) (length y) then ret (zip_with fadd acc y)
  else
    match y with
    | [v] => ret (map (fun u => fadd u v) acc)
    | _ => raise (ValueError "operands could not be broadcast together")
    end.

(** Lines 298-301 *)
Definition accumulate (data : Data) (corr_fac : CorrFac) (comp : string)
    (data_summed : gmap string (list F)) : M Event (gmap string (list F)) :=
  match data_summed !! comp with
  | Some acc =>
      let* x := get_series data comp in
      let* acc' := np_iadd acc (arr_mul x corr_fac) in
      ret (<[comp := acc']> data_summed)
  | None =>
      let* x := get_series data comp in
      ret (<[comp := arr_mul x corr_fac]> data_summed)
  end.

(** Lines 287-305, [for _i, source in enumerate(sources)].  The state is
    [data_summed] and the local [data] (unbound before the first source);
    the result is [None] when the callback cancelled the run. *)
Fixpoint sum_sources (receiver : ReceiverArg) (components : list string)
    (correct_mu : bool) (progress_callback : option (Z -> Z -> bool))
    (count _i : Z) (sources : list SourceArg)
    (st : gmap string (list F) * option Data)
  : M Event (option (gmap string (list F) * option Data)) :=
  match sources with
  | [] => ret (Some st)
  | source :: sources' =>
      let* r := get_seismograms source receiver components "displacement"
                                false true false None 5 in
      let* data :=
        match r with
        | RetData d => ret d
        | RetStream _ => raise (TypeError "string indices must be integers")
        end in
      let corr_fac :=
        if correct_mu then CorrTuple (fdiv (mu data) DEFAULT_MU)
        else CorrInt 1 in
      let* data_summed :=
        for_each components (accumulate data corr_fac) (fst st) in
      let* cancel :=
        match progress_callback with
        | Some callback =>
            let* _ := emit (Progress (_i + 1) count) in
            ret (callback (_i + 1) count)
        | None => ret false
        end in
      if cancel then ret None
      else sum_sources receiver components correct_mu progress_callback
                       count (_i + 1) sources' (data_summed, Some data)
  end.

(** Lines 308-319, the body of the final resampling loop. *)
Definition final_resample (data : option Data) (dt : F) (a_lanczos : Z)
    (comp : string) (data_summed : gmap string (list F))
  : M Event (gmap string (list F)) :=
  let starttime :=
    round_nd
      (fsub (src_shift (info self))
            (fmul (of_int (int_of (round_nd
                                     (fdiv (src_shift (info self)) dt) 5)))
                  dt))
      5 in
  let* data :=
    match data with
    | Some d => ret d
    | None => raise (UnboundLocalError "data")
    end in
  let* x := get_series data comp in
  let duration :=
    fsub (fmul (of_int (Z.of_nat (length x) - 1)) (info_dt (info self)))
         starttime in
  let new_npts := int_of (round_nd (fdiv duration dt) 5) + 1 in
  let* x := get_series data comp in
  let* _ := emit (Resample comp x (of_int 0) (info_dt (info self))
                           starttime dt new_npts a_lanczos "blackman") in
  ret (<[comp := lanczos_interpolation pkg x (of_int 0)
                   (info_dt (info self)) starttime dt new_npts a_lanczos
                   "blackman"]> data_summed).

(** The result is [None] when the progress callback asked to cancel. *)
Definition get_seismograms_finite_source
    (sources : list SourceArg) (receiver : ReceiverArg)
    (components : list string) (kind : string) (dt : option F)
    (a_lanczos : Z) (correct_mu : bool)
    (progress_callback : option (Z -> Z -> bool))
  : M Event (option (list Trace)) :=
  if negb (is_reciprocal (info self)) then raise (NotImplementedError "")
  else
    let count := Z.of_nat (length sources) in
    let* r := sum_sources receiver components correct_mu progress_callback
                          count 0 sources (∅, None) in
    match r with
    | None => ret None
    | Some (data_summed, data) =>
        let* data_summed :=
          match dt with
          | Some dt =>
              for_each components (final_resample data dt a_lanczos)
                       data_summed
          | None => ret data_summed
          end in
        let dt :=
          match dt with
          | None => info_dt (info self)
          | Some dt => dt
          end in
        let band_code := get_band_code pkg dt in
        let* st :=
          for_each components
            (fun comp st =>
               match data_summed !! comp with
               | Some x =>
                   match receiver with
                   | IsReceiver receiver =>
                       ret (st ++ [{| tr_data := x;
                                      delta := dt;
                                      starttime := None;
                                      tr_station := station receiver;
                                      tr_network := network receiver;
                                      channel := band_code +:+ "X" +:+ comp;
                                      instaseis_mu := None |}])
                   | ToParseReceiver _ => raise (AttributeError "station")
                   end
               | None => raise (KeyError comp)
               end)
            [] in
        ret (Some st)
    end.

End Model.

Arguments ReceiverObj : clear implicits.
Arguments Info : clear implicits.
Arguments Data : clear implicits.
Arguments Event : clear implicits.
Arguments SourceObj F {_}.
Arguments Package F {_}.
Arguments DB F {_}.
Arguments Trace F {_}.
Arguments Ret F {_}.
Arguments CorrFac : clear implicits.

End Instaseis.

(** ** The processing steps as functions of one series

    What the specification says each step of the pipeline does to the
    series of one component, written without the dictionary, the loop and
    the exceptions.  The theorems below relate the code to these. *)

Module Pipeline.
Import Instaseis.

Section Steps.
Context {F : Type} `{Numeric F} `{Libs F}.
Variable pkg : Package F.
Variable self : DB F.

(** [n_derivative]: kind order minus STF order, two more for a force
    source. *)
Definition derivative_order (kind_order stf_order : Z) (force : bool) : Z :=
  if force then kind_order - stf_order + 2 else kind_order - stf_order.

Definition output_dt (dt : option F) : F :=
  match dt with
  | Some d => d
  | None => info_dt (info self)
  end.

(** The alignment shift as the specification words it: the source shift of
    the database modulo the new sampling interval. *)
Definition shift_modulo (dt : F) : F := fmod (src_shift (info self)) dt.

(** The alignment shift the resampler receives: [shift_modulo] rounded to
    eight decimal places. *)
Definition alignment_shift (dt : F) : F := round_nd (shift_modulo dt) 8.

(** Duration of a series of [len] samples after the alignment shift,
    divided by the new interval, rounded to six decimal places, cut to an
    integer, plus one. *)
Definition sample_count (len : nat) (dt : F) : Z :=
  int_of (round_nd
            (fdiv (fsub (fmul (of_int (Z.of_nat len - 1))
                              (info_dt (info self)))
                        (alignment_shift dt))
                  dt)
            6) + 1.

(** The time shift that remains after resampling. *)
Definition remaining_shift (dt : option F) : F :=
  match dt with
  | Some d => fsub (src_shift (info self)) (alignment_shift d)
  | None => src_shift (info self)
  end.

(** The time shift handed to the output once the loop is over. *)
Definition final_time_shift (dt : option F)
    (remove_source_shift reconvolve_stf : bool) : F :=
  if remove_source_shift || reconvolve_stf then of_int 0
  else remaining_shift dt.

(** The number of leading samples that stand for the remaining shift. *)
Definition dropped_samples (dt : option F) : Z :=
  match dt with
  | Some d => int_of (fdiv (remaining_shift dt) d)
  | None => src_shift_samples (info self)
  end.

Definition reference_kernel (order : Z) : list F :=
  if order =? 0 then sliprate (info self) else slip (info self).

Definition reconvolved (source : SourceObj F) (order : Z) (x : list F)
  : list F :=
  match src_sliprate source with
  | Some source_sliprate =>
      let conv := rfft source_sliprate (nfft (info self)) in
      let conv :=
        match src_time_shift source with
        | Some ts =>
            spec_mul conv
              (phase_ramp (nfft (info self)) ts (info_dt (info self)))
        | None => conv
        end in
      slice_to (npts (info self))
        (irfft (spec_div (spec_mul (rfft x (nfft (info self))) conv)
                         (rfft (reference_kernel order) (nfft (info self)))))
  | None => x
  end.

Definition resampled (dt : option F) (a_lanczos : Z) (x : list F) : list F :=
  match dt with
  | Some d =>
      lanczos_interpolation pkg x (of_int 0) (info_dt (info self))
        (alignment_shift d) d (sample_count (length x) d) a_lanczos "blackman"
  | None => x
  end.

(** [n] successive differentiations for [n > 0], none otherwise. *)
Definition differentiated (n : Z) (dt_out : F) (x : list F) : list F :=
  Nat.iter (Z.to_nat n) (fun y => np_gradient y dt_out) x.

(** [- n] successive integrations for [n < 0], none otherwise. *)
Definition integrated (n : Z) (dt_out : F) (x : list F) : list F :=
  Nat.iter (Z.to_nat (- n)) (fun y => cumtrapz y dt_out) x.

Definition shift_removed (dt : option F) (remove_source_shift : bool)
    (x : list F) : list F :=
  if remove_source_shift then slice_from (dropped_samples dt) x else x.

(** The series of one component before the source shift is removed. *)
Definition before_shift_removal (source : SourceObj F) (stf_order n : Z)
    (dt : option F) (a_lanczos : Z) (reconvolve_stf : bool) (x : list F)
  : list F :=
  integrated n (output_dt dt)
    (differentiated n (output_dt dt)
       (resampled dt a_lanczos
          (if reconvolve_stf then reconvolved source stf_order x else x))).

(** One pass of the component loop over the series of that component. *)
Definition processed (source : SourceObj F) (stf_order n : Z)
    (dt : option F) (a_lanczos : Z) (remove_source_shift reconvolve_stf : bool)
    (x : list F) : list F :=
  shift_removed dt remove_source_shift
    (before_shift_removal source stf_order n dt a_lanczos reconvolve_stf x).

(** The contribution of one point source to the sum of a component. *)
Definition contribution (correct_mu : bool) (d : Data F) (comp : string)
  : list F :=
  match series d !! comp with
  | Some x =>
      if correct_mu then map (fun v => fmul v (fdiv (mu d) (lit 32 9))) x
      else x
  | None => []
  end.

(** Componentwise sum of two arrays; a one-element right operand is added
    to every entry. *)
Definition add_arrays (acc y : list F) : list F :=
  if Nat.eqb (length acc) (length y) then zip_with fadd acc y
  else
    match y with
    | [v] => map (fun u => fadd u v) acc
    | _ => acc
    end.

Definition add_contribution (comp : string) (y : list F)
    (m : gmap string (list F)) : gmap string (list F) :=
  match m !! comp with
  | Some acc => <[comp := add_arrays acc y]> m
  | None => <[comp := y]> m
  end.

(** The running sum after the contributions of one more source. *)
Definition add_source (correct_mu : bool) (components : list string)
    (m : gmap string (list F)) (d : Data F) : gmap string (list F) :=
  foldl (fun m comp => add_contribution comp (contribution correct_mu d comp) m)
        m components.

(** The start time and the sample count of the final resampling pass of
    [get_seismograms_finite_source]: the source shift of the database minus
    the whole number of new intervals it holds, rounded to five decimal
    places, and the sample count that follows from it. *)
Definition finite_starttime (dt : F) : F :=
  round_nd
    (fsub (src_shift (info self))
          (fmul (of_int (int_of (round_nd
                                   (fdiv (src_shift (info self)) dt) 5)))
                dt))
    5.

Definition finite_sample_count (len : nat) (dt : F) : Z :=
  int_of (round_nd
            (fdiv (fsub (fmul (of_int (Z.of_nat len - 1))
                              (info_dt (info self)))
                        (finite_starttime dt))
                  dt)
            5) + 1.

Definition finite_resampled (dt : F) (a_lanczos : Z) (x : list F) : list F :=
  lanczos_interpolation pkg x (of_int 0) (info_dt (info self))
    (finite_starttime dt) dt (finite_sample_count (length x) dt)
    a_lanczos "blackman".

End Steps.

End Pipeline.

(** The statements of [get_seismograms] after the component loop
    (lines 191-197), as a function of the state the loop leaves. *)

Module Epilogue.
Import Instaseis.

Definition is_not_implemented (e : Exc) : bool :=
  match e with
  | NotImplementedError _ => true
  | _ => false
  end.

(** The computation does not end in a [NotImplementedError]. *)
Definition implemented {E A} (m : M E A) : Prop :=
  match snd m with
  | inl e => is_not_implemented e = false
  | inr _ => True
  end.

Definition is_warning {F} (ev : Event F) : bool :=
  match ev with
  | Warn _ => true
  | _ => false
  end.

(** Every event of the computation satisfies [P]. *)
Definition log_sat {E A} (P : E -> Prop) (m : M E A) : Prop :=
  Forall P (fst m).

(** Calls of [np.gradient] and of [cumtrapz] for the entry of [comp]. *)
Definition is_gradient_of {F} (comp : string) (ev : Event F) : bool :=
  match ev with
  | Gradient c _ _ => String.eqb c comp
  | _ => false
  end.

Definition is_cumtrapz_of {F} (comp : string) (ev : Event F) : bool :=
  match ev with
  | Cumtrapz c _ _ => String.eqb c comp
  | _ => false
  end.

Definition is_resample_of {F} (comp : string) (ev : Event F) : bool :=
  match ev with
  | Resample c _ _ _ _ _ _ _ _ => String.eqb c comp
  | _ => false
  end.

Definition calls {E} (p : E -> bool) (l : list E) : nat :=
  length (List.filter p l).

(** How often [comp] is listed in [components]. *)
Definition occurrences (comp : string) (components : list string) : nat :=
  length (List.filter (fun c => String.eqb c comp) components).

Section Epilogue.
Context {F : Type} `{Numeric F} `{Libs F}.
Variable pkg : Package F.

Definition epilogue (source : SourceObj F) (receiver : ReceiverObj F)
    (components : list string) (dt_out : F) (return_obspy_stream : bool)
    (st : Data F * option F) : M (Event F) (Ret F) :=
  let '(data, time_shift) := st in
  if return_obspy_stream then
    let* time_shift :=
      match time_shift with
      | Some t => ret t
      | None => raise (UnboundLocalError "time_shift")
      end in
    let* tr := _convert_to_stream pkg source receiver components data
                                  dt_out time_shift in
    ret (RetStream tr)
  else ret (RetData data).

Definition origin_of (source : SourceObj F) : UTCDateTime :=
  match origin_time source with
  | Some t => t
  | None => utc_of_int 0
  end.

(** The result holds, for the requested components, the series of [m]. *)
Definition delivers (res : Ret F) (components : list string)
    (m : gmap string (list F)) : Prop :=
  match res with
  | RetData d => series d = m
  | RetStream st =>
      Forall2 (fun comp tr => m !! comp = Some (tr_data tr)) components st
  end.

(** Every trace of a stream result starts at [t]. *)
Definition starts_at (res : Ret F) (t : UTCDateTime) : Prop :=
  match res with
  | RetData _ => True
  | RetStream st => st <> [] /\ Forall (fun tr => starttime tr = Some t) st
  end.

(** A call of the resampler made by [get_seismograms] for the new
    interval [dt]: old series starting at [0] with the interval of the
    database, new start the alignment shift, the sample count computed from
    the length of the series it is given, Blackman window. *)
Definition resample_call_ok (self : DB F) (dt : F) (a_lanczos : Z)
    (ev : Event F) : Prop :=
  match ev with
  | Resample _ x old_start old_dt new_start new_dt new_npts a window =>
      old_start = of_int 0
      /\ old_dt = info_dt (info self)
      /\ new_start = Pipeline.alignment_shift self dt
      /\ new_dt = dt
      /\ new_npts = Pipeline.sample_count self (length x) dt
      /\ a = a_lanczos
      /\ window = "blackman"%string
  | _ => True
  end.

End Epilogue.

End Epilogue.

(** ** A concrete arithmetic: decimal fixed point

    Numbers with nine decimal places, [v] standing for [v * 10 ^ -9];
    arithmetic is exact up to the last place, which is rounded half to
    even.  The instance is used to run the model on concrete inputs. *)

Module Fixed9.
Import Instaseis.

Definition unit9 : Z := 10 ^ 9.

Definition rdiv (a b : Z) : Z :=
  if b =? 0 then 0
  else if b <? 0 then round_half_even_div (- a) (- b)
  else round_half_even_div a b.

Definition lit9 (m e : Z) : Z :=
  if 0 <=? e + 9 then m * 10 ^ (e + 9) else rdiv m (10 ^ (- (e + 9))).

Definition round9 (x ndigits : Z) : Z :=
  if 9 <=? ndigits then x
  else let p := 10 ^ (9 - ndigits) in p * round_half_even_div x p.

Lemma mul_one9 (x : Z) : rdiv (x * (1 * unit9)) unit9 = x.
Proof.
  unfold rdiv, round_half_even_div, unit9. simpl (1 * _).
  change (10 ^ 9 =? 0) with false. change (10 ^ 9 <? 0) with false. cbv iota.
  rewrite Z.div_mul by lia. rewrite Z.mod_mul by lia.
  reflexivity.
Qed.

#[export] Instance numeric9 : Numeric Z := {|
  of_int := fun k => k * unit9;
  lit := lit9;
  fadd := Z.add;
  fsub := Z.sub;
  fmul := fun a b => rdiv (a * b) unit9;
  fdiv := fun a b => rdiv (a * unit9) b;
  fmod := Z.modulo;
  fabs := Z.abs;
  fgtb := fun a b => b <? a;
  round_nd := round9;
  int_of := fun x => Z.quot x unit9;
  fmul_1_r := mul_one9
|}.

(** [np.gradient] with uniform spacing: central differences inside,
    one-sided differences at both ends. *)
Fixpoint central (prev : Z) (l : list Z) (dx : Z) : list Z :=
  match l with
  | [] => []
  | [x] => [rdiv ((x - prev) * unit9) dx]
  | x :: ((y :: _) as l') =>
      rdiv ((y - prev) * unit9) (2 * dx) :: central x l' dx
  end.

Definition gradient9 (l : list Z) (dx : Z) : list Z :=
  match l with
  | x :: ((y :: _) as l') => rdiv ((y - x) * unit9) dx :: central x l' dx
  | _ => l
  end.

(** [cumtrapz(x, dx=dx, initial=0.0)] *)
Fixpoint trapz_from (acc prev : Z) (l : list Z) (dx : Z) : list Z :=
  match l with
  | [] => []
  | y :: l' =>
      let acc' := acc + rdiv (rdiv ((prev + y) * dx) unit9) 2 in
      acc' :: trapz_from acc' y l' dx
  end.

Definition cumtrapz9 (l : list Z) (dx : Z) : list Z :=
  match l with
  | [] => []
  | x :: l' => 0 :: trapz_from 0 x l' dx
  end.

(** Stand-ins for the transforms: a spectrum is the padded or cut signal
    itself, so that multiplying and dividing by the same kernel returns the
    signal. *)
Definition resize (n : Z) (x : list Z) : list Z :=
  take (Z.to_nat n) x ++ replicate (Z.to_nat n - length x)%nat 0.

#[export] Instance libs9 : Libs Z := {|
  Spectrum := list Z;
  rfft := fun x n => resize n x;
  irfft := fun s => s;
  spec_mul := zip_with (fun a b => rdiv (a * b) unit9);
  spec_div := zip_with (fun a b => rdiv (a * unit9) b);
  phase_ramp := fun n _ _ => replicate (Z.to_nat n) unit9;
  np_gradient := gradient9;
  cumtrapz := cumtrapz9;
  UTCDateTime := Z;
  utc_of_int := fun k => k * unit9;
  utc_sub := Z.sub
|}.

End Fixed9.

(** ** A small database to run the model on *)

Module Demo.
Import Instaseis Fixed9.

(** Stand-in for [lanczos.lanczos_interpolation]: the new series takes the
    old samples in order, cut or zero-padded to [new_npts]. *)
Definition demo_pkg : Package Z := {|
  Raw := unit;
  parse_source := fun _ => inl (ValueError "nothing to parse");
  parse_receiver := fun _ => inl (ValueError "nothing to parse");
  lanczos_interpolation :=
    fun data _ _ _ _ new_npts _ _ => resize new_npts data;
  get_band_code := fun _ => "L"
|}.

Definition ramp (slope : Z) : list Z :=
  map (fun k => slope * Z.of_nat k) (seq 1 6).

(** Sampling interval 1 s, six samples, source shift 2.123456789 s. *)
Definition demo_info (tag : string) : Info Z := {|
  is_reciprocal := true;
  info_components := ["vertical"; "horizontal"];
  info_dt := 1 * unit9;
  npts := 6;
  nfft := 8;
  stf := tag;
  slip := replicate 6 unit9;
  sliprate := replicate 6 unit9;
  src_shift := 2123456789;
  src_shift_samples := 2
|}.

(** Every requested component gets a ramp whose slope is the first sample
    of the sliprate of the source (slope 1 without one); [mu] is 64e9. *)
Definition demo_extract (s : SourceObj Z) (r : ReceiverObj Z)
    (components : list string) : Exc + Data Z :=
  let slope :=
    match src_sliprate s with
    | Some (a :: _) => a
    | _ => 1 * unit9
    end in
  inr {| series := list_to_map (map (fun c => (c, ramp slope)) components);
         mu := 64 * 10 ^ 18 |}.

Definition demo_db (tag : string) : DB Z := {|
  info := demo_info tag;
  _get_seismograms := demo_extract
|}.

Definition point_source (amplitude : Z) : SourceObj Z := {|
  is_force_source := false;
  src_dt := Some (1 * unit9);
  src_sliprate := Some (replicate 6 (amplitude * unit9));
  src_time_shift := None;
  src_depth_in_m := None;
  origin_time := None
|}.

Definition bare_source : SourceObj Z := {|
  is_force_source := false;
  src_dt := None;
  src_sliprate := None;
  src_time_shift := None;
  src_depth_in_m := None;
  origin_time := None
|}.

Definition demo_receiver : ReceiverObj Z := {|
  rec_depth_in_m := None;
  station := "STA";
  network := "NW"
|}.

Definition strong_source : SourceArg demo_pkg := IsSource demo_pkg (point_source 3).
Definition weak_source : SourceArg demo_pkg := IsSource demo_pkg (point_source 2).
Definition stf_less_source : SourceArg demo_pkg := IsSource demo_pkg bare_source.
Definition the_receiver : ReceiverArg demo_pkg := IsReceiver demo_pkg demo_receiver.

(** The series the database holds for the strong source, and [mu]. *)
Definition strong_data (components : list string) : Data Z := {|
  series := list_to_map (map (fun c => (c, ramp (3 * unit9))) components);
  mu := 64 * 10 ^ 18
|}.

(** Velocity seismogram resampled to 1 s, source shift removed, as a
    stream. *)
Definition velocity_run : M (Event Z) (Ret Z) :=
  get_seismograms demo_pkg (demo_db "errorf") strong_source the_receiver
    ["Z"] "velocity" true false true (Some (1 * unit9)) 5.

(** Two sources summed with the shear-modulus correction. *)
Definition corrected_sum_run : M (Event Z) (option (list (Trace Z))) :=
  get_seismograms_finite_source demo_pkg (demo_db "errorf")
    [strong_source; weak_source] the_receiver ["Z"] "displacement" None 5
    true None.

(** One source, two distinct components. *)
Definition single_source_run : M (Event Z) (option (list (Trace Z))) :=
  get_seismograms_finite_source demo_pkg (demo_db "errorf")
    [strong_source] the_receiver ["Z"; "N"] "displacement" None 5 false None.

(** The value of a computation that succeeded. *)
Definition value_or {E A} (default : A) (m : M E A) : A :=
  match snd m with
  | inr a => a
  | inl _ => default
  end.

(** The traces of a finite-source run, and one series of a dictionary
    result. *)
Definition traces_of (m : M (Event Z) (option (list (Trace Z))))
  : list (Trace Z) :=
  match snd m with
  | inr (Some st) => st
  | _ => []
  end.

Definition series_of (comp : string) (m : M (Event Z) (Ret Z))
  : option (list Z) :=
  match snd m with
  | inr (RetData d) => series d !! comp
  | _ => None
  end.

(** A package that parses: a number [k] stands for a source of that
    amplitude, and for a file of [k] stations. *)
Definition parsing_pkg : Package Z := {|
  Raw := nat;
  parse_source := fun k => inr (point_source (Z.of_nat k));
  parse_receiver := fun k => inr (replicate k demo_receiver);
  lanczos_interpolation :=
    fun data _ _ _ _ new_npts _ _ => resize new_npts data;
  get_band_code := fun _ => "L"
|}.

(** A database that returns the shear modulus and no series. *)
Definition no_series : Data Z := {| series := ∅; mu := 64 * 10 ^ 18 |}.

Definition silent_db : DB Z := {|
  info := demo_info "errorf";
  _get_seismograms := fun _ _ _ => inr no_series
|}.

(** The traces of a stream result. *)
Definition stream_of (m : M (Event Z) (Ret Z)) : list (Trace Z) :=
  match snd m with
  | inr (RetStream st) => st
  | _ => []
  end.

(** Velocity for two components, as a dictionary, nothing else asked. *)
Definition two_component_run : M (Event Z) (Ret Z) :=
  get_seismograms demo_pkg (demo_db "errorf") strong_source the_receiver
    ["Z"; "N"] "velocity" false false false None 5.

(** Three sources; the callback asks to stop at the second report. *)
Definition stop_at_second (i count : Z) : bool := 2 <=? i.

Definition cancelled_run : M (Event Z) (option (list (Trace Z))) :=
  get_seismograms_finite_source demo_pkg (demo_db "errorf")
    [strong_source; weak_source; strong_source] the_receiver ["Z"]
    "displacement" None 5 false (Some stop_at_second).

(** The loop over the sources for the strong source alone, as the first
    of three. *)
Definition first_of_three
  : M (Event Z) (option (gmap string (list Z) * option (Data Z))) :=
  sum_sources demo_pkg (demo_db "errorf") the_receiver ["Z"] false None
    (Z.of_nat (length ([strong_source] ++ stf_less_source :: [weak_source])))
    0 [strong_source] (∅, None).

Definition sum_state_of
    (m : M (Event Z) (option (gmap string (list Z) * option (Data Z))))
  : gmap string (list Z) * option (Data Z) :=
  match snd m with
  | inr (Some st) => st
  | _ => (∅, None)
  end.

(** Two sources summed and resampled to 2 s. *)
Definition resampled_sum_run : M (Event Z) (option (list (Trace Z))) :=
  get_seismograms_finite_source demo_pkg (demo_db "errorf")
    [strong_source; weak_source] the_receiver ["Z"] "displacement"
    (Some (2 * unit9)) 5 false None.

(** Displacement resampled to 1 s, source shift removed, as a stream. *)
Definition shift_removal_run : M (Event Z) (Ret Z) :=
  get_seismograms demo_pkg (demo_db "errorf") strong_source the_receiver
    ["Z"] "displacement" true false true (Some (1 * unit9)) 5.

(** A database computed with a Gaussian source time function (tag
    [gauss_0], order 1) whose slip is 2, 1, 1, 1, 1, 1, and a source with
    three times that sliprate: reconvolution multiplies every series by
    three. *)
Definition reference_slip : list Z :=
  map (fun k => k * unit9) [2; 1; 1; 1; 1; 1].

Definition gauss_info : Info Z := {|
  is_reciprocal := true;
  info_components := ["vertical"; "horizontal"];
  info_dt := 1 * unit9;
  npts := 6;
  nfft := 8;
  stf := "gauss_0";
  slip := reference_slip;
  sliprate := reference_slip;
  src_shift := 2123456789;
  src_shift_samples := 2
|}.

Definition gauss_db : DB Z := {|
  info := gauss_info;
  _get_seismograms := demo_extract
|}.

Definition tripled_source : SourceObj Z := {|
  is_force_source := false;
  src_dt := Some (1 * unit9);
  src_sliprate := Some (map (fun v => 3 * v) reference_slip);
  src_time_shift := None;
  src_depth_in_m := None;
  origin_time := None
|}.

(** The finite-source call for that one source, and the direct call. *)
Definition finite_run_of_kind (kind : string)
  : M (Event Z) (option (list (Trace Z))) :=
  get_seismograms_finite_source demo_pkg gauss_db
    [IsSource demo_pkg tripled_source] the_receiver ["Z"] kind None 5
    false None.

Definition direct_run_of_kind (kind : string) : M (Event Z) (Ret Z) :=
  get_seismograms demo_pkg gauss_db (IsSource demo_pkg tripled_source)
    the_receiver ["Z"] kind false true true None 5.

End Demo.


(** ** axisem_db/spectral_basis.py: the interpolation wrapper *)

Module Interpolation.

(** The coefficient array: its leading dimension [coefficients.shape[0]],
    which is the number of time samples, and its entries. *)
Record Coefficients (F : Type) : Type := {
  shape0 : nat;
  entries : list F
}.
Arguments shape0 {F}.
Arguments entries {F}.

(** The call of [lib.lagrange_interpol_2D_td], with the two integers it
    receives. *)
Inductive Event : Type :=
| Interpolate (N nsamp : Z).

Section Wrapper.
Context {F : Type}.
Variable zero : F.

(** The compiled routine: order, number of samples, the two node sets, the
    coefficients, the target coordinates and the output buffer it fills. *)
Variable lib_lagrange_interpol_2D_td :
  Z -> Z -> list F -> list F -> list F -> F -> F -> list F -> list F.

Definition lagrange_interpol_2D_td (points1 points2 : list F)
    (coefficients : Coefficients F) (x1 x2 : F) : M Event (list F) :=
  if negb (Nat.eqb (length points1) (length points2))
  then raise (ValueError "")
  else
    let N := Z.of_nat (length points1) - 1 in
    let nsamp := Z.of_nat (shape0 coefficients) in
    let interpolant := replicate (shape0 coefficients) zero in
    let* _ := emit (Interpolate (SpectralBasis.c_int N)
                                (SpectralBasis.c_int nsamp)) in
    ret (lib_lagrange_interpol_2D_td
           (SpectralBasis.c_int N) (SpectralBasis.c_int nsamp)
           points1 points2 (entries coefficients) x1 x2 interpolant).

End Wrapper.

End Interpolation.

(** ** instaseis/base_instaseis_db.py: [sizeof_fmt] and the [info] property *)

Module SizeFmt.

(** [sizeof_fmt(num)] for a finite number, taken as a rational: dividing by [1024.0]
    is exact in binary floating point, and so are the two comparisons, so
    the branches taken are those of the rationals.  The formatting
    ["%3.1f %s" % (num, x)] is a parameter. *)
Section Format.
Variable format_3_1f : Q -> string -> string.

Fixpoint sizeof_fmt_loop (units : list string) (num : Q) : string :=
  match units with
  | [] => format_3_1f num "TB"
  | x :: units' =>
      if Qlt_le_dec num 1024%Q then
        if Qlt_le_dec (-1024)%Q num then format_3_1f num x
        else sizeof_fmt_loop units' (num / 1024)%Q
      else sizeof_fmt_loop units' (num / 1024)%Q
  end.

Definition sizeof_fmt (num : Q) : string :=
  sizeof_fmt_loop ["bytes"; "KB"; "MB"; "GB"] num.

End Format.

End SizeFmt.

Module InfoCache.

(** The [info] property: [self.__cached_info] is returned when the
    attribute exists, otherwise [_get_info()] is called and its result kept.
    The state of the object is the cache and the number of calls of
    [_get_info] made so far; [_get_info k] is what the call number [k]
    returns or raises. *)
Record State (I : Type) : Type := {
  cached_info : option I;
  get_info_calls : nat
}.
Arguments cached_info {I}.
Arguments get_info_calls {I}.

Section Property.
Context {I : Type}.
Variable _get_info : nat -> Exc + I.

Definition info (st : State I) : (Exc + I) * State I :=
  match cached_info st with
  | Some i => (inr i, st)
  | None =>
      match _get_info (get_info_calls st) with
      | inr i =>
          (inr i, {| cached_info := Some i;
                     get_info_calls := S (get_info_calls st) |})
      | inl e =>
          (inl e, {| cached_info := None;
                     get_info_calls := S (get_info_calls st) |})
      end
  end.

(** [n] successive reads of the property: the results, then the state. *)
Fixpoint reads (n : nat) (st : State I) : list (Exc + I) * State I :=
  match n with
  | O => ([], st)
  | S n' =>
      let '(r, st') := info st in
      let '(rs, st'') := reads n' st' in
      (r :: rs, st'')
  end.

End Property.

End InfoCache.

(** ** Requests to [get_seismograms]

    What the sanity checks of lines 335-389 let through, said in one place:
    a known kind, known component letters, and, for a reciprocal database,
    the component sets it holds. *)

Module Request.
Import Instaseis.

Section Request.
Context {F : Type} `{Numeric F} `{Libs F}.
Variable self : DB F.

Definition known_kind (kind : string) : bool :=
  mem_str kind ["displacement"; "velocity"; "acceleration"].

Definition known_component (comp : string) : bool :=
  mem_str comp ["N"; "E"; "Z"; "R"; "T"].

Definition horizontal (comp : string) : bool :=
  mem_str comp ["N"; "E"; "R"; "T"].

(** The database holds what the components ask for. *)
Definition available (components : list string) : bool :=
  negb (is_reciprocal (info self))
  || (implb (existsb horizontal components)
            (mem_str "horizontal" (info_components (info self)))
      && implb (mem_str "Z" components)
               (mem_str "vertical" (info_components (info self)))).

Definition valid_request (components : list string) (kind : string) : bool :=
  known_kind kind && forallb known_component components
  && available components.

(** The warning about a depth that the database overrides. *)
Definition depth_warnings (source : SourceObj F) (receiver : ReceiverObj F)
  : list (Event F) :=
  if is_reciprocal (info self) then
    match rec_depth_in_m receiver with
    | Some _ =>
        [Warn
           "Receiver depth cannot be changed when reading from reciprocal DB. Using depth from the DB."]
    | None => []
    end
  else
    match src_depth_in_m source with
    | Some _ =>
        [Warn
           "Source depth cannot be changed when reading from forward DB. Using depth from the DB."]
    | None => []
    end.

(** The first component of the request that is not a component letter. *)
Definition first_unknown_component (components : list string)
  : option string :=
  List.find (fun comp => negb (known_component comp)) components.

(** The reports [(i, count)] handed to the progress callback. *)
Definition progress_reports (l : list (Event F)) : list (Z * Z) :=
  flat_map (fun ev =>
              match ev with
              | Progress i count => [(i, count)]
              | _ => []
              end) l.

Definition is_progress (ev : Event F) : bool :=
  match ev with
  | Progress _ _ => true
  | _ => false
  end.

(** The dictionary in which the entries of the listed components went
    through [f] once, the others not at all. *)
Definition process_requested (f : list F -> list F)
    (components : list string) (m : gmap string (list F))
  : gmap string (list F) :=
  map_imap (fun comp x =>
              Some (if decide (comp ∈ components) then f x else x)) m.

(** Whether a call without reconvolution and without resampling reads the
    series it extracted: it differentiates or integrates, cuts the source
    shift, or builds traces. *)
Definition reads_series (n_derivative : Z)
    (remove_source_shift return_obspy_stream : bool) : bool :=
  negb (n_derivative =? 0) || remove_source_shift || return_obspy_stream.

End Request.

End Request.

(** * Properties *)

(** ** The monad *)

Section MonadFacts.
Import Epilogue.
Context {E : Type}.

Lemma bind_ret_l {A B} (a : A) (k : A -> M E B) : bind (ret a) k = k a.
Proof. unfold bind, ret. simpl. destruct (k a); reflexivity. Qed.

Lemma bind_ok {A B} (m : M E A) (k : A -> M E B) l a :
  m = (l, inr a) -> bind m k = (l ++ fst (k a), snd (k a)).
Proof. intros ->. reflexivity. Qed.

Lemma bind_inr {A B} (m : M E A) (k : A -> M E B) l b :
  bind m k = (l, inr b) ->
  exists l1 a l2, m = (l1, inr a) /\ k a = (l2, inr b) /\ l = l1 ++ l2.
Proof.
  destruct m as [l1 [e | a]]; simpl; intros Hb; [discriminate |].
  exists l1, a, (fst (k a)). destruct (k a) as [l2 r]; simpl in *.
  inversion Hb; subst. auto.
Qed.

Lemma bind_emit {B} (ev : E) (k : unit -> M E B) :
  bind (emit ev) k = (ev :: fst (k tt), snd (k tt)).
Proof. reflexivity. Qed.

Lemma bind_lift_inr {A B} (a : A) (k : A -> M E B) :
  bind (lift (inr a)) k = k a.
Proof. apply bind_ret_l. Qed.

Lemma for_each_cons {A S} x xs (body : A -> S -> M E S) (s : S) :
  for_each (x :: xs) body s
  = bind (body x s) (fun s' => for_each xs body s').
Proof. reflexivity. Qed.

Lemma log_sat_ret {A} (P : E -> Prop) (a : A) : log_sat P (ret (E := E) a).
Proof. constructor. Qed.

Lemma log_sat_raise {A} (P : E -> Prop) e :
  log_sat P (raise (E := E) (A := A) e).
Proof. constructor. Qed.

Lemma log_sat_lift {A} (P : E -> Prop) (r : Exc + A) :
  log_sat P (lift (E := E) r).
Proof. constructor. Qed.

Lemma log_sat_emit (P : E -> Prop) ev : P ev -> log_sat P (emit ev).
Proof. intros Hev. constructor; [exact Hev | constructor]. Qed.

Lemma log_sat_bind {A B} (P : E -> Prop) (m : M E A) (k : A -> M E B) :
  log_sat P m -> (forall a, log_sat P (k a)) -> log_sat P (bind m k).
Proof.
  unfold log_sat. destruct m as [l [e | a]]; simpl; [auto |].
  intros Hl Hk. apply Forall_app. split; [exact Hl | apply Hk].
Qed.

Lemma log_sat_for_each {A S} (P : E -> Prop) (xs : list A)
    (body : A -> S -> M E S) s :
  (forall x s, log_sat P (body x s)) -> log_sat P (for_each xs body s).
Proof.
  intros Hbody. revert s. induction xs as [| x xs IH]; intros s; simpl.
  - constructor.
  - apply log_sat_bind; [apply Hbody | exact IH].
Qed.

Lemma log_sat_repeat_step {S} (P : E -> Prop) (n : nat)
    (step : S -> M E S) s :
  (forall s, log_sat P (step s)) -> log_sat P (repeat_step n step s).
Proof.
  intros Hstep. revert s. induction n as [| n IH]; intros s; simpl.
  - constructor.
  - apply log_sat_bind; [apply Hstep | exact IH].
Qed.

Lemma calls_app (p : E -> bool) (l1 l2 : list E) :
  calls p (l1 ++ l2) = (calls p l1 + calls p l2)%nat.
Proof. unfold calls. rewrite List.filter_app, length_app. reflexivity. Qed.

Lemma calls_none (p : E -> bool) (l : list E) :
  Forall (fun ev => p ev = false) l -> calls p l = 0%nat.
Proof.
  unfold calls. induction 1 as [| ev l Hev _ IH]; simpl; [reflexivity |].
  rewrite Hev. exact IH.
Qed.

End MonadFacts.

(** Splits a successful [bind] in a hypothesis into its two halves. *)
Ltac bind_inv H :=
  let l1 := fresh "l" in
  let a := fresh "a" in
  let l2 := fresh "l" in
  let H1 := fresh "Hrun" in
  let H2 := fresh "Hrun" in
  let Hl := fresh "Hlog" in
  apply bind_inr in H; destruct H as (l1 & a & l2 & H1 & H2 & Hl).

Tactic Notation "bind_split" hyp(H) "as" ident(a) ident(H1) ident(H2) :=
  apply bind_inr in H; destruct H as (?lg & a & ?lg & H1 & H2 & ?Hlg).

Tactic Notation "bind_cut" hyp(H) "as" ident(l1) ident(a) ident(l2)
    ident(H1) ident(H2) ident(Hl) :=
  apply bind_inr in H; destruct H as (l1 & a & l2 & H1 & H2 & Hl).

(** ** Spectral basis *)

Section SpectralBasisFacts.
Import SpectralBasis.
Context {F : Type} (zero : F) (lib : FortranLib F).

Lemma c_int_small (n : Z) : - 2 ^ 31 <= n < 2 ^ 31 -> c_int n = n.
Proof.
  intros Hn. unfold c_int. rewrite Z.mod_small by lia. lia.
Qed.

Lemma np_zeros_negative (k : Z) :
  k < 0 ->
  np_zeros zero k = ([], inl (ValueError "negative dimensions are not allowed")).
Proof. intros Hk. unfold np_zeros. destruct (Z.ltb_spec k 0); [reflexivity | lia]. Qed.

Lemma np_zeros_ok (k : Z) :
  0 <= k -> np_zeros zero k = ([], inr (replicate (Z.to_nat k) zero)).
Proof. intros Hk. unfold np_zeros. destruct (Z.ltb_spec k 0); [lia | reflexivity]. Qed.

Lemma np_zeros2_negative (k : Z) :
  k < 0 ->
  np_zeros2 zero k k
  = ([], inl (ValueError "negative dimensions are not allowed")).
Proof. intros Hk. unfold np_zeros2. destruct (Z.ltb_spec k 0); [reflexivity | lia]. Qed.

Lemma np_zeros2_ok (k : Z) :
  0 <= k ->
  np_zeros2 zero k k
  = ([], inr {| shape := (k, k); buf := replicate (Z.to_nat (k * k)) zero |}).
Proof. intros Hk. unfold np_zeros2. destruct (Z.ltb_spec k 0); [lia | reflexivity]. Qed.

End SpectralBasisFacts.

(** C9, as stated, fails: order [0] is below [1], yet [zelegl] allocates a
    one-element buffer and hands the order to the compiled routine instead
    of rejecting it. *)
Lemma zelegl_accepts_order_zero :
  0 < 1 /\
  SpectralBasis.zelegl 0 SpectralBasis.echo_lib 0
  = ([SpectralBasis.Foreign "zelegl" 0], inr [0]) /\
  ~ SpectralBasis.rejects_before_computation
      (SpectralBasis.zelegl 0 SpectralBasis.echo_lib 0).
Proof.
  split; [lia |]. split; [reflexivity |].
  intros [e He]. vm_compute in He. discriminate He.
Qed.

(** C9, amended: the wrappers contain no check of the order.  For an order
    [n < -1] each of the four wrappers fails with the [ValueError] of
    [np.zeros] while allocating its buffer of [n + 1] entries, and the
    compiled library is not called; for the remaining invalid orders
    [n = -1] and [n = 0] each wrapper allocates its buffers, calls the
    compiled routine with the order and returns what the routine wrote. *)
Theorem spectral_basis_invalid_order
    {F : Type} (zero : F) (lib : SpectralBasis.FortranLib F) (n : Z) :
  n < 1 ->
  (n < -1 /\
   SpectralBasis.zelegl zero lib n
   = ([], inl (ValueError "negative dimensions are not allowed")) /\
   SpectralBasis.zemngl2 zero lib n
   = ([], inl (ValueError "negative dimensions are not allowed")) /\
   SpectralBasis.def_lagrange_derivs_gll zero lib n
   = ([], inl (ValueError "negative dimensions are not allowed")) /\
   SpectralBasis.def_lagrange_derivs_glj zero lib n
   = ([], inl (ValueError "negative dimensions are not allowed")))
  \/
  (-1 <= n /\
   SpectralBasis.zelegl zero lib n
   = ([SpectralBasis.Foreign "zelegl" n],
      inr (SpectralBasis.lib_zelegl lib n
             (replicate (Z.to_nat (n + 1)) zero))) /\
   SpectralBasis.zemngl2 zero lib n
   = ([SpectralBasis.Foreign "zemngl2" n],
      inr (SpectralBasis.lib_zemngl2 lib n
             (replicate (Z.to_nat (n + 1)) zero))) /\
   SpectralBasis.def_lagrange_derivs_gll zero lib n
   = ([SpectralBasis.Foreign "def_lagrange_derivs_gll" n],
      inr {| SpectralBasis.shape := (n + 1, n + 1);
             SpectralBasis.buf :=
               SpectralBasis.lib_def_lagrange_derivs_gll lib n
                 (replicate (Z.to_nat ((n + 1) * (n + 1))) zero) |}) /\
   SpectralBasis.def_lagrange_derivs_glj zero lib n
   = ([SpectralBasis.Foreign "def_lagrange_derivs_gll" n],
      inr (replicate (Z.to_nat (n + 1)) zero,
           {| SpectralBasis.shape := (n + 1, n + 1);
              SpectralBasis.buf :=
                SpectralBasis.lib_def_lagrange_derivs_gll lib n
                  (replicate (Z.to_nat ((n + 1) * (n + 1))) zero) |}))).
Proof.
  intros Hn. destruct (Z.lt_ge_cases n (-1)) as [Hlt | Hge].
  - left. split; [exact Hlt |].
    unfold SpectralBasis.zelegl, SpectralBasis.zemngl2,
      SpectralBasis.def_lagrange_derivs_gll,
      SpectralBasis.def_lagrange_derivs_glj.
    rewrite np_zeros_negative, np_zeros2_negative by lia.
    repeat split; reflexivity.
  - right. split; [exact Hge |].
    unfold SpectralBasis.zelegl, SpectralBasis.zemngl2,
      SpectralBasis.def_lagrange_derivs_gll,
      SpectralBasis.def_lagrange_derivs_glj.
    rewrite np_zeros_ok, np_zeros2_ok by lia.
    rewrite (c_int_small n) by lia.
    repeat split; reflexivity.
Qed.

Lemma spectral_basis_invalid_order_witness :
  -2 < 1
  /\ SpectralBasis.zelegl 0 SpectralBasis.echo_lib (-2)
     = ([], inl (ValueError "negative dimensions are not allowed"))
  /\ SpectralBasis.zemngl2 0 SpectralBasis.echo_lib (-2)
     = ([], inl (ValueError "negative dimensions are not allowed"))
  /\ SpectralBasis.def_lagrange_derivs_gll 0 SpectralBasis.echo_lib (-2)
     = ([], inl (ValueError "negative dimensions are not allowed"))
  /\ SpectralBasis.def_lagrange_derivs_glj 0 SpectralBasis.echo_lib (-2)
     = ([], inl (ValueError "negative dimensions are not allowed")).
Proof.
  split; [lia |].
  destruct (spectral_basis_invalid_order 0 SpectralBasis.echo_lib (-2)
              ltac:(lia))
    as [(_ & Hz & Hm & Hgll & Hglj) | (Hge & _)]; [| lia].
  repeat split; assumption.
Defined.

(** ** The single-source pipeline *)

Section PipelineFacts.
Import Instaseis Pipeline Epilogue.
Context {F : Type} `{Numeric F} `{Libs F}.
Variable pkg : Package F.
Variable self : DB F.

Abbreviation mutual_exclusion :=
  (ValueError
     "'remove_source_shift' argument not compatible with 'reconvolve_stf'.").

Lemma dict_get_kind_map (kind : string) :
  mem_str kind ["displacement"; "velocity"; "acceleration"] = true ->
  exists ko, dict_get (F := F) kind_map kind = ret ko /\ 0 <= ko <= 2.
Proof.
  unfold mem_str, kind_map. simpl.
  destruct (String.eqb kind "displacement"); [exists 0; split; [reflexivity | lia] |].
  destruct (String.eqb kind "velocity"); [exists 1; split; [reflexivity | lia] |].
  destruct (String.eqb kind "acceleration"); [exists 2; split; [reflexivity | lia] |].
  discriminate.
Qed.

(** The sanity checks only ever warn, and they let through nothing but the
    three kinds. *)
Lemma sanity_checks_kind source receiver components kind w p :
  _get_seismograms_sanity_checks pkg self source receiver components kind
  = (w, inr p) ->
  mem_str kind ["displacement"; "velocity"; "acceleration"] = true.
Proof.
  unfold _get_seismograms_sanity_checks. intros Hs.
  bind_inv Hs. bind_inv Hrun0. bind_inv Hrun2.
  destruct (mem_str kind _); [reflexivity | discriminate].
Qed.

Lemma get_seismograms_unfold source receiver components kind
    remove_source_shift reconvolve_stf return_obspy_stream dt a_lanczos
    w s r data ko so :
  _get_seismograms_sanity_checks pkg self source receiver components kind
  = (w, inr (s, r)) ->
  _get_seismograms self s r components = inr data ->
  dict_get (F := F) kind_map kind = ret ko ->
  dict_get (F := F) stf_map (stf (info self)) = ret so ->
  get_seismograms pkg self source receiver components kind
    remove_source_shift reconvolve_stf return_obspy_stream dt a_lanczos
  = if reconvolve_stf && remove_source_shift
    then (w ++ [Extract components], inl mutual_exclusion)
    else
      let rest :=
        bind (for_each components
                (process_component pkg self s
                   (derivative_order ko so (is_force_source s))
                   (output_dt self dt) dt a_lanczos
                   remove_source_shift reconvolve_stf)
                (data, None))
             (epilogue pkg s r components (output_dt self dt)
                       return_obspy_stream) in
      (w ++ Extract components :: fst rest, snd rest).
Proof.
  intros Hs Hx Hk Ht. unfold get_seismograms.
  rewrite (bind_ok _ _ _ _ Hs). cbn beta iota.
  rewrite bind_emit, Hx, bind_lift_inr, Hk, bind_ret_l, Ht, bind_ret_l.
  destruct (reconvolve_stf && remove_source_shift); reflexivity.
Qed.

(** *** Where [NotImplementedError] can come from *)

Lemma implemented_bind {A B} (m : M (Event F) A) (k : A -> M (Event F) B) :
  implemented m -> (forall a, implemented (k a)) -> implemented (bind m k).
Proof.
  unfold implemented. destruct m as [l [e | a]]; simpl; [auto |].
  intros _ Hk. apply Hk.
Qed.

Lemma implemented_get_series (d : Data F) (comp : string) :
  implemented (get_series d comp).
Proof. unfold get_series. destruct (series d !! comp); exact I || reflexivity. Qed.

Lemma implemented_repeat_step {S} (n : nat) (step : S -> M (Event F) S) s :
  (forall s, implemented (step s)) -> implemented (repeat_step n step s).
Proof.
  intros Hstep. revert s. induction n as [| n IH]; intros s; simpl.
  - exact I.
  - apply implemented_bind; [apply Hstep | exact IH].
Qed.

Lemma implemented_for_each {A S} (xs : list A)
    (body : A -> S -> M (Event F) S) s :
  (forall x s, implemented (body x s)) -> implemented (for_each xs body s).
Proof.
  intros Hbody. revert s. induction xs as [| x xs IH]; intros s; simpl.
  - exact I.
  - apply implemented_bind; [apply Hbody | exact IH].
Qed.

Ltac implemented_step :=
  first
    [ exact I
    | apply implemented_get_series
    | apply implemented_bind; [| intros ? ] ].

Lemma stf_deconv_get_ok (so : Z) :
  so = 0 \/ so = 1 ->
  stf_deconv_get (stf_deconv_map self) so = ret (reference_kernel self so).
Proof. intros [-> | ->]; reflexivity. Qed.

Lemma deconvolvable_order (so : Z) :
  existsb (Z.eqb so) [0; 1] = true <-> so = 0 \/ so = 1.
Proof.
  simpl. rewrite !orb_true_iff, !Z.eqb_eq. intuition discriminate.
Qed.

Lemma implemented_reconvolve (s : SourceObj F) comp d so :
  dict_get (F := F) stf_map (stf (info self)) = ret so ->
  src_dt s = None \/ src_sliprate s = None \/ so = 0 \/ so = 1 ->
  implemented (reconvolve self s comp d).
Proof.
  intros Ht Hcase. unfold reconvolve.
  destruct (src_dt s) as [sdt |]; [| reflexivity].
  destruct (src_sliprate s) as [ssr |]; [| reflexivity].
  assert (Hso : so = 0 \/ so = 1) by (destruct Hcase as [? | [? | ?]]; [discriminate .. | assumption]).
  rewrite Ht, bind_ret_l.
  apply deconvolvable_order in Hso as Hb. rewrite Hb. cbn [negb].
  rewrite bind_ret_l, (stf_deconv_get_ok so Hso), bind_ret_l.
  apply implemented_bind; [exact I | intros _].
  destruct (fgtb _ _); [reflexivity |].
  repeat implemented_step.
Qed.

Lemma implemented_process_component (s : SourceObj F) n dt_out dt a remove
    comp st so :
  dict_get (F := F) stf_map (stf (info self)) = ret so ->
  src_dt s = None \/ src_sliprate s = None \/ so = 0 \/ so = 1 ->
  implemented (process_component pkg self s n dt_out dt a remove true comp st).
Proof.
  intros Ht Hcase. unfold process_component.
  apply implemented_bind; [eapply implemented_reconvolve; eassumption |].
  intros d. apply implemented_bind.
  { unfold resample. destruct dt; repeat implemented_step. }
  intros [d' ts]. apply implemented_bind.
  { apply implemented_repeat_step. intros d0. unfold differentiate.
    repeat implemented_step. }
  intros d1. apply implemented_bind.
  { apply implemented_repeat_step. intros d0. unfold integrate.
    repeat implemented_step. }
  intros d2. apply implemented_bind; [| intros [? ?]; exact I].
  unfold remove_shift. destruct remove; [| exact I].
  apply implemented_bind; [apply implemented_get_series |].
  intros x. destruct dt; exact I.
Qed.

Lemma implemented_epilogue (s : SourceObj F) r components dt_out ro st :
  implemented (epilogue pkg s r components dt_out ro st).
Proof.
  unfold epilogue. destruct st as [d ts]. destruct ro; [| exact I].
  apply implemented_bind; [destruct ts; exact I || reflexivity |].
  intros t. apply implemented_bind; [| intros ?; exact I].
  unfold _convert_to_stream. apply implemented_for_each.
  intros comp tr. repeat implemented_step.
Qed.

(** *** What the events of a call look like *)

Ltac log_sat_step :=
  first
    [ apply log_sat_ret
    | apply log_sat_raise
    | apply log_sat_lift
    | apply log_sat_emit; solve [auto]
    | apply log_sat_bind; [| intros ? ]
    | apply log_sat_for_each; intros ? ?
    | apply log_sat_repeat_step; intros ?
    | match goal with
      | |- log_sat _ (if ?b then _ else _) => destruct b
      | |- log_sat _ (match ?x with _ => _ end) => destruct x
      | |- log_sat _ (let (_, _) := ?x in _) => destruct x
      end ].

Lemma log_sat_get_series (P : Event F -> Prop) (d : Data F) comp :
  log_sat P (get_series d comp).
Proof. unfold get_series. repeat log_sat_step. Qed.

Lemma log_sat_dict_get (P : Event F -> Prop) {V} (d : list (string * V)) k :
  log_sat P (dict_get (F := F) d k).
Proof. induction d as [| [k' v] d IH]; simpl; repeat log_sat_step. exact IH. Qed.

Lemma log_sat_stf_deconv_get (P : Event F -> Prop) d k :
  log_sat P (stf_deconv_get (F := F) d k).
Proof. induction d as [| [k' v] d IH]; simpl; repeat log_sat_step. exact IH. Qed.

Ltac log_sat_auto :=
  repeat first
    [ apply log_sat_get_series
    | apply log_sat_dict_get
    | apply log_sat_stf_deconv_get
    | log_sat_step ].

(** The sanity checks do no numeric work: they only ever warn. *)
Lemma log_sat_sanity_checks (P : Event F -> Prop)
    source receiver components kind :
  (forall msg, P (Warn msg)) ->
  log_sat P
    (_get_seismograms_sanity_checks pkg self source receiver components kind).
Proof.
  intros Hwarn. unfold _get_seismograms_sanity_checks.
  repeat log_sat_step.
Qed.

Lemma sanity_checks_warn_only source receiver components kind w p :
  _get_seismograms_sanity_checks pkg self source receiver components kind
  = (w, p) ->
  Forall (fun ev => is_warning ev = true) w.
Proof.
  intros Hs.
  pose proof (log_sat_sanity_checks (fun ev => is_warning ev = true)
                source receiver components kind (fun _ => eq_refl)) as Hw.
  unfold log_sat in Hw. rewrite Hs in Hw. exact Hw.
Qed.

(** C3, amended: with [reconvolve_stf] and [remove_source_shift] both set,
    whenever the sanity checks pass, [_get_seismograms] returns and the
    stored STF tag is one of the six known ones, the call ends in the
    [ValueError] of the mutual-exclusion check.  The check comes after the
    extraction from the database: the events of the call are the warnings
    of the sanity checks followed by the extraction, and nothing else, so
    no reconvolution, resampling, differentiation or integration has taken
    place. *)
Theorem mutual_exclusion_follows_extraction
    source receiver components kind return_obspy_stream dt a_lanczos
    w s r data so :
  _get_seismograms_sanity_checks pkg self source receiver components kind
  = (w, inr (s, r)) ->
  _get_seismograms self s r components = inr data ->
  dict_get (F := F) stf_map (stf (info self)) = ret so ->
  get_seismograms pkg self source receiver components kind
    true true return_obspy_stream dt a_lanczos
  = (w ++ [Extract components], inl mutual_exclusion)
  /\ Forall (fun ev => is_warning ev = true) w.
Proof.
  intros Hs Hx Ht.
  destruct (dict_get_kind_map kind (sanity_checks_kind _ _ _ _ _ _ Hs))
    as (ko & Hk & _).
  split.
  - rewrite (get_seismograms_unfold _ _ _ _ _ _ _ _ _ _ _ _ _ _ _ Hs Hx Hk Ht).
    reflexivity.
  - eapply sanity_checks_warn_only; eassumption.
Qed.

(** With no component requested the loop body never runs: the outcome is
    decided by the mutual-exclusion check and by the output format. *)
Lemma empty_components_outcome
    source receiver kind remove_source_shift return_obspy_stream dt a_lanczos
    w s r data so :
  _get_seismograms_sanity_checks pkg self source receiver [] kind
  = (w, inr (s, r)) ->
  _get_seismograms self s r [] = inr data ->
  dict_get (F := F) stf_map (stf (info self)) = ret so ->
  get_seismograms pkg self source receiver [] kind
    remove_source_shift true return_obspy_stream dt a_lanczos
  = (w ++ [Extract []],
     if remove_source_shift then inl mutual_exclusion
     else if return_obspy_stream then inl (UnboundLocalError "time_shift")
     else inr (RetData data)).
Proof.
  intros Hs Hx Ht.
  destruct (dict_get_kind_map kind (sanity_checks_kind _ _ _ _ _ _ Hs))
    as (ko & Hk & _).
  rewrite (get_seismograms_unfold _ _ _ _ _ _ _ _ _ _ _ _ _ _ _ Hs Hx Hk Ht).
  destruct remove_source_shift, return_obspy_stream; reflexivity.
Qed.

Lemma implemented_not_raised {A} (m : M (Event F) A) msg :
  implemented m -> outcome m <> inl (NotImplementedError msg).
Proof.
  unfold implemented, outcome. destruct (snd m) as [e | a]; [| discriminate].
  intros He Heq. inversion Heq; subst. discriminate He.
Qed.

(** C5, amended: take a call with [reconvolve_stf] set,
    [remove_source_shift] unset and at least one component, that has passed
    the sanity checks and the extraction, on a database with a known STF tag
    of order [so].  It ends in [NotImplementedError] exactly when [so] is
    neither [0] nor [1] and the source carries both a sampling interval and
    a sliprate: a source without one of them is rejected first, with the
    [ValueError] "source has no source time function", whatever the tag.
    With both present and a deconvolvable tag, a sampling interval that
    differs from that of the database by more than [1e-7], relatively, ends
    the call in the [ValueError] "dt of the source not compatible". *)
Theorem reconvolution_validation
    source receiver comp components kind return_obspy_stream dt a_lanczos
    w s r data so :
  _get_seismograms_sanity_checks pkg self source receiver (comp :: components)
                                 kind
  = (w, inr (s, r)) ->
  _get_seismograms self s r (comp :: components) = inr data ->
  dict_get (F := F) stf_map (stf (info self)) = ret so ->
  let run :=
    get_seismograms pkg self source receiver (comp :: components) kind
      false true return_obspy_stream dt a_lanczos in
  ((exists msg, outcome run = inl (NotImplementedError msg))
   <-> (so <> 0 /\ so <> 1
        /\ is_Some (src_dt s) /\ is_Some (src_sliprate s)))
  /\ (src_dt s = None \/ src_sliprate s = None ->
      outcome run = inl (ValueError "source has no source time function"))
  /\ (forall source_dt,
        src_dt s = Some source_dt -> is_Some (src_sliprate s) ->
        so = 0 \/ so = 1 ->
        fgtb (fabs (fdiv (fsub source_dt (info_dt (info self)))
                         (info_dt (info self))))
             (lit 1 (-7)) = true ->
        outcome run = inl (ValueError "dt of the source not compatible")).
Proof.
  intros Hs Hx Ht run.
  destruct (dict_get_kind_map kind (sanity_checks_kind _ _ _ _ _ _ Hs))
    as (ko & Hk & _).
  subst run.
  rewrite (get_seismograms_unfold _ _ _ _ _ _ _ _ _ _ _ _ _ _ _ Hs Hx Hk Ht).
  cbn [andb outcome snd]. rewrite for_each_cons.
  set (n := derivative_order ko so (is_force_source s)).
  set (rest := fun st => for_each components _ st).
  set (fin := epilogue pkg s r (comp :: components) (output_dt self dt)
                       return_obspy_stream).
  unfold process_component. cbn [fst]. unfold reconvolve.
  destruct (src_dt s) as [sdt |] eqn:Hdt;
    [destruct (src_sliprate s) as [ssr |] eqn:Hsr |].
  - (* the source carries an STF *)
    rewrite Ht, bind_ret_l.
    destruct (existsb (Z.eqb so) [0; 1]) eqn:Hb; cbn [negb].
    + apply deconvolvable_order in Hb as Hso.
      split; [| split].
      * split; [| intros (Hn0 & Hn1 & _); lia].
        intros [msg Hmsg]. exfalso. revert Hmsg.
        apply implemented_not_raised.
        apply implemented_bind; [| intros st; apply implemented_epilogue].
        apply implemented_bind.
        2:{ intros st. apply implemented_for_each. intros c st'.
            eapply implemented_process_component; eauto. }
        pose proof (implemented_process_component s n (output_dt self dt) dt
                      a_lanczos false comp (data, None) so Ht
                      (or_intror (or_intror Hso))) as Himp.
        unfold process_component in Himp. cbn [fst] in Himp.
        unfold reconvolve in Himp. rewrite Hdt, Hsr, Ht, bind_ret_l, Hb in Himp.
        exact Himp.
      * intros [Hnone | Hnone]; discriminate Hnone.
      * intros sdt' Hsdt _ _ Hgt. inversion Hsdt; subst sdt'.
        rewrite bind_ret_l, (stf_deconv_get_ok so Hso), bind_ret_l.
        rewrite bind_emit, Hgt. reflexivity.
    + assert (Hso : ~ (so = 0 \/ so = 1)).
      { intros Hso. apply deconvolvable_order in Hso. congruence. }
      split; [| split].
      * split; [intros _ | intros _; eexists; reflexivity].
        repeat split; try lia; eexists; reflexivity.
      * intros [Hnone | Hnone]; discriminate Hnone.
      * intros sdt' _ _ Hso'. contradiction.
  - (* no sliprate *)
    split; [| split].
    + split; [intros [msg Hmsg]; discriminate Hmsg |].
      intros (_ & _ & _ & [x Hx']). discriminate Hx'.
    + intros _. reflexivity.
    + intros sdt' _ [x Hx'] _ _. discriminate Hx'.
  - (* no sampling interval *)
    split; [| split].
    + split; [intros [msg Hmsg]; discriminate Hmsg |].
      intros (_ & _ & [x Hx'] & _). discriminate Hx'.
    + intros _. reflexivity.
    + intros sdt' Hsdt _ _ _. discriminate Hsdt.
Qed.

(** *** The loop body as a transformation of one entry *)

Lemma get_series_inr (d : Data F) comp l x :
  get_series d comp = (l, inr x) -> l = [] /\ series d !! comp = Some x.
Proof.
  unfold get_series. destruct (series d !! comp) as [y |]; intros Hg;
    inversion Hg; subst; auto.
Qed.

Lemma series_set_series (d : Data F) comp x (f : list F -> list F) :
  series d !! comp = Some x ->
  series (set_series d comp (f x)) = alter f comp (series d).
Proof.
  intros Hx. apply map_eq. intros k. unfold set_series. cbn [series].
  rewrite lookup_insert, lookup_alter.
  destruct (decide (comp = k)) as [-> |]; [rewrite Hx |]; reflexivity.
Qed.

Lemma alter_same (m : gmap string (list F)) comp (f : list F -> list F) :
  (forall x, f x = x) -> alter f comp m = m.
Proof. intros Hf. apply alter_id. intros x _. apply Hf. Qed.

Lemma alter_twice (m : gmap string (list F)) comp (f g : list F -> list F) :
  alter g comp (alter f comp m) = alter (fun x => g (f x)) comp m.
Proof. rewrite alter_alter_eq. reflexivity. Qed.

Lemma reconvolve_inr (s : SourceObj F) comp d so l d' :
  dict_get (F := F) stf_map (stf (info self)) = ret so ->
  reconvolve self s comp d = (l, inr d') ->
  series d' = alter (reconvolved self s so) comp (series d)
  /\ mu d' = mu d.
Proof.
  intros Ht. unfold reconvolve, reconvolved.
  destruct (src_dt s) as [sdt |]; [| discriminate].
  destruct (src_sliprate s) as [ssr |]; [| discriminate].
  rewrite Ht, !bind_ret_l.
  destruct (existsb (Z.eqb so) [0; 1]) eqn:Hb; cbn [negb]; [| discriminate].
  apply deconvolvable_order in Hb.
  rewrite (stf_deconv_get_ok so Hb), bind_ret_l.
  intros Hr. bind_inv Hr. clear Hrun.
  destruct (fgtb _ _); [discriminate |].
  bind_inv Hrun0. clear Hrun. cbv zeta in Hrun1.
  bind_inv Hrun1. apply get_series_inr in Hrun as [_ Hx].
  bind_inv Hrun0. bind_inv Hrun1. injection Hrun2 as _ <-.
  split; [| reflexivity].
  apply (series_set_series d comp a1
           (fun x => slice_to (npts (info self))
                       (irfft (spec_div (spec_mul (rfft x (nfft (info self))) _)
                                        _)))).
  exact Hx.
Qed.

Lemma resample_inr dt a_lanczos comp (d : Data F) l d' ts :
  resample pkg self dt a_lanczos comp d = (l, inr (d', ts)) ->
  series d' = alter (resampled pkg self dt a_lanczos) comp (series d)
  /\ mu d' = mu d
  /\ ts = remaining_shift self dt.
Proof.
  unfold resample, resampled. destruct dt as [dt |].
  - intros Hr. bind_inv Hr. apply get_series_inr in Hrun as [-> Hx].
    rewrite bind_emit in Hrun0. cbn [fst snd ret] in Hrun0.
    injection Hrun0 as _ <- <-.
    split; [| split; reflexivity].
    apply (series_set_series d comp a
             (fun x => lanczos_interpolation pkg x _ _ _ _
                         (sample_count self (length x) dt) _ _)).
    exact Hx.
  - intros Hr. injection Hr as _ <- <-.
    rewrite alter_same by reflexivity. auto.
Qed.

Lemma repeat_update_inr (n : nat) comp (f : list F -> list F)
    (ev : list F -> Event F) (d : Data F) l d' :
  repeat_step n
    (fun d => let* x := get_series d comp in
              let* _ := emit (ev x) in
              ret (set_series d comp (f x))) d
  = (l, inr d') ->
  series d' = alter (Nat.iter n f) comp (series d) /\ mu d' = mu d.
Proof.
  revert d l. induction n as [| n IH]; intros d l; cbn [repeat_step].
  - intros Hr. injection Hr as _ <-.
    rewrite alter_same by reflexivity. auto.
  - intros Hr. bind_inv Hr. bind_inv Hrun.
    apply get_series_inr in Hrun1 as [-> Hx].
    rewrite bind_emit in Hrun2. cbn [fst snd ret] in Hrun2.
    injection Hrun2 as _ <-.
    apply IH in Hrun0 as [Hs Hm].
    rewrite Hs, Hm. split; [| reflexivity].
    rewrite (series_set_series d comp a0 f Hx), alter_twice.
    apply alter_ext. intros x _. cbn [Nat.iter nat_rect].
    apply Nat.iter_swap.
Qed.

Lemma differentiate_inr (n : Z) dt_out comp (d : Data F) l d' :
  repeat_step (np_arange n) (differentiate dt_out comp) d = (l, inr d') ->
  series d' = alter (differentiated n dt_out) comp (series d)
  /\ mu d' = mu d.
Proof. apply repeat_update_inr. Qed.

Lemma integrate_inr (n : Z) dt_out comp (d : Data F) l d' :
  repeat_step (np_arange (- n)) (integrate dt_out comp) d = (l, inr d') ->
  series d' = alter (integrated n dt_out) comp (series d)
  /\ mu d' = mu d.
Proof. apply repeat_update_inr. Qed.

Lemma remove_shift_inr dt remove reconv comp (d : Data F) l d' ts' :
  remove_shift self dt remove reconv comp d (remaining_shift self dt)
  = (l, inr (d', ts')) ->
  series d' = alter (shift_removed self dt remove) comp (series d)
  /\ mu d' = mu d
  /\ ts' = final_time_shift self dt remove reconv
  /\ l = [].
Proof.
  unfold remove_shift, shift_removed, final_time_shift.
  destruct remove; cbn [orb].
  - intros Hr. bind_inv Hr. apply get_series_inr in Hrun as [-> Hx].
    destruct dt as [dt |]; injection Hrun0 as <- <- <-; subst l;
      (split; [| auto]).
    + apply (series_set_series d comp a
               (slice_from (dropped_samples self (Some dt))) Hx).
    + apply (series_set_series d comp a
               (slice_from (dropped_samples self None)) Hx).
  - rewrite alter_same by reflexivity.
    destruct reconv; intros Hr; injection Hr as <- <- <-; auto.
Qed.

Lemma process_component_inr (s : SourceObj F) n dt a_lanczos remove reconv
    comp (d : Data F) ts so l d' ts' :
  dict_get (F := F) stf_map (stf (info self)) = ret so ->
  process_component pkg self s n (output_dt self dt) dt a_lanczos
                    remove reconv comp (d, ts)
  = (l, inr (d', ts')) ->
  series d'
  = alter (processed pkg self s so n dt a_lanczos remove reconv) comp
          (series d)
  /\ mu d' = mu d
  /\ ts' = Some (final_time_shift self dt remove reconv).
Proof.
  intros Ht. unfold process_component. cbn [fst]. intros Hp.
  bind_split Hp as a Hrec Hp. bind_split Hp as st1 Hres Hp.
  destruct st1 as [d1 ts1].
  bind_split Hp as d2 Hdiff Hp. bind_split Hp as d3 Hint Hp.
  bind_split Hp as st4 Hrem Hp. destruct st4 as [d4 ts4].
  injection Hp as _ <- <-.
  apply resample_inr in Hres as (Hs1 & Hm1 & ->).
  apply differentiate_inr in Hdiff as (Hs2 & Hm2).
  apply integrate_inr in Hint as (Hs3 & Hm3).
  apply remove_shift_inr in Hrem as (Hs4 & Hm4 & -> & _).
  assert (Hs0 : series a
                = alter (fun x => if reconv then reconvolved self s so x else x)
                        comp (series d) /\ mu a = mu d).
  { destruct reconv.
    - eapply reconvolve_inr; eassumption.
    - injection Hrec as _ <-. rewrite alter_same by reflexivity. auto. }
  destruct Hs0 as [Hs0 Hm0].
  split; [| split; [congruence | reflexivity]].
  rewrite Hs4, Hs3, Hs2, Hs1, Hs0, !alter_twice. reflexivity.
Qed.

(** The whole loop alters the entries of the requested components, one
    pass per occurrence in [components]. *)
Lemma component_loop_inr (s : SourceObj F) n dt a_lanczos remove reconv
    components (d : Data F) ts so l d' ts' :
  dict_get (F := F) stf_map (stf (info self)) = ret so ->
  for_each components
    (process_component pkg self s n (output_dt self dt) dt a_lanczos
                       remove reconv)
    (d, ts)
  = (l, inr (d', ts')) ->
  series d'
  = foldl (fun m comp =>
             alter (processed pkg self s so n dt a_lanczos remove reconv)
                   comp m)
          (series d) components
  /\ mu d' = mu d
  /\ ts' = match components with
           | [] => ts
           | _ => Some (final_time_shift self dt remove reconv)
           end.
Proof.
  intros Ht. revert d ts l.
  induction components as [| comp components IH]; intros d ts l.
  - cbn [for_each foldl]. intros Hr. injection Hr as _ <- <-. auto.
  - rewrite for_each_cons. intros Hr. bind_split Hr as st1 Hone Hrest.
    destruct st1 as [d1 ts1].
    apply (process_component_inr _ _ _ _ _ _ _ _ _ _ _ _ _ Ht) in Hone
      as (Hs1 & Hm1 & ->).
    apply IH in Hrest as (Hs2 & Hm2 & Hts).
    cbn [foldl]. rewrite Hs2, Hs1, Hm2, Hm1. split; [reflexivity |].
    split; [reflexivity |].
    rewrite Hts. destruct components; reflexivity.
Qed.

(** *** The result of a successful call *)

Lemma convert_to_stream_inr (s : SourceObj F) r components (d : Data F)
    dt_out ts l st :
  _convert_to_stream pkg s r components d dt_out ts = (l, inr st) ->
  Forall2 (fun comp tr => series d !! comp = Some (tr_data tr)) components st
  /\ Forall (fun tr => starttime tr = Some (utc_sub (origin_of s) ts)) st.
Proof.
  unfold _convert_to_stream. fold (origin_of s).
  set (body := fun (comp : string) (st : list (Trace F)) => _).
  assert (Hgen : forall comps acc l st,
             for_each comps body acc = (l, inr st) ->
             exists new,
               st = acc ++ new
               /\ Forall2 (fun comp tr => series d !! comp = Some (tr_data tr))
                          comps new
               /\ Forall (fun tr =>
                            starttime tr = Some (utc_sub (origin_of s) ts))
                         new).
  { induction comps as [| comp comps IH]; intros acc l0 st0.
    - cbn [for_each]. intros Hr. injection Hr as _ <-.
      exists []. rewrite app_nil_r. auto.
    - rewrite for_each_cons. intros Hr. bind_split Hr as acc1 Hone Hrest.
      subst body. cbn beta in Hone. bind_split Hone as xc Hget Hone.
      apply get_series_inr in Hget as [_ Hx].
      injection Hone as _ <-.
      apply IH in Hrest as (new & -> & Hall & Hstart).
      eexists (_ :: new). rewrite <- app_assoc. split; [reflexivity |].
      split; constructor; auto. }
  intros Hr. apply Hgen in Hr as (new & -> & Hall & Hstart). auto.
Qed.

Lemma get_seismograms_inr source receiver components kind
    remove reconv return_obspy_stream dt a_lanczos w s r data ko so l res :
  _get_seismograms_sanity_checks pkg self source receiver components kind
  = (w, inr (s, r)) ->
  _get_seismograms self s r components = inr data ->
  dict_get (F := F) kind_map kind = ret ko ->
  dict_get (F := F) stf_map (stf (info self)) = ret so ->
  get_seismograms pkg self source receiver components kind
    remove reconv return_obspy_stream dt a_lanczos
  = (l, inr res) ->
  delivers res components
    (foldl (fun m comp =>
              alter (processed pkg self s so
                       (derivative_order ko so (is_force_source s))
                       dt a_lanczos remove reconv)
                    comp m)
           (series data) components)
  /\ starts_at res
       (utc_sub (origin_of s) (final_time_shift self dt remove reconv))
  /\ (if return_obspy_stream
      then exists st, res = RetStream st
      else exists d, res = RetData d /\ mu d = mu data).
Proof.
  intros Hs Hx Hk Ht.
  rewrite (get_seismograms_unfold _ _ _ _ _ _ _ _ _ _ _ _ _ _ _ Hs Hx Hk Ht).
  destruct (reconv && remove); [discriminate |].
  cbv zeta. intros Hr. injection Hr as _ Hr.
  match type of Hr with
  | snd ?m = _ => destruct m as [l' o] eqn:Hm
  end.
  cbn [snd] in Hr. subst o.
  bind_split Hm as st Hloop Hfin. destruct st as [d' ts'].
  apply (component_loop_inr _ _ _ _ _ _ _ _ _ _ _ _ _ Ht) in Hloop
    as (Hser & Hmu & Hts).
  unfold epilogue in Hfin. destruct return_obspy_stream.
  - bind_split Hfin as t Hbound Hfin. bind_split Hfin as tr Hconv Hfin.
    injection Hfin as _ <-.
    apply convert_to_stream_inr in Hconv as [Hall Hstart].
    destruct ts' as [t' |]; [| discriminate].
    injection Hbound as _ <-.
    cbn [delivers starts_at]. rewrite <- Hser.
    split; [exact Hall |]. split; [| eexists; reflexivity].
    destruct components as [| c cs]; [discriminate |].
    injection Hts as ->. split; [| exact Hstart].
    inversion Hall; discriminate.
  - injection Hfin as _ <-. cbn [delivers starts_at].
    split; [exact Hser |]. split; [exact I |]. eauto.
Qed.

(** *** The numeric calls of a run *)

Section Events.
Variable P : Event F -> Prop.
Variable dt : option F.
Variable a_lanczos : Z.
Hypothesis P_warn : forall msg, P (Warn msg).
Hypothesis P_extract : forall components, P (Extract components).
Hypothesis P_rfft : forall x n, P (Rfft x n).
Hypothesis P_irfft : P Irfft.
Hypothesis P_resample :
  forall d comp x,
    dt = Some d ->
    P (Resample comp x (of_int 0) (info_dt (info self))
                (alignment_shift self d) d (sample_count self (length x) d)
                a_lanczos "blackman").
Hypothesis P_gradient : forall comp x, P (Gradient comp x (output_dt self dt)).
Hypothesis P_cumtrapz : forall comp x, P (Cumtrapz comp x (output_dt self dt)).

Lemma log_sat_reconvolve s comp d : log_sat P (reconvolve self s comp d).
Proof.
  clear P_warn P_extract P_resample P_gradient P_cumtrapz.
  unfold reconvolve. log_sat_auto.
Qed.

Lemma log_sat_resample comp d :
  log_sat P (resample pkg self dt a_lanczos comp d).
Proof.
  clear P_warn P_extract P_rfft P_irfft P_gradient P_cumtrapz.
  unfold resample. destruct dt as [d0 |] eqn:Hdt; [| apply log_sat_ret].
  apply log_sat_bind; [apply log_sat_get_series | intros x].
  apply log_sat_bind; [| intros _; apply log_sat_ret].
  apply log_sat_emit. apply P_resample. reflexivity.
Qed.

Lemma log_sat_remove_shift remove reconv comp d ts :
  log_sat P (remove_shift self dt remove reconv comp d ts).
Proof.
  clear P_warn P_extract P_rfft P_irfft P_resample P_gradient P_cumtrapz.
  unfold remove_shift. log_sat_auto.
Qed.

Lemma log_sat_epilogue s r components ro st :
  log_sat P (epilogue pkg s r components (output_dt self dt) ro st).
Proof.
  unfold epilogue. destruct st as [d ts]. destruct ro; [| apply log_sat_ret].
  apply log_sat_bind; [destruct ts; log_sat_step |]. intros t.
  apply log_sat_bind; [| intros ?; apply log_sat_ret].
  unfold _convert_to_stream. apply log_sat_for_each. intros comp st.
  log_sat_auto.
Qed.

Lemma log_sat_process_component s n remove reconv comp st :
  log_sat P
    (process_component pkg self s n (output_dt self dt) dt a_lanczos
                       remove reconv comp st).
Proof.
  unfold process_component.
  apply log_sat_bind.
  { destruct reconv; [apply log_sat_reconvolve | apply log_sat_ret]. }
  intros d. apply log_sat_bind; [apply log_sat_resample |].
  intros [d1 ts1]. apply log_sat_bind.
  { apply log_sat_repeat_step. intros d0. unfold differentiate.
    log_sat_auto. }
  intros d2. apply log_sat_bind.
  { apply log_sat_repeat_step. intros d0. unfold integrate.
    log_sat_auto. }
  intros d3. apply log_sat_bind; [| intros [? ?]; apply log_sat_ret].
  apply log_sat_remove_shift.
Qed.

Lemma log_sat_get_seismograms source receiver components kind
    remove reconv return_obspy_stream :
  log_sat P
    (get_seismograms pkg self source receiver components kind
       remove reconv return_obspy_stream dt a_lanczos).
Proof.
  unfold get_seismograms.
  apply log_sat_bind; [apply log_sat_sanity_checks; exact P_warn |].
  intros [s r]. apply log_sat_bind; [apply log_sat_emit, P_extract |].
  intros _. apply log_sat_bind; [apply log_sat_lift |]. intros data.
  apply log_sat_bind; [apply log_sat_dict_get |].
  intros ko. apply log_sat_bind; [apply log_sat_dict_get |].
  intros so. destruct (reconv && remove); [apply log_sat_raise |].
  apply log_sat_bind.
  { apply log_sat_for_each. intros comp st.
    apply log_sat_process_component. }
  intros st. apply log_sat_epilogue.
Qed.

End Events.

(** *** How often the numeric steps run in a successful call *)

Lemma repeat_update_calls (p : Event F -> bool) (b : bool) (n : nat) comp
    (f : list F -> list F) (ev : list F -> Event F) (d : Data F) l d' :
  (forall x, p (ev x) = b) ->
  repeat_step n
    (fun d => let* x := get_series d comp in
              let* _ := emit (ev x) in
              ret (set_series d comp (f x))) d
  = (l, inr d') ->
  calls p l = if b then n else 0%nat.
Proof.
  intros Hp. revert d l. induction n as [| n IH]; intros d l; cbn [repeat_step].
  - intros Hr. injection Hr as <- _. destruct b; reflexivity.
  - intros Hr. bind_split Hr as d1 Hone Hrest.
    bind_cut Hone as lga y lk Hget Hone Hl1.
    apply get_series_inr in Hget as [-> _].
    bind_cut Hone as le u lr Hemit Hone Hl2.
    injection Hemit as <- _. injection Hone as <- _.
    apply IH in Hrest. subst. rewrite !calls_app, Hrest.
    unfold calls. cbn [List.filter app]. rewrite Hp.
    destruct b; cbn [length]; lia.
Qed.

Lemma calls_of_log_sat {A} (p : Event F -> bool) (m : M (Event F) A) l o :
  log_sat (fun ev => p ev = false) m -> m = (l, o) -> calls p l = 0%nat.
Proof. intros Hm ->. apply calls_none. exact Hm. Qed.

Lemma process_component_calls (s : SourceObj F) n dt a_lanczos remove reconv
    comp st l st' c :
  process_component pkg self s n (output_dt self dt) dt a_lanczos
                    remove reconv comp st
  = (l, inr st') ->
  calls (is_gradient_of c) l
  = (if String.eqb comp c then Z.to_nat n else 0%nat)
  /\ calls (is_cumtrapz_of c) l
     = (if String.eqb comp c then Z.to_nat (- n) else 0%nat).
Proof.
  unfold process_component. intros Hp.
  bind_cut Hp as l0 d0 k0 Hrec Hp Hl0. bind_cut Hp as l1 st1 k1 Hres Hp Hl1.
  destruct st1 as [d1 ts1].
  bind_cut Hp as l2 d2 k2 Hdiff Hp Hl2. bind_cut Hp as l3 d3 k3 Hint Hp Hl3.
  bind_cut Hp as l4 st4 k4 Hrem Hp Hl4. destruct st4 as [d4 ts4].
  injection Hp as <- _. subst. rewrite !calls_app.
  assert (Hquiet : forall (p : Event F -> bool),
             (forall x k, p (Rfft x k) = false) -> p Irfft = false ->
             (forall c0 x a b c1 d k1 k2 w,
                 p (Resample c0 x a b c1 d k1 k2 w) = false) ->
             calls p l0 = 0%nat /\ calls p l1 = 0%nat /\ calls p l4 = 0%nat).
  { intros p Hrfft Hirfft Hresample. repeat split.
    - destruct reconv.
      + eapply calls_of_log_sat; [| exact Hrec].
        apply log_sat_reconvolve; auto.
      + cbv iota in Hrec. injection Hrec as <- _. reflexivity.
    - eapply calls_of_log_sat; [| exact Hres].
      apply log_sat_resample. intros; apply Hresample.
    - eapply calls_of_log_sat; [| exact Hrem]. apply log_sat_remove_shift. }
  pose proof (fun p b Hp =>
                repeat_update_calls p b (np_arange n) comp
                  (fun x => np_gradient x (output_dt self dt))
                  (fun x => Gradient comp x (output_dt self dt))
                  d1 l2 d2 Hp Hdiff) as Hgrad.
  pose proof (fun p b Hp =>
                repeat_update_calls p b (np_arange (- n)) comp
                  (fun x => cumtrapz x (output_dt self dt))
                  (fun x => Cumtrapz comp x (output_dt self dt))
                  d2 l3 d3 Hp Hint) as Hcum.
  split.
  - destruct (Hquiet (is_gradient_of c)) as (-> & -> & ->); try reflexivity.
    rewrite (Hgrad (is_gradient_of c) (String.eqb comp c) (fun _ => eq_refl)).
    rewrite (Hcum (is_gradient_of c) false (fun _ => eq_refl)).
    unfold calls. cbn [List.filter length]. unfold np_arange. lia.
  - destruct (Hquiet (is_cumtrapz_of c)) as (-> & -> & ->); try reflexivity.
    rewrite (Hgrad (is_cumtrapz_of c) false (fun _ => eq_refl)).
    rewrite (Hcum (is_cumtrapz_of c) (String.eqb comp c) (fun _ => eq_refl)).
    unfold calls. cbn [List.filter length]. unfold np_arange. lia.
Qed.

Lemma component_loop_calls (s : SourceObj F) n dt a_lanczos remove reconv
    components st l st' c :
  for_each components
    (process_component pkg self s n (output_dt self dt) dt a_lanczos
                       remove reconv) st
  = (l, inr st') ->
  calls (is_gradient_of c) l = (occurrences c components * Z.to_nat n)%nat
  /\ calls (is_cumtrapz_of c) l
     = (occurrences c components * Z.to_nat (- n))%nat.
Proof.
  revert st l. induction components as [| comp components IH]; intros st l.
  - cbn [for_each]. intros Hr. injection Hr as <- _. split; reflexivity.
  - rewrite for_each_cons. intros Hr.
    bind_cut Hr as l1 st1 l2 Hone Hrest Hl.
    apply (process_component_calls _ _ _ _ _ _ _ _ _ _ c) in Hone as [Hg Hc].
    apply IH in Hrest as [Hg' Hc']. subst l.
    rewrite !calls_app, Hg, Hc, Hg', Hc'.
    unfold occurrences. cbn [List.filter].
    destruct (String.eqb comp c); cbn [length]; lia.
Qed.

Lemma get_seismograms_calls source receiver components kind
    remove reconv return_obspy_stream dt a_lanczos w s r data ko so l res c :
  _get_seismograms_sanity_checks pkg self source receiver components kind
  = (w, inr (s, r)) ->
  _get_seismograms self s r components = inr data ->
  dict_get (F := F) kind_map kind = ret ko ->
  dict_get (F := F) stf_map (stf (info self)) = ret so ->
  get_seismograms pkg self source receiver components kind
    remove reconv return_obspy_stream dt a_lanczos
  = (l, inr res) ->
  calls (is_gradient_of c) l
  = (occurrences c components
     * Z.to_nat (derivative_order ko so (is_force_source s)))%nat
  /\ calls (is_cumtrapz_of c) l
     = (occurrences c components
        * Z.to_nat (- derivative_order ko so (is_force_source s)))%nat.
Proof.
  intros Hs Hx Hk Ht.
  rewrite (get_seismograms_unfold _ _ _ _ _ _ _ _ _ _ _ _ _ _ _ Hs Hx Hk Ht).
  destruct (reconv && remove); [discriminate |].
  cbv zeta. intros Hr. injection Hr as <- Hr.
  match type of Hr with
  | snd ?m = _ => destruct m as [l' o] eqn:Hm
  end.
  cbn [fst snd] in *. subst o.
  bind_cut Hm as l1 st l2 Hloop Hfin Hl. subst l'.
  apply (component_loop_calls _ _ _ _ _ _ _ _ _ _ c) in Hloop as [Hg Hc].
  pose proof (sanity_checks_warn_only _ _ _ _ _ _ Hs) as Hw.
  assert (Hquiet : forall p : Event F -> bool,
             (forall msg, p (Warn msg) = false) ->
             (forall cs, p (Extract cs) = false) ->
             calls p w = 0%nat /\ calls p [Extract components] = 0%nat
             /\ calls p l2 = 0%nat).
  { intros p Hpw Hpe. repeat split.
    - apply calls_none. eapply Forall_impl; [exact Hw |].
      intros [] Hev; try discriminate Hev. apply Hpw.
    - unfold calls. cbn [List.filter]. rewrite Hpe. reflexivity.
    - eapply calls_of_log_sat; [| exact Hfin].
      apply log_sat_epilogue. }
  change (Extract components :: l1 ++ l2)
    with ([Extract components] ++ l1 ++ l2).
  rewrite !calls_app, Hg, Hc.
  destruct (Hquiet (is_gradient_of c)) as (-> & -> & ->); try reflexivity.
  destruct (Hquiet (is_cumtrapz_of c)) as (-> & -> & ->); try reflexivity.
  split; lia.
Qed.

Lemma resample_log dt a_lanczos comp (d : Data F) l st c :
  resample pkg self dt a_lanczos comp d = (l, inr st) ->
  calls (is_resample_of c) l
  = match dt with
    | Some _ => if String.eqb comp c then 1%nat else 0%nat
    | None => 0%nat
    end.
Proof.
  unfold resample. destruct dt as [dt |].
  - intros Hr. bind_cut Hr as l1 x l2 Hget Hr Hl.
    apply get_series_inr in Hget as [-> _].
    rewrite bind_emit in Hr. injection Hr as <- _. subst l.
    unfold calls. cbn [app List.filter is_resample_of].
    destruct (String.eqb comp c); reflexivity.
  - intros Hr. injection Hr as <- _. reflexivity.
Qed.

Lemma process_component_resample_calls (s : SourceObj F) n dt a_lanczos
    remove reconv comp st l st' c :
  process_component pkg self s n (output_dt self dt) dt a_lanczos
                    remove reconv comp st
  = (l, inr st') ->
  calls (is_resample_of c) l
  = match dt with
    | Some _ => if String.eqb comp c then 1%nat else 0%nat
    | None => 0%nat
    end.
Proof.
  unfold process_component. intros Hp.
  bind_cut Hp as l0 d0 k0 Hrec Hp Hl0. bind_cut Hp as l1 st1 k1 Hres Hp Hl1.
  destruct st1 as [d1 ts1].
  bind_cut Hp as l2 d2 k2 Hdiff Hp Hl2. bind_cut Hp as l3 d3 k3 Hint Hp Hl3.
  bind_cut Hp as l4 st4 k4 Hrem Hp Hl4. destruct st4 as [d4 ts4].
  injection Hp as <- _. subst. rewrite !calls_app.
  rewrite (resample_log _ _ _ _ _ _ c Hres).
  assert (Hl0 : calls (is_resample_of c) l0 = 0%nat).
  { destruct reconv.
    - eapply calls_of_log_sat; [| exact Hrec].
      apply log_sat_reconvolve; reflexivity.
    - cbv iota in Hrec. injection Hrec as <- _. reflexivity. }
  assert (Hl4 : calls (is_resample_of c) l4 = 0%nat).
  { eapply calls_of_log_sat; [| exact Hrem]. apply log_sat_remove_shift. }
  rewrite Hl0, Hl4.
  rewrite (repeat_update_calls (is_resample_of c) false (np_arange n) comp
             (fun x => np_gradient x (output_dt self dt))
             (fun x => Gradient comp x (output_dt self dt))
             d1 l2 d2 (fun _ => eq_refl) Hdiff).
  rewrite (repeat_update_calls (is_resample_of c) false (np_arange (- n)) comp
             (fun x => cumtrapz x (output_dt self dt))
             (fun x => Cumtrapz comp x (output_dt self dt))
             d2 l3 d3 (fun _ => eq_refl) Hint).
  unfold calls. cbn [List.filter length]. lia.
Qed.

Lemma get_seismograms_resample_calls source receiver components kind
    remove reconv return_obspy_stream dt a_lanczos w s r data ko so l res c :
  _get_seismograms_sanity_checks pkg self source receiver components kind
  = (w, inr (s, r)) ->
  _get_seismograms self s r components = inr data ->
  dict_get (F := F) kind_map kind = ret ko ->
  dict_get (F := F) stf_map (stf (info self)) = ret so ->
  get_seismograms pkg self source receiver components kind
    remove reconv return_obspy_stream dt a_lanczos
  = (l, inr res) ->
  calls (is_resample_of c) l
  = match dt with
    | Some _ => occurrences c components
    | None => 0%nat
    end.
Proof.
  intros Hs Hx Hk Ht.
  rewrite (get_seismograms_unfold _ _ _ _ _ _ _ _ _ _ _ _ _ _ _ Hs Hx Hk Ht).
  destruct (reconv && remove); [discriminate |].
  cbv zeta. intros Hr. injection Hr as <- Hr.
  match type of Hr with
  | snd ?m = _ => destruct m as [l' o] eqn:Hm
  end.
  cbn [fst snd] in *. subst o.
  bind_cut Hm as l1 st l2 Hloop Hfin Hl. subst l'.
  pose proof (sanity_checks_warn_only _ _ _ _ _ _ Hs) as Hw.
  change (Extract components :: l1 ++ l2)
    with ([Extract components] ++ l1 ++ l2).
  rewrite !calls_app.
  assert (Hw0 : calls (is_resample_of c) w = 0%nat).
  { apply calls_none. eapply Forall_impl; [exact Hw |].
    intros [] Hev; try discriminate Hev. reflexivity. }
  assert (Hl2 : calls (is_resample_of c) l2 = 0%nat).
  { eapply calls_of_log_sat; [| exact Hfin]. apply log_sat_epilogue. }
  rewrite Hw0, Hl2. cbn [calls List.filter is_resample_of length].
  clear Hfin Hw Hw0 Hl2 Hs Hx. revert Hloop.
  generalize (data, @None F). revert l1.
  induction components as [| comp components IH]; intros l1 st0.
  - cbn [for_each]. intros Hr'. injection Hr' as <- _. destruct dt; reflexivity.
  - rewrite for_each_cons. intros Hr'.
    bind_cut Hr' as la st1 lb Hone Hrest Hl.
    apply (process_component_resample_calls _ _ _ _ _ _ _ _ _ _ c) in Hone.
    apply IH in Hrest. subst l1. rewrite calls_app.
    unfold occurrences in *. cbn [List.filter].
    destruct dt; [| lia].
    destruct (String.eqb comp c); cbn [length]; lia.
Qed.

(** C4: in a successful call, [np.gradient] is called for the entry of
    every requested component [n] times when [n] is positive, and
    [cumtrapz] (with [initial=0.0]) [- n] times when [n] is negative, once
    more of either for every further time the component is listed, where
    [n] is the kind order minus the order of the stored STF tag, plus two
    exactly when the source is a force source; the series delivered for
    each component is the extracted series taken through that many
    differentiations and integrations.  The kind and tag orders are those
    of the two tables. *)
Theorem derivative_order_applied
    source receiver components kind remove reconv return_obspy_stream
    dt a_lanczos w s r data ko so l res :
  _get_seismograms_sanity_checks pkg self source receiver components kind
  = (w, inr (s, r)) ->
  _get_seismograms self s r components = inr data ->
  dict_get (F := F) kind_map kind = ret ko ->
  dict_get (F := F) stf_map (stf (info self)) = ret so ->
  get_seismograms pkg self source receiver components kind
    remove reconv return_obspy_stream dt a_lanczos
  = (l, inr res) ->
  let n := if is_force_source s then ko - so + 2 else ko - so in
  (forall comp,
      calls (is_gradient_of comp) l
      = (occurrences comp components * Z.to_nat n)%nat
      /\ calls (is_cumtrapz_of comp) l
         = (occurrences comp components * Z.to_nat (- n))%nat)
  /\ delivers res components
       (foldl (fun m comp =>
                 alter (fun x =>
                          shift_removed self dt remove
                            (integrated n (output_dt self dt)
                               (differentiated n (output_dt self dt)
                                  (resampled pkg self dt a_lanczos
                                     (if reconv then reconvolved self s so x
                                      else x)))))
                       comp m)
              (series data) components)
  /\ map (fun k => dict_get (F := F) kind_map k)
         ["displacement"; "velocity"; "acceleration"]
     = [ret 0; ret 1; ret 2]
  /\ map (fun k => dict_get (F := F) stf_map k)
         ["errorf"; "quheavi"; "dirac_0"; "gauss_0"; "gauss_1"; "gauss_2"]
     = [ret 0; ret 0; ret 1; ret 1; ret 2; ret 3].
Proof.
  intros Hs Hx Hk Ht Hrun n.
  split; [| split; [| split; reflexivity]].
  - intros comp.
    exact (get_seismograms_calls _ _ _ _ _ _ _ _ _ _ _ _ _ _ _ _ _ comp
             Hs Hx Hk Ht Hrun).
  - exact (proj1 (get_seismograms_inr _ _ _ _ _ _ _ _ _ _ _ _ _ _ _ _ _
                    Hs Hx Hk Ht Hrun)).
Qed.

(** C6, amended: with a requested [dt], every call of the resampler made
    by [get_seismograms] has as new start time the alignment shift, which
    is the source shift of the database modulo the new [dt] rounded to
    eight decimal places, and as sample count the duration (length of the
    series minus one, times the [dt] of the database, minus the shift)
    divided by the new [dt], rounded to six decimal places and cut to an
    integer, plus one; a successful call makes one such call per listed
    component, and the time shift that remains for the shift removal and
    for the start time is the source shift minus the alignment shift. *)
Theorem resampling_alignment
    source receiver components kind remove reconv return_obspy_stream
    d a_lanczos w s r data ko so l res :
  _get_seismograms_sanity_checks pkg self source receiver components kind
  = (w, inr (s, r)) ->
  _get_seismograms self s r components = inr data ->
  dict_get (F := F) kind_map kind = ret ko ->
  dict_get (F := F) stf_map (stf (info self)) = ret so ->
  get_seismograms pkg self source receiver components kind
    remove reconv return_obspy_stream (Some d) a_lanczos
  = (l, inr res) ->
  Forall (resample_call_ok self d a_lanczos) l
  /\ (forall comp,
        calls (is_resample_of comp) l = occurrences comp components)
  /\ alignment_shift self d = round_nd (fmod (src_shift (info self)) d) 8
  /\ (forall len,
        sample_count self len d
        = int_of (round_nd
                    (fdiv (fsub (fmul (of_int (Z.of_nat len - 1))
                                      (info_dt (info self)))
                                (alignment_shift self d))
                          d)
                    6) + 1)
  /\ delivers res components
       (foldl (fun m comp =>
                 alter (fun x =>
                          let x0 := if reconv then reconvolved self s so x
                                    else x in
                          let n := derivative_order ko so (is_force_source s) in
                          let y :=
                            integrated n d
                              (differentiated n d
                                 (lanczos_interpolation pkg x0 (of_int 0)
                                    (info_dt (info self))
                                    (alignment_shift self d) d
                                    (sample_count self (length x0) d)
                                    a_lanczos "blackman")) in
                          if remove
                          then slice_from
                                 (int_of
                                    (fdiv (fsub (src_shift (info self))
                                                (alignment_shift self d))
                                          d))
                                 y
                          else y)
                       comp m)
              (series data) components)
  /\ starts_at res
       (utc_sub (origin_of s)
                (if remove || reconv then of_int 0
                 else fsub (src_shift (info self)) (alignment_shift self d))).
Proof.
  intros Hs Hx Hk Ht Hrun.
  split; [| split; [| split; [reflexivity | split; [reflexivity |]]]].
  - pose proof (log_sat_get_seismograms (resample_call_ok self d a_lanczos)
                  (Some d) a_lanczos) as Hlog.
    unfold log_sat in Hlog.
    specialize (Hlog (fun _ => I) (fun _ => I) (fun _ _ => I) I).
    assert (Hres : forall d0 comp x,
               Some d = Some d0 ->
               resample_call_ok self d a_lanczos
                 (Resample comp x (of_int 0) (info_dt (info self))
                    (alignment_shift self d0) d0
                    (sample_count self (length x) d0) a_lanczos "blackman")).
    { intros d0 comp x Hd. injection Hd as <-. cbn. repeat split. }
    specialize (Hlog Hres (fun _ _ => I) (fun _ _ => I)
                     source receiver components kind remove reconv
                     return_obspy_stream).
    rewrite Hrun in Hlog. exact Hlog.
  - intros comp.
    exact (get_seismograms_resample_calls _ _ _ _ _ _ _ _ _ _ _ _ _ _ _ _ _
             comp Hs Hx Hk Ht Hrun).
  - destruct (get_seismograms_inr _ _ _ _ _ _ _ _ _ _ _ _ _ _ _ _ _
                Hs Hx Hk Ht Hrun) as (Hdel & Hstart & _).
    split; [| exact Hstart].
    unfold processed, before_shift_removal, shift_removed, resampled,
      dropped_samples, remaining_shift, output_dt in Hdel.
    destruct remove; exact Hdel.
Qed.

(** The removal of the source shift in general: in a successful call with
    [remove_source_shift] set, the series of every listed component goes
    through the Python slice [x[k:]], [k] being [src_shift_samples] when no
    [dt] was requested and otherwise the integer part of the remaining
    shift divided by the new [dt]; the time shift left over is then zero,
    as it is when [reconvolve_stf] is set instead, and without either it is
    the remaining shift.  Every trace of a stream result starts at the
    origin time minus that time shift. *)
Theorem source_shift_removed
    source receiver components kind remove reconv return_obspy_stream
    dt a_lanczos w s r data ko so l res :
  _get_seismograms_sanity_checks pkg self source receiver components kind
  = (w, inr (s, r)) ->
  _get_seismograms self s r components = inr data ->
  dict_get (F := F) kind_map kind = ret ko ->
  dict_get (F := F) stf_map (stf (info self)) = ret so ->
  get_seismograms pkg self source receiver components kind
    remove reconv return_obspy_stream dt a_lanczos
  = (l, inr res) ->
  let n := derivative_order ko so (is_force_source s) in
  let k :=
    match dt with
    | Some d => int_of (fdiv (remaining_shift self dt) d)
    | None => src_shift_samples (info self)
    end in
  let time_shift :=
    if remove then of_int 0
    else if reconv then of_int 0
    else remaining_shift self dt in
  delivers res components
    (foldl (fun m comp =>
              alter (fun x =>
                       let y := before_shift_removal pkg self s so n dt
                                  a_lanczos reconv x in
                       if remove then slice_from k y else y)
                    comp m)
           (series data) components)
  /\ starts_at res (utc_sub (origin_of s) time_shift)
  /\ (return_obspy_stream = true ->
      exists st,
        res = RetStream st
        /\ Forall (fun tr => starttime tr
                             = Some (utc_sub (origin_of s) time_shift)) st).
Proof.
  intros Hs Hx Hk Ht Hrun n k time_shift.
  destruct (get_seismograms_inr _ _ _ _ _ _ _ _ _ _ _ _ _ _ _ _ _
              Hs Hx Hk Ht Hrun) as (Hdel & Hstart & Hfmt).
  assert (Hts : final_time_shift self dt remove reconv = time_shift).
  { subst time_shift. unfold final_time_shift. destruct remove, reconv;
      reflexivity. }
  rewrite Hts in Hstart.
  split; [| split; [exact Hstart |]].
  - unfold processed, shift_removed, dropped_samples in Hdel.
    subst k n. exact Hdel.
  - intros ->. destruct Hfmt as [st ->]. exists st. split; [reflexivity |].
    exact (proj2 Hstart).
Qed.

End PipelineFacts.


(** ** Finite sources *)

Section FiniteSourceFacts.
Import Instaseis Pipeline Epilogue.
Context {F : Type} `{Numeric F} `{Libs F}.
Variable pkg : Package F.
Variable self : DB F.

(** The call made for every point source (lines 288-290). *)
Abbreviation point_source_call source receiver components :=
  (get_seismograms pkg self source receiver components "displacement"
                   false true false None 5).

Lemma np_iadd_inr (acc y : list F) l r :
  np_iadd (F := F) acc y = (l, inr r) -> r = add_arrays acc y.
Proof.
  unfold np_iadd, add_arrays.
  destruct (Nat.eqb (length acc) (length y)).
  - intros Hr. injection Hr as _ <-. reflexivity.
  - destruct y as [| v [| v' y]]; intros Hr; try discriminate Hr.
    injection Hr as _ <-. reflexivity.
Qed.

Lemma arr_mul_corr_fac (correct_mu : bool) (d : Data F) comp x :
  series d !! comp = Some x ->
  arr_mul x (if correct_mu then CorrTuple (fdiv (mu d) DEFAULT_MU)
             else CorrInt 1)
  = contribution correct_mu d comp.
Proof.
  intros Hx. unfold contribution. rewrite Hx. destruct correct_mu.
  - reflexivity.
  - cbn [arr_mul]. rewrite <- (map_id x) at 2. apply map_ext.
    intros v. apply fmul_1_r.
Qed.

Lemma accumulate_inr (correct_mu : bool) (d : Data F) comp m l m' :
  accumulate d (if correct_mu then CorrTuple (fdiv (mu d) DEFAULT_MU)
                else CorrInt 1) comp m
  = (l, inr m') ->
  m' = add_contribution comp (contribution correct_mu d comp) m
  /\ is_Some (series d !! comp).
Proof.
  unfold accumulate, add_contribution.
  destruct (m !! comp) as [acc |]; intros Hr.
  - bind_split Hr as x Hget Hr. apply get_series_inr in Hget as [_ Hx].
    bind_split Hr as acc' Hadd Hr. apply np_iadd_inr in Hadd.
    injection Hr as _ <-. subst acc'.
    rewrite (arr_mul_corr_fac correct_mu d comp x Hx). eauto.
  - bind_split Hr as x Hget Hr. apply get_series_inr in Hget as [_ Hx].
    injection Hr as _ <-.
    rewrite (arr_mul_corr_fac correct_mu d comp x Hx). eauto.
Qed.

Lemma accumulate_all_inr (correct_mu : bool) (d : Data F) components m l m' :
  for_each components
    (accumulate d (if correct_mu then CorrTuple (fdiv (mu d) DEFAULT_MU)
                   else CorrInt 1)) m
  = (l, inr m') ->
  m' = add_source correct_mu components m d
  /\ Forall (fun comp => is_Some (series d !! comp)) components.
Proof.
  unfold add_source. revert m l.
  induction components as [| comp components IH]; intros m l.
  - cbn [for_each foldl]. intros Hr. injection Hr as _ <-. auto.
  - rewrite for_each_cons. intros Hr. bind_split Hr as m1 Hone Hrest.
    apply accumulate_inr in Hone as [-> Hin].
    apply IH in Hrest as [-> Hall]. cbn [foldl]. auto.
Qed.

(** The loop over the sources: what every source delivered, and the
    running sum. *)
Lemma sum_sources_inr receiver components correct_mu callback count i
    sources m d0 l m' d' :
  sum_sources pkg self receiver components correct_mu callback count i
              sources (m, d0)
  = (l, inr (Some (m', d'))) ->
  exists datas,
    Forall2 (fun source d =>
               outcome (point_source_call source receiver components)
               = inr (RetData d)
               /\ Forall (fun comp => is_Some (series d !! comp)) components)
            sources datas
    /\ m' = foldl (add_source correct_mu components) m datas
    /\ d' = foldl (fun _ d => Some d) d0 datas.
Proof.
  revert i m d0 l.
  induction sources as [| source sources IH]; intros i m d0 l.
  - cbn [sum_sources]. intros Hr. injection Hr as _ <- <-.
    exists []. split; [constructor | auto].
  - cbn [sum_sources]. intros Hr.
    bind_split Hr as res Hcall Hr. bind_split Hr as d Hdata Hr.
    bind_split Hr as m1 Hacc Hr. bind_split Hr as cancel Hcb Hr.
    destruct cancel; [discriminate |].
    destruct res as [st | d1]; [discriminate |].
    injection Hdata as _ <-.
    cbn [fst] in Hacc. apply accumulate_all_inr in Hacc as [-> Hall].
    apply IH in Hr as (datas & Hdatas & -> & ->).
    exists (d1 :: datas). split; [| auto].
    constructor; [| exact Hdatas].
    unfold outcome. rewrite Hcall. auto.
Qed.

Lemma finite_source_traces (receiver : ReceiverArg pkg) components band dt
    (m : gmap string (list F)) l st :
  for_each components
    (fun comp st =>
       match m !! comp with
       | Some x =>
           match receiver with
           | IsReceiver _ receiver =>
               ret (E := Event F)
                   (st ++ [{| tr_data := x;
                              delta := dt;
                              starttime := None;
                              tr_station := station receiver;
                              tr_network := network receiver;
                              channel := band +:+ "X" +:+ comp;
                              instaseis_mu := None |}])
           | ToParseReceiver _ _ => raise (AttributeError "station")
           end
       | None => raise (KeyError comp)
       end)
    []
  = (l, inr st) ->
  Forall2 (fun comp tr => m !! comp = Some (tr_data tr)) components st.
Proof.
  set (body := fun (comp : string) (st : list (Trace F)) => _).
  assert (Hgen : forall comps acc l st,
             for_each comps body acc = (l, inr st) ->
             exists new,
               st = acc ++ new
               /\ Forall2 (fun comp tr => m !! comp = Some (tr_data tr))
                          comps new).
  { induction comps as [| comp comps IH]; intros acc l0 st0.
    - cbn [for_each]. intros Hr. injection Hr as _ <-.
      exists []. rewrite app_nil_r. auto.
    - rewrite for_each_cons. intros Hr. bind_split Hr as acc1 Hone Hrest.
      subst body. cbn beta in Hone.
      destruct (m !! comp) as [x |] eqn:Hx; [| discriminate].
      destruct receiver as [rcv | raw]; [| discriminate].
      injection Hone as _ <-.
      apply IH in Hrest as (new & -> & Hall).
      eexists (_ :: new). rewrite <- app_assoc. split; [reflexivity |].
      constructor; auto. }
  intros Hr. apply Hgen in Hr as (new & -> & Hall). exact Hall.
Qed.

Lemma finite_source_inr sources receiver components kind dt a_lanczos
    correct_mu callback l st :
  get_seismograms_finite_source pkg self sources receiver components kind
    dt a_lanczos correct_mu callback
  = (l, inr (Some st)) ->
  exists datas l0,
    Forall2 (fun source d =>
               outcome (point_source_call source receiver components)
               = inr (RetData d)
               /\ Forall (fun comp => is_Some (series d !! comp)) components)
            sources datas
    /\ sum_sources pkg self receiver components correct_mu callback
                   (Z.of_nat (length sources)) 0 sources (∅, None)
       = (l0, inr (Some (foldl (add_source correct_mu components) ∅ datas,
                         foldl (fun _ d => Some d) None datas)))
    /\ (dt = None ->
        Forall2 (fun comp tr =>
                   foldl (add_source correct_mu components) ∅ datas !! comp
                   = Some (tr_data tr))
                components st).
Proof.
  unfold get_seismograms_finite_source.
  destruct (is_reciprocal (info self)); [| discriminate]. cbn [negb].
  intros Hr. bind_cut Hr as l0 res l1 Hsum Hr Hl.
  destruct res as [[m d] |]; [| discriminate].
  pose proof Hsum as Hsum'.
  apply sum_sources_inr in Hsum' as (datas & Hdatas & -> & ->).
  exists datas, l0. split; [exact Hdatas |]. split; [exact Hsum |].
  intros ->. rewrite bind_ret_l in Hr. bind_split Hr as st' Htr Hr.
  injection Hr as _ <-.
  apply finite_source_traces in Htr. exact Htr.
Qed.

(** C2: whenever [get_seismograms_finite_source] returns a stream, the
    loop over the sources has left in [data_summed], for every component,
    the running sum, source after source, of the contributions of the point
    sources, where the contribution of a source is its series multiplied
    entry by entry by [mu / 32e9] with [correct_mu], and its series
    unchanged without; when no [dt] is requested the traces returned hold
    these sums. *)
Theorem mu_correction_scales_contributions
    sources receiver components kind dt a_lanczos correct_mu callback l st :
  get_seismograms_finite_source pkg self sources receiver components kind
    dt a_lanczos correct_mu callback
  = (l, inr (Some st)) ->
  exists datas l0 last_data,
    Forall2 (fun source d =>
               outcome (point_source_call source receiver components)
               = inr (RetData d))
            sources datas
    /\ Forall (fun d =>
                 Forall (fun comp =>
                           exists x,
                             series d !! comp = Some x
                             /\ contribution correct_mu d comp
                                = if correct_mu
                                  then map (fun v =>
                                              fmul v (fdiv (mu d) (lit 32 9)))
                                           x
                                  else x)
                        components)
              datas
    /\ sum_sources pkg self receiver components correct_mu callback
                   (Z.of_nat (length sources)) 0 sources (∅, None)
       = (l0,
          inr (Some (foldl (fun m d =>
                              foldl (fun m comp =>
                                       add_contribution comp
                                         (contribution correct_mu d comp) m)
                                    m components)
                           ∅ datas,
                     last_data)))
    /\ (dt = None ->
        Forall2 (fun comp tr =>
                   foldl (fun m d =>
                            foldl (fun m comp =>
                                     add_contribution comp
                                       (contribution correct_mu d comp) m)
                                  m components)
                         ∅ datas !! comp
                   = Some (tr_data tr))
                components st).
Proof.
  intros Hr. apply finite_source_inr in Hr as (datas & l0 & Hdatas & Hsum & Htr).
  exists datas, l0, (foldl (fun _ d => Some d) None datas).
  split; [| split; [| split; [exact Hsum | exact Htr]]].
  - eapply Forall2_impl; [exact Hdatas |]. intros source d [Hd _]. exact Hd.
  - clear Htr Hsum. induction Hdatas as [| source d srcs datas [_ Hd] _ IH];
      constructor; [| exact IH].
    eapply Forall_impl; [exact Hd |]. intros comp [x Hx].
    exists x. split; [exact Hx |]. unfold contribution. rewrite Hx.
    reflexivity.
Qed.

Lemma add_source_fresh (d : Data F) components (m : gmap string (list F)) :
  NoDup components ->
  Forall (fun comp => m !! comp = None) components ->
  (forall comp,
      comp ∈ components ->
      add_source false components m d !! comp
      = Some (contribution false d comp))
  /\ (forall comp,
        comp ∉ components ->
        add_source false components m d !! comp = m !! comp).
Proof.
  unfold add_source. intros Hnd. revert m.
  induction Hnd as [| c components Hc Hnd IH]; intros m Hfresh.
  - split; [intros comp Hin; inversion Hin | reflexivity].
  - inversion Hfresh as [| ? ? Hmc Hfresh']; subst. cbn [foldl].
    assert (Hstep : add_contribution c (contribution false d c) m
                    = <[c := contribution false d c]> m).
    { unfold add_contribution. rewrite Hmc. reflexivity. }
    rewrite Hstep.
    destruct (IH (<[c := contribution false d c]> m)) as [IHin IHout].
    { eapply Forall_forall. intros comp Hin.
      rewrite lookup_insert_ne by (intros ->; contradiction).
      eapply Forall_forall in Hfresh'; eauto. }
    split.
    + intros comp Hin. apply elem_of_cons in Hin as [-> | Hin].
      * rewrite IHout by exact Hc. apply lookup_insert_eq.
      * apply IHin. exact Hin.
    + intros comp Hout. apply not_elem_of_cons in Hout as [Hne Hout].
      rewrite IHout by exact Hout. apply lookup_insert_ne. congruence.
Qed.

Lemma traces_agree (m m' : gmap string (list F)) components
    (st : list (Trace F)) :
  Forall2 (fun comp tr => m !! comp = Some (tr_data tr)) components st ->
  (forall comp, comp ∈ components -> m !! comp = m' !! comp) ->
  Forall2 (fun comp tr => m' !! comp = Some (tr_data tr)) components st.
Proof.
  induction 1 as [| comp tr comps trs Hone _ IH]; intros Hsame; constructor.
  - rewrite <- Hsame by (apply elem_of_cons; auto). exact Hone.
  - apply IH. intros c Hc. apply Hsame. apply elem_of_cons. auto.
Qed.

(** One point source, [correct_mu] unset, no [dt], pairwise distinct
    components: whenever [get_seismograms_finite_source] returns a stream,
    whatever [kind] it was asked for, the direct call of [get_seismograms]
    on that source for kind ["displacement"] with [reconvolve_stf] set and
    [remove_source_shift] unset returns a dictionary, and the trace of
    every requested component holds exactly the series that dictionary has
    for the component. *)
Theorem single_source_matches_direct_call
    source receiver components kind a_lanczos callback l st :
  NoDup components ->
  get_seismograms_finite_source pkg self [source] receiver components
    kind None a_lanczos false callback
  = (l, inr (Some st)) ->
  exists d,
    outcome (get_seismograms pkg self source receiver components
               "displacement" false true false None 5)
    = inr (RetData d)
    /\ Forall2 (fun comp tr => series d !! comp = Some (tr_data tr))
               components st.
Proof.
  intros Hnd Hr.
  apply finite_source_inr in Hr as (datas & l0 & Hdatas & _ & Htr).
  specialize (Htr eq_refl).
  inversion Hdatas as [| ? d ? ds [Hd Hin] Hnil]; subst.
  inversion Hnil; subst. cbn [foldl] in Htr.
  exists d. split; [exact Hd |].
  destruct (add_source_fresh d components ∅ Hnd) as [Hsum _].
  { apply Forall_forall. intros comp _. apply lookup_empty. }
  assert (Hsome : forall comp,
             comp ∈ components ->
             add_source false components ∅ d !! comp = series d !! comp).
  { intros comp Hc. rewrite (Hsum comp Hc). unfold contribution.
    eapply Forall_forall in Hin as [x Hx]; [| exact Hc].
    rewrite Hx. reflexivity. }
  eapply traces_agree; [exact Htr | exact Hsome].
Qed.

(** *** The final resampling pass *)

Lemma final_resample_inr (d : Data F) dt a_lanczos comp
    (m : gmap string (list F)) l m' :
  final_resample pkg self (Some d) dt a_lanczos comp m = (l, inr m') ->
  exists x,
    series d !! comp = Some x
    /\ m' = <[comp := finite_resampled pkg self dt a_lanczos x]> m
    /\ l = [Resample comp x (of_int 0) (info_dt (info self))
                     (finite_starttime self dt) dt
                     (finite_sample_count self (length x) dt)
                     a_lanczos "blackman"].
Proof.
  unfold final_resample. cbv zeta. rewrite bind_ret_l. intros Hr.
  bind_cut Hr as l1 x l2 Hget Hr Hl. apply get_series_inr in Hget as [-> Hx].
  bind_cut Hr as l3 x' l4 Hget' Hr Hl'.
  apply get_series_inr in Hget' as [-> Hx'].
  rewrite Hx in Hx'. injection Hx' as <-.
  rewrite bind_emit in Hr. injection Hr as <- <-. subst.
  exists x. auto.
Qed.

Lemma final_resample_loop_inr (d : Data F) dt a_lanczos components
    (m : gmap string (list F)) l m' :
  for_each components (final_resample pkg self (Some d) dt a_lanczos) m
  = (l, inr m') ->
  (forall comp,
      comp ∈ components ->
      exists x,
        series d !! comp = Some x
        /\ m' !! comp = Some (finite_resampled pkg self dt a_lanczos x))
  /\ (forall comp, comp ∉ components -> m' !! comp = m !! comp).
Proof.
  revert m l. induction components as [| c components IH]; intros m l.
  - cbn [for_each]. intros Hr. injection Hr as _ <-.
    split; [intros comp Hin; inversion Hin | reflexivity].
  - rewrite for_each_cons. intros Hr. bind_split Hr as m1 Hone Hrest.
    apply final_resample_inr in Hone as (x & Hx & -> & _).
    apply IH in Hrest as [IHin IHout]. split.
    + intros comp Hin. destruct (decide (comp ∈ components)) as [Hc | Hc].
      * apply IHin. exact Hc.
      * apply elem_of_cons in Hin as [-> | Hin]; [| contradiction].
        exists x. split; [exact Hx |].
        rewrite IHout by exact Hc. apply lookup_insert_eq.
    + intros comp Hout. apply not_elem_of_cons in Hout as [Hne Hout].
      rewrite IHout by exact Hout. apply lookup_insert_ne. congruence.
Qed.

(** With a requested [dt], what [get_seismograms_finite_source] returns
    for a component is the resampled series of the source processed last;
    the running sum does not enter it. *)
Lemma finite_source_resampled_inr sources receiver components kind dt
    a_lanczos correct_mu callback l st :
  components <> [] ->
  get_seismograms_finite_source pkg self sources receiver components kind
    (Some dt) a_lanczos correct_mu callback
  = (l, inr (Some st)) ->
  exists datas d_last,
    Forall2 (fun source d =>
               outcome (point_source_call source receiver components)
               = inr (RetData d))
            sources datas
    /\ last datas = Some d_last
    /\ Forall2 (fun comp tr =>
                  exists x,
                    series d_last !! comp = Some x
                    /\ tr_data tr = finite_resampled pkg self dt a_lanczos x)
               components st.
Proof.
  intros Hne. unfold get_seismograms_finite_source.
  destruct (is_reciprocal (info self)); [| discriminate]. cbn [negb].
  intros Hr. bind_split Hr as res Hsum Hr.
  destruct res as [[m d] |]; [| discriminate].
  apply sum_sources_inr in Hsum as (datas & Hdatas & -> & ->).
  bind_split Hr as m1 Hres Hr. bind_split Hr as st' Htr Hr.
  injection Hr as _ <-. apply finite_source_traces in Htr.
  assert (Hlast : forall o : option (Data F),
             foldl (fun _ d => Some d) o datas
             = from_option Some o (last datas)).
  { clear. induction datas as [| d datas IH]; intros o; [reflexivity |].
    cbn [foldl]. rewrite IH, last_cons. destruct (last datas); reflexivity. }
  rewrite Hlast in Hres. cbn [from_option] in Hres.
  destruct (last datas) as [d_last |] eqn:Hd.
  - apply final_resample_loop_inr in Hres as [Hin _].
    exists datas, d_last. split; [| split; [exact Hd |]].
    + eapply Forall2_impl; [exact Hdatas |]. intros source d [Hd' _]. exact Hd'.
    + clear Hdatas Hne Hlast Hd. revert Hin.
      induction Htr as [| comp tr comps trs Hone _ IH]; intros Hin;
        constructor.
      * destruct (Hin comp) as (x & Hx & Hm); [apply elem_of_cons; auto |].
        exists x. split; [exact Hx |]. congruence.
      * apply IH. intros c Hc. apply Hin. apply elem_of_cons. auto.
  - destruct components as [| c components]; [contradiction |].
    rewrite for_each_cons in Hres. discriminate Hres.
Qed.

End FiniteSourceFacts.

(** ** The model on the demonstration database *)

Section Runs.
Import Instaseis Fixed9 Demo Pipeline Epilogue.

Lemma mutual_exclusion_follows_extraction_witness :
  get_seismograms demo_pkg (demo_db "errorf") strong_source the_receiver
    ["Z"] "displacement" true true true None 5
  = ([] ++ [Extract ["Z"]],
     inl (ValueError
            "'remove_source_shift' argument not compatible with 'reconvolve_stf'."))
  /\ Forall (fun ev => is_warning ev = true) (@nil (Event Z)).
Proof.
  apply (mutual_exclusion_follows_extraction demo_pkg (demo_db "errorf")
           strong_source the_receiver ["Z"] "displacement" true None 5
           [] (point_source 3) demo_receiver (strong_data ["Z"]) 0);
    reflexivity.
Defined.

(** C3, as stated, fails: on the rejected call the extraction from the
    database has already taken place. *)
Lemma extraction_precedes_mutual_exclusion_check :
  outcome (get_seismograms demo_pkg (demo_db "errorf") strong_source
             the_receiver ["Z"; "N"; "E"] "displacement" true true true
             None 5)
  = inl (ValueError
           "'remove_source_shift' argument not compatible with 'reconvolve_stf'.")
  /\ In (Extract ["Z"; "N"; "E"])
        (log (get_seismograms demo_pkg (demo_db "errorf") strong_source
                the_receiver ["Z"; "N"; "E"] "displacement" true true true
                None 5)).
Proof. split; [reflexivity | left; reflexivity]. Qed.

Lemma reconvolution_validation_witness :
  _get_seismograms_sanity_checks demo_pkg (demo_db "gauss_1") strong_source
    the_receiver ["Z"] "displacement"
  = ([], inr (point_source 3, demo_receiver))
  /\ exists msg,
       outcome (get_seismograms demo_pkg (demo_db "gauss_1") strong_source
                  the_receiver ["Z"] "displacement" false true true None 5)
       = inl (NotImplementedError msg).
Proof.
  assert (Hs : _get_seismograms_sanity_checks demo_pkg (demo_db "gauss_1")
                 strong_source the_receiver ["Z"] "displacement"
               = ([], inr (point_source 3, demo_receiver)))
    by (reflexivity).
  split; [exact Hs |].
  apply (reconvolution_validation demo_pkg (demo_db "gauss_1")
           strong_source the_receiver "Z" [] "displacement" true None 5
           [] (point_source 3) demo_receiver (strong_data ["Z"]) 2 Hs);
    [reflexivity | reflexivity |].
  repeat split; try discriminate; eexists; reflexivity.
Defined.

(** C5, as stated, fails: the stored tag [gauss_1] has order [2], yet for
    a source without a source time function the call ends in a
    [ValueError], not in [NotImplementedError]. *)
Lemma missing_stf_reported_before_unsupported_tag :
  dict_get (F := Z) stf_map (stf (info (demo_db "gauss_1"))) = ret 2
  /\ outcome (get_seismograms demo_pkg (demo_db "gauss_1") stf_less_source
                the_receiver ["Z"] "displacement" false true true None 5)
     = inl (ValueError "source has no source time function")
  /\ ~ (exists msg,
          outcome (get_seismograms demo_pkg (demo_db "gauss_1")
                     stf_less_source the_receiver ["Z"] "displacement"
                     false true true None 5)
          = inl (NotImplementedError msg)).
Proof.
  assert (Hout : outcome (get_seismograms demo_pkg (demo_db "gauss_1")
                            stf_less_source the_receiver ["Z"] "displacement"
                            false true true None 5)
                 = inl (ValueError "source has no source time function"))
    by reflexivity.
  split; [reflexivity |]. split; [exact Hout |].
  intros [msg Hmsg]. rewrite Hout in Hmsg. discriminate Hmsg.
Qed.

(** C10: with no component and a stream requested, the call does not
    complete; it ends in the [UnboundLocalError] of the local
    [time_shift], which only the loop body assigns. *)
Theorem empty_components_stream_fails :
  get_seismograms demo_pkg (demo_db "errorf") strong_source the_receiver
    [] "displacement" false true true None 5
  = ([Extract []], inl (UnboundLocalError "time_shift")).
Proof. reflexivity. Qed.

(** *** A velocity seismogram, resampled, shift removed *)

Lemma velocity_run_sanity :
  _get_seismograms_sanity_checks demo_pkg (demo_db "errorf") strong_source
    the_receiver ["Z"] "velocity"
  = ([], inr (point_source 3, demo_receiver)).
Proof. reflexivity. Defined.

Lemma velocity_run_extract :
  _get_seismograms (demo_db "errorf") (point_source 3) demo_receiver ["Z"]
  = inr (strong_data ["Z"]).
Proof. reflexivity. Defined.

Lemma velocity_run_ok :
  get_seismograms demo_pkg (demo_db "errorf") strong_source the_receiver
    ["Z"] "velocity" true false true (Some (1 * unit9)) 5
  = (fst velocity_run, inr (value_or (RetStream []) velocity_run)).
Proof. reflexivity. Defined.

Lemma derivative_order_applied_witness :
  get_seismograms demo_pkg (demo_db "errorf") strong_source the_receiver
    ["Z"] "velocity" true false true (Some (1 * unit9)) 5
  = (fst velocity_run, inr (value_or (RetStream []) velocity_run))
  /\ calls (is_gradient_of "Z") (fst velocity_run) = 1%nat
  /\ calls (is_cumtrapz_of "Z") (fst velocity_run) = 0%nat.
Proof.
  split; [exact velocity_run_ok |].
  pose proof (derivative_order_applied demo_pkg (demo_db "errorf")
                strong_source the_receiver ["Z"] "velocity" true false true
                (Some (1 * unit9)) 5 [] (point_source 3) demo_receiver
                (strong_data ["Z"]) 1 0 (fst velocity_run)
                (value_or (RetStream []) velocity_run)
                velocity_run_sanity velocity_run_extract eq_refl eq_refl
                velocity_run_ok) as Happlied.
  cbv zeta in Happlied. destruct Happlied as [Hcalls _].
  destruct (Hcalls "Z") as [Hg Hc]. split; [exact Hg | exact Hc].
Defined.

Lemma resampling_alignment_witness :
  get_seismograms demo_pkg (demo_db "errorf") strong_source the_receiver
    ["Z"] "velocity" true false true (Some (1 * unit9)) 5
  = (fst velocity_run, inr (value_or (RetStream []) velocity_run))
  /\ Forall (resample_call_ok (demo_db "errorf") (1 * unit9) 5)
            (fst velocity_run)
  /\ calls (is_resample_of "Z") (fst velocity_run) = 1%nat.
Proof.
  split; [exact velocity_run_ok |].
  pose proof (resampling_alignment demo_pkg (demo_db "errorf")
                strong_source the_receiver ["Z"] "velocity" true false true
                (1 * unit9) 5 [] (point_source 3) demo_receiver
                (strong_data ["Z"]) 1 0 (fst velocity_run)
                (value_or (RetStream []) velocity_run)
                velocity_run_sanity velocity_run_extract eq_refl eq_refl
                velocity_run_ok) as (Hall & Hcalls & _).
  split; [exact Hall | exact (Hcalls "Z")].
Defined.

Lemma source_shift_removed_witness :
  get_seismograms demo_pkg (demo_db "errorf") strong_source the_receiver
    ["Z"] "velocity" true false true (Some (1 * unit9)) 5
  = (fst velocity_run, inr (value_or (RetStream []) velocity_run))
  /\ starts_at (value_or (RetStream []) velocity_run) (0 : Z).
Proof.
  split; [exact velocity_run_ok |].
  pose proof (source_shift_removed demo_pkg (demo_db "errorf")
                strong_source the_receiver ["Z"] "velocity" true false true
                (Some (1 * unit9)) 5 [] (point_source 3) demo_receiver
                (strong_data ["Z"]) 1 0 (fst velocity_run)
                (value_or (RetStream []) velocity_run)
                velocity_run_sanity velocity_run_extract eq_refl eq_refl
                velocity_run_ok) as Hremoved.
  cbv zeta in Hremoved. destruct Hremoved as (_ & Hstart & _).
  exact Hstart.
Defined.

(** C6, as stated, fails: the source shift of the database is
    2.123456789 s and the new interval 1 s, so the shift modulo the interval
    is 0.123456789 s, but the resampler is called with the new start
    0.12345679 s. *)
Lemma alignment_shift_is_rounded :
  shift_modulo (demo_db "errorf") (1 * unit9) = 123456789
  /\ In (Resample "Z" (ramp (3 * unit9)) 0 (1 * unit9) 123456790
                  (1 * unit9) 5 5 "blackman")
        (log (get_seismograms demo_pkg (demo_db "errorf") strong_source
                the_receiver ["Z"] "displacement" false false false
                (Some (1 * unit9)) 5))
  /\ 123456790 <> shift_modulo (demo_db "errorf") (1 * unit9).
Proof.
  assert (Hmod : shift_modulo (demo_db "errorf") (1 * unit9) = 123456789)
    by reflexivity.
  split; [exact Hmod |]. split; [| rewrite Hmod; discriminate].
  right. left. reflexivity.
Qed.

(** *** Finite sources *)

Lemma mu_correction_scales_contributions_witness :
  get_seismograms_finite_source demo_pkg (demo_db "errorf")
    [strong_source; weak_source] the_receiver ["Z"] "displacement" None 5
    true None
  = (fst corrected_sum_run, inr (Some (traces_of corrected_sum_run)))
  /\ exists datas : list (Data Z),
       Forall2 (fun comp tr =>
                  foldl (fun m d =>
                           foldl (fun m comp =>
                                    add_contribution comp
                                      (contribution true d comp) m)
                                 m ["Z"])
                        ∅ datas !! comp
                  = Some (tr_data tr))
               ["Z"] (traces_of corrected_sum_run).
Proof.
  assert (Hrun : get_seismograms_finite_source demo_pkg (demo_db "errorf")
                   [strong_source; weak_source] the_receiver ["Z"]
                   "displacement" None 5 true None
                 = (fst corrected_sum_run,
                    inr (Some (traces_of corrected_sum_run))))
    by (reflexivity).
  split; [exact Hrun |].
  destruct (mu_correction_scales_contributions demo_pkg (demo_db "errorf")
              [strong_source; weak_source] the_receiver ["Z"] "displacement"
              None 5 true None (fst corrected_sum_run)
              (traces_of corrected_sum_run) Hrun)
    as (datas & l0 & last_data & _ & _ & _ & Htr).
  exists datas. exact (Htr eq_refl).
Defined.

Lemma single_source_matches_direct_call_witness :
  NoDup ["Z"; "N"]
  /\ get_seismograms_finite_source demo_pkg (demo_db "errorf")
       [strong_source] the_receiver ["Z"; "N"] "displacement" None 5
       false None
     = (fst single_source_run, inr (Some (traces_of single_source_run)))
  /\ exists d,
       outcome (get_seismograms demo_pkg (demo_db "errorf") strong_source
                  the_receiver ["Z"; "N"] "displacement" false true false
                  None 5)
       = inr (RetData d)
       /\ Forall2 (fun comp tr => series d !! comp = Some (tr_data tr))
                  ["Z"; "N"] (traces_of single_source_run).
Proof.
  assert (Hnd : NoDup ["Z"; "N"]).
  { apply NoDup_cons. split; [| apply NoDup_singleton].
    intros Hin. apply list_elem_of_singleton in Hin. discriminate Hin. }
  assert (Hrun : get_seismograms_finite_source demo_pkg (demo_db "errorf")
                   [strong_source] the_receiver ["Z"; "N"] "displacement"
                   None 5 false None
                 = (fst single_source_run,
                    inr (Some (traces_of single_source_run))))
    by (reflexivity).
  split; [exact Hnd |]. split; [exact Hrun |].
  exact (single_source_matches_direct_call demo_pkg (demo_db "errorf")
           strong_source the_receiver ["Z"; "N"] "displacement" 5 None
           (fst single_source_run) (traces_of single_source_run) Hnd Hrun).
Defined.

(** A component listed twice is accumulated twice: with ["Z"] listed
    twice, both traces of the single source hold twice the series of the
    direct call. *)
Lemma repeated_component_is_added_twice :
  series_of "Z"
    (get_seismograms demo_pkg (demo_db "errorf") strong_source the_receiver
       ["Z"; "Z"] "displacement" false true false None 5)
  = Some [27000000000; 54000000000; 81000000000; 108000000000;
          135000000000; 162000000000]
  /\ map tr_data
         (traces_of
            (get_seismograms_finite_source demo_pkg (demo_db "errorf")
               [strong_source] the_receiver ["Z"; "Z"] "displacement" None 5
               false None))
     = [[54000000000; 108000000000; 162000000000; 216000000000;
         270000000000; 324000000000];
        [54000000000; 108000000000; 162000000000; 216000000000;
         270000000000; 324000000000]].
Proof. split; reflexivity. Qed.

(** C7: a database with a sampling interval of 1 s and a source shift
    of 2.123456789 s; displacement resampled to 1 s with
    [remove_source_shift].  The resampled series has five samples and
    starts 0.12345679 s after the first sample of the database, so
    1.999999999 s, two samples of 1 s, remain up to the origin time.
    Line 182 takes the integer part before it rounds,
    [round(int(time_shift / dt), 8)], which gives 1; rounding before the
    integer part, as lines 159, 313 and 315 do, gives 2.  One sample is
    dropped: the trace keeps the last four of the five samples, its first
    sample lies one interval before the origin time, and its start time is
    the origin time. *)
Theorem shift_removal_takes_integer_part_before_rounding :
  remaining_shift (demo_db "errorf") (Some (1 * unit9)) = 1999999999
  /\ int_of (round_nd
               (fdiv (remaining_shift (demo_db "errorf") (Some (1 * unit9)))
                     (1 * unit9)) 8)
     = 2
  /\ round_int
       (int_of (fdiv (remaining_shift (demo_db "errorf") (Some (1 * unit9)))
                     (1 * unit9))) 8
     = 1
  /\ before_shift_removal demo_pkg (demo_db "errorf") (point_source 3) 0 0
       (Some (1 * unit9)) 5 false (ramp (3 * unit9))
     = [3000000000; 6000000000; 9000000000; 12000000000; 15000000000]
  /\ map tr_data (stream_of shift_removal_run)
     = [[6000000000; 9000000000; 12000000000; 15000000000]]
  /\ map starttime (stream_of shift_removal_run) = [Some (0 : Z)].
Proof. repeat split; reflexivity. Qed.

(** C8: one point source on a reciprocal database computed with a
    Gaussian source time function, and kind ["velocity"].
    [get_seismograms_finite_source] does not hand [kind] on to
    [get_seismograms] (line 288): whatever kind it is asked for, it returns
    what the direct call returns for ["displacement"], here the
    reconvolved series integrated once, while the direct call for
    ["velocity"] returns the reconvolved series without integration. *)
Theorem finite_source_ignores_kind :
  (forall kind : string,
      finite_run_of_kind kind = finite_run_of_kind "displacement")
  /\ map tr_data (traces_of (finite_run_of_kind "velocity"))
     = [[0; 27000000000; 72000000000; 135000000000; 216000000000;
         315000000000]]
  /\ map tr_data (stream_of (direct_run_of_kind "displacement"))
     = [[0; 27000000000; 72000000000; 135000000000; 216000000000;
         315000000000]]
  /\ map tr_data (stream_of (direct_run_of_kind "velocity"))
     = [[18000000000; 36000000000; 54000000000; 72000000000; 90000000000;
         108000000000]].
Proof. repeat split; reflexivity. Qed.

(** C1: two point sources and a requested [dt] of 2 s.  The sum of the two
    contributions is what a run without [dt] returns; with [dt], the
    resampler is handed the series of the last source alone, and the
    trace returned is that series resampled. *)
Theorem final_resampling_takes_last_source :
  map tr_data
      (traces_of
         (get_seismograms_finite_source demo_pkg (demo_db "errorf")
            [strong_source; weak_source] the_receiver ["Z"] "displacement"
            None 5 false None))
  = [[13000000000; 26000000000; 39000000000; 52000000000; 65000000000;
      78000000000]]
  /\ series_of "Z"
       (get_seismograms demo_pkg (demo_db "errorf") weak_source the_receiver
          ["Z"] "displacement" false true false None 5)
     = Some [4000000000; 8000000000; 12000000000; 16000000000; 20000000000;
             24000000000]
  /\ List.filter (is_resample_of "Z")
       (log (get_seismograms_finite_source demo_pkg (demo_db "errorf")
               [strong_source; weak_source] the_receiver ["Z"]
               "displacement" (Some (2 * unit9)) 5 false None))
     = [Resample "Z"
          [4000000000; 8000000000; 12000000000; 16000000000; 20000000000;
           24000000000]
          0 (1 * unit9) 123460000 (2 * unit9) 3 5 "blackman"]
  /\ map tr_data
         (traces_of
            (get_seismograms_finite_source demo_pkg (demo_db "errorf")
               [strong_source; weak_source] the_receiver ["Z"]
               "displacement" (Some (2 * unit9)) 5 false None))
     = [[4000000000; 8000000000; 12000000000]].
Proof. repeat split; reflexivity. Qed.

End Runs.

(** * Further properties of the code *)

(** ** Spectral-basis wrappers *)

Section SpectralBasisMore.
Import SpectralBasis.
Context {F : Type} (zero : F) (lib : FortranLib F).

Lemma c_int_range (n : Z) : - 2 ^ 31 <= c_int n < 2 ^ 31.
Proof.
  unfold c_int.
  pose proof (Z.mod_pos_bound (n + 2 ^ 31) (2 ^ 32) ltac:(lia)). lia.
Qed.

Lemma c_int_fixed (n : Z) : c_int n = n <-> - 2 ^ 31 <= n < 2 ^ 31.
Proof.
  split; [| apply c_int_small].
  intros Hn. rewrite <- Hn. apply c_int_range.
Qed.

End SpectralBasisMore.

(** X1: for every order [n >= -1] the collocation-point and GLL-matrix
    wrappers hand the library a zero-filled buffer of [n + 1] entries
    (squared for the matrix) and call it exactly once; the order the
    library receives is [n] wrapped to 32 bits, which is [n] itself exactly
    when [n < 2 ^ 31]. *)
Theorem order_reaches_library
    {F : Type} (zero : F) (lib : SpectralBasis.FortranLib F) (n : Z) :
  -1 <= n ->
  SpectralBasis.zelegl zero lib n
  = ([SpectralBasis.Foreign "zelegl" (SpectralBasis.c_int n)],
     inr (SpectralBasis.lib_zelegl lib (SpectralBasis.c_int n)
            (replicate (Z.to_nat (n + 1)) zero)))
  /\ SpectralBasis.zemngl2 zero lib n
     = ([SpectralBasis.Foreign "zemngl2" (SpectralBasis.c_int n)],
        inr (SpectralBasis.lib_zemngl2 lib (SpectralBasis.c_int n)
               (replicate (Z.to_nat (n + 1)) zero)))
  /\ SpectralBasis.def_lagrange_derivs_gll zero lib n
     = ([SpectralBasis.Foreign "def_lagrange_derivs_gll"
           (SpectralBasis.c_int n)],
        inr {| SpectralBasis.shape := (n + 1, n + 1);
               SpectralBasis.buf :=
                 SpectralBasis.lib_def_lagrange_derivs_gll lib
                   (SpectralBasis.c_int n)
                   (replicate (Z.to_nat ((n + 1) * (n + 1))) zero) |})
  /\ (SpectralBasis.c_int n = n <-> n < 2 ^ 31).
Proof.
  intros Hn.
  unfold SpectralBasis.zelegl, SpectralBasis.zemngl2,
    SpectralBasis.def_lagrange_derivs_gll.
  rewrite np_zeros_ok, np_zeros2_ok by lia.
  repeat split; try reflexivity.
  - intros Hc. apply c_int_fixed in Hc. lia.
  - intros Hlt. apply c_int_fixed. lia.
Qed.

Lemma order_reaches_library_witness :
  -1 <= 4
  /\ SpectralBasis.zelegl 0 SpectralBasis.echo_lib 4
     = ([SpectralBasis.Foreign "zelegl" (SpectralBasis.c_int 4)],
        inr (SpectralBasis.lib_zelegl SpectralBasis.echo_lib
               (SpectralBasis.c_int 4) (replicate (Z.to_nat (4 + 1)) 0))).
Proof.
  split; [lia |].
  apply (order_reaches_library 0 SpectralBasis.echo_lib 4). lia.
Defined.

(** X2: the GLJ wrapper calls the GLL routine of the library: for every
    order it makes the calls of the GLL wrapper, returns the matrix the GLL
    wrapper returns, and its boundary vector [G0] is left all zero. *)
Theorem glj_returns_gll_matrix
    {F : Type} (zero : F) (lib : SpectralBasis.FortranLib F) (npol : Z) :
  log (SpectralBasis.def_lagrange_derivs_glj zero lib npol)
  = log (SpectralBasis.def_lagrange_derivs_gll zero lib npol)
  /\ outcome (SpectralBasis.def_lagrange_derivs_glj zero lib npol)
     = match outcome (SpectralBasis.def_lagrange_derivs_gll zero lib npol) with
       | inr G1 => inr (replicate (Z.to_nat (npol + 1)) zero, G1)
       | inl e => inl e
       end.
Proof.
  unfold SpectralBasis.def_lagrange_derivs_glj,
    SpectralBasis.def_lagrange_derivs_gll.
  destruct (Z.lt_ge_cases (npol + 1) 0) as [Hneg | Hpos].
  - rewrite np_zeros_negative, np_zeros2_negative by lia.
    split; reflexivity.
  - rewrite np_zeros_ok, np_zeros2_ok by lia. split; reflexivity.
Qed.

(** ** The interpolation wrapper *)

(** X3: the library is called exactly when the two node sets have the
    same length.  Node sets of different lengths end in a [ValueError] with
    no call made; node sets of equal length lead to one call, with the order
    [len(points1) - 1] (which is [-1] for empty node sets), the leading
    dimension of the coefficients as number of samples and a zero-filled
    output buffer of that many entries, and the call cannot fail. *)
Theorem interpolation_checks_node_sets
    {F : Type} (zero : F)
    (lib : Z -> Z -> list F -> list F -> list F -> F -> F -> list F -> list F)
    (points1 points2 : list F) (coefficients : Interpolation.Coefficients F)
    (x1 x2 : F) :
  (length points1 <> length points2
   <-> Interpolation.lagrange_interpol_2D_td zero lib points1 points2
         coefficients x1 x2
       = ([], inl (ValueError "")))
  /\ (length points1 = length points2
      <-> Interpolation.lagrange_interpol_2D_td zero lib points1 points2
            coefficients x1 x2
          = ([Interpolation.Interpolate
                (SpectralBasis.c_int (Z.of_nat (length points1) - 1))
                (SpectralBasis.c_int
                   (Z.of_nat (Interpolation.shape0 coefficients)))],
             inr (lib (SpectralBasis.c_int (Z.of_nat (length points1) - 1))
                      (SpectralBasis.c_int
                         (Z.of_nat (Interpolation.shape0 coefficients)))
                      points1 points2 (Interpolation.entries coefficients)
                      x1 x2
                      (replicate (Interpolation.shape0 coefficients) zero)))).
Proof.
  unfold Interpolation.lagrange_interpol_2D_td.
  destruct (Nat.eqb_spec (length points1) (length points2)) as [Heq | Hne];
    cbn [negb]; split; split; intros Hx;
    try reflexivity; try contradiction; try discriminate Hx; auto.
Qed.

(** ** [sizeof_fmt] *)

Section SizeFmtFacts.
Import SizeFmt.
Variable format_3_1f : Q -> string -> string.

Lemma within_1024 (q : Q) :
  (Qabs q < 1024)%Q <-> (q < 1024 /\ -1024 < q)%Q.
Proof. rewrite Qabs_Qlt_condition. tauto. Qed.

Lemma sizeof_fmt_loop_cons (x : string) (units : list string) (q : Q) :
  sizeof_fmt_loop format_3_1f (x :: units) q
  = if Qlt_le_dec (Qabs q) 1024 then format_3_1f q x
    else sizeof_fmt_loop format_3_1f units (q / 1024)%Q.
Proof.
  cbn [sizeof_fmt_loop].
  destruct (Qlt_le_dec (Qabs q) 1024) as [Hin | Hout].
  - apply within_1024 in Hin as [Hlt Hgt].
    destruct (Qlt_le_dec q 1024) as [_ | Hle]; [| lra].
    destruct (Qlt_le_dec (-1024) q) as [_ | Hle]; [reflexivity | lra].
  - destruct (Qlt_le_dec q 1024) as [Hlt |]; [| reflexivity].
    destruct (Qlt_le_dec (-1024) q) as [Hgt |]; [| reflexivity].
    exfalso. apply (Qle_not_lt _ _ Hout). apply within_1024. auto.
Qed.

Lemma abs_test_scaled {A} (q c : Q) (a b : A) :
  (if Qlt_le_dec (Qabs (q / 1024)) c then a else b)
  = (if Qlt_le_dec (Qabs q) (c * 1024) then a else b).
Proof.
  assert (Hd : (q / 1024 == q * (1 # 1024))%Q) by reflexivity.
  assert (Hiff : (Qabs (q / 1024) < c)%Q <-> (Qabs q < c * 1024)%Q).
  { rewrite !Qabs_Qlt_condition, Hd. split; intros [? ?]; split; lra. }
  destruct (Qlt_le_dec (Qabs (q / 1024)) c) as [Hin | Hout];
    destruct (Qlt_le_dec (Qabs q) (c * 1024)) as [Hin' | Hout'];
    try reflexivity; exfalso.
  - apply (Qle_not_lt _ _ Hout'). apply Hiff. exact Hin.
  - apply (Qle_not_lt _ _ Hout). apply Hiff. exact Hin'.
Qed.

End SizeFmtFacts.

(** X4: [sizeof_fmt] picks the unit by the magnitude of the number, of
    either sign: bytes below 1024, then KB, MB and GB, and TB from
    [1024 ^ 4] on without any upper limit; the number printed is the input
    divided by 1024 once per unit passed, so four times for TB. *)
Theorem sizeof_fmt_units (format_3_1f : Q -> string -> string) (num : Q) :
  SizeFmt.sizeof_fmt format_3_1f num
  = (if Qlt_le_dec (Qabs num) 1024
     then format_3_1f num "bytes"
     else if Qlt_le_dec (Qabs num) (1024 * 1024)
     then format_3_1f (num / 1024) "KB"
     else if Qlt_le_dec (Qabs num) (1024 * 1024 * 1024)
     then format_3_1f (num / 1024 / 1024) "MB"
     else if Qlt_le_dec (Qabs num) (1024 * 1024 * 1024 * 1024)
     then format_3_1f (num / 1024 / 1024 / 1024) "GB"
     else format_3_1f (num / 1024 / 1024 / 1024 / 1024) "TB")%Q.
Proof.
  unfold SizeFmt.sizeof_fmt.
  rewrite !sizeof_fmt_loop_cons. cbn [SizeFmt.sizeof_fmt_loop].
  rewrite !abs_test_scaled. reflexivity.
Qed.

(** ** The [info] property *)

(** X5: once a read of [info] has succeeded, every later read returns the
    same value and [_get_info] is not called again, whatever it would
    return now. *)
Theorem info_is_cached {I : Type} (_get_info : nat -> Exc + I)
    (st st' : InfoCache.State I) (i : I) (n : nat) :
  InfoCache.info _get_info st = (inr i, st') ->
  InfoCache.reads _get_info n st' = (replicate n (inr i), st')
  /\ (InfoCache.get_info_calls st' <= S (InfoCache.get_info_calls st))%nat.
Proof.
  intros Hread.
  assert (Hcached : InfoCache.cached_info st' = Some i).
  { unfold InfoCache.info in Hread.
    destruct (InfoCache.cached_info st) as [j |] eqn:Hc.
    - inversion Hread; subst. exact Hc.
    - destruct (_get_info (InfoCache.get_info_calls st)) as [e | j];
        inversion Hread; subst; reflexivity. }
  split.
  - induction n as [| n IH]; [reflexivity |].
    cbn [InfoCache.reads]. unfold InfoCache.info at 1. rewrite Hcached, IH.
    reflexivity.
  - unfold InfoCache.info in Hread.
    destruct (InfoCache.cached_info st) as [j |].
    + inversion Hread; subst. lia.
    + destruct (_get_info (InfoCache.get_info_calls st)) as [e | j];
        inversion Hread; subst; cbn; lia.
Qed.

Lemma info_is_cached_witness :
  InfoCache.info (fun k => inr k)
    {| InfoCache.cached_info := None; InfoCache.get_info_calls := 0 |}
  = (inr 0%nat,
     {| InfoCache.cached_info := Some 0%nat; InfoCache.get_info_calls := 1 |})
  /\ InfoCache.reads (fun k => inr k) 3
       {| InfoCache.cached_info := Some 0%nat; InfoCache.get_info_calls := 1 |}
     = ([inr 0%nat; inr 0%nat; inr 0%nat],
        {| InfoCache.cached_info := Some 0%nat;
           InfoCache.get_info_calls := 1 |}).
Proof.
  split; [reflexivity |].
  apply (info_is_cached (fun k => inr k)
           {| InfoCache.cached_info := None; InfoCache.get_info_calls := 0 |}
           {| InfoCache.cached_info := Some 0%nat;
              InfoCache.get_info_calls := 1 |} 0%nat 3 eq_refl).
Defined.

(** ** The sanity checks *)

Section RequestFacts.
Import Instaseis Pipeline Epilogue Request.
Context {F : Type} `{Numeric F} `{Libs F}.
Variable pkg : Package F.
Variable self : DB F.

Abbreviation check_component :=
  (fun (comp : string) (_ : unit) =>
     if mem_str comp ["N"; "E"; "Z"; "R"; "T"] then ret (E := Event F) tt
     else raise (ValueError ("Invalid component: " +:+ comp))).

Lemma component_checks (components : list string) :
  for_each components check_component tt
  = match first_unknown_component components with
    | Some comp => raise (ValueError ("Invalid component: " +:+ comp))
    | None => ret tt
    end.
Proof.
  unfold first_unknown_component, known_component.
  induction components as [| comp components IH]; [reflexivity |].
  rewrite for_each_cons. cbn [List.find].
  destruct (mem_str comp ["N"; "E"; "Z"; "R"; "T"]); cbn [negb].
  - rewrite bind_ret_l. exact IH.
  - reflexivity.
Qed.

Lemma first_unknown_none (components : list string) :
  first_unknown_component components = None
  <-> forallb known_component components = true.
Proof.
  unfold first_unknown_component.
  induction components as [| comp components IH]; [tauto |].
  cbn [List.find forallb]. destruct (known_component comp); cbn [negb andb].
  - exact IH.
  - split; discriminate.
Qed.

Lemma mem_str_true (x : string) (l : list string) :
  mem_str x l = true <-> In x l.
Proof.
  unfold mem_str. rewrite existsb_exists. split.
  - intros (y & Hin & Heq). apply String.eqb_eq in Heq. subst. exact Hin.
  - intros Hin. exists x. split; [exact Hin | apply String.eqb_refl].
Qed.

(** [any(comp in components for comp in [...])] asks whether some requested
    component is one of the letters. *)
Lemma any_horizontal (components : list string) :
  existsb (fun comp => mem_str comp components) ["N"; "E"; "R"; "T"]
  = existsb horizontal components.
Proof.
  apply eq_true_iff_eq. rewrite !existsb_exists. unfold horizontal. split.
  - intros (x & Hin & Hmem). apply mem_str_true in Hmem.
    exists x. split; [exact Hmem | apply mem_str_true; exact Hin].
  - intros (x & Hin & Hmem). apply mem_str_true in Hmem.
    exists x. split; [exact Hmem | apply mem_str_true; exact Hin].
Qed.

End RequestFacts.

(** X6: for a source and a receiver that need no parsing, the sanity
    checks accept a request exactly when the kind is one of the three
    kinds, every component is one of N, E, Z, R, T and, for a reciprocal
    database, horizontal components are asked only of a database with
    horizontal components and Z only of one with vertical components.  An
    accepted request returns source and receiver unchanged and warns at
    most once, about the depth the database overrides; any other request
    ends in a [ValueError]. *)
Theorem sanity_checks_accept_valid_requests
    {F : Type} `{Instaseis.Numeric F} `{Instaseis.Libs F}
    (pkg : Instaseis.Package F) (self : Instaseis.DB F)
    (s : Instaseis.SourceObj F) (r : Instaseis.ReceiverObj F)
    (components : list string) (kind : string) :
  if Request.valid_request self components kind
  then Instaseis._get_seismograms_sanity_checks pkg self
         (Instaseis.IsSource pkg s) (Instaseis.IsReceiver pkg r)
         components kind
       = (Request.depth_warnings self s r, inr (s, r))
  else exists msg,
      outcome (Instaseis._get_seismograms_sanity_checks pkg self
                 (Instaseis.IsSource pkg s) (Instaseis.IsReceiver pkg r)
                 components kind)
      = inl (ValueError msg).
Proof.
  unfold Instaseis._get_seismograms_sanity_checks, Request.valid_request,
    Request.available, Request.depth_warnings, Request.known_kind.
  rewrite !bind_ret_l, component_checks, any_horizontal.
  destruct (Instaseis.mem_str kind _); cbn [andb];
    [rewrite bind_ret_l | eexists; reflexivity].
  destruct (Request.first_unknown_component components) as [bad |] eqn:Hbad.
  - assert (Hall : forallb Request.known_component components = false).
    { destruct (forallb Request.known_component components) eqn:Hall;
        [| reflexivity].
      apply first_unknown_none in Hall. congruence. }
    rewrite Hall. cbn [andb]. eexists; reflexivity.
  - apply first_unknown_none in Hbad. rewrite Hbad, bind_ret_l. cbn [andb].
    destruct (Instaseis.is_reciprocal (Instaseis.info self));
      cbn [negb orb].
    + destruct (existsb Request.horizontal components),
        (Instaseis.mem_str "horizontal" _),
        (Instaseis.mem_str "Z" components),
        (Instaseis.mem_str "vertical" _),
        (Instaseis.rec_depth_in_m r);
        cbn; try reflexivity; eexists; reflexivity.
    + destruct (Instaseis.src_depth_in_m s); reflexivity.
Qed.

(** X7: the checks report in a fixed order.  An unknown kind is reported
    whatever the components are; with a known kind, the first component of
    the request that is not one of N, E, Z, R, T is the one named in the
    error, and nothing is warned about before either error. *)
Theorem sanity_checks_report_first_unknown_component
    {F : Type} `{Instaseis.Numeric F} `{Instaseis.Libs F}
    (pkg : Instaseis.Package F) (self : Instaseis.DB F)
    (s : Instaseis.SourceObj F) (r : Instaseis.ReceiverObj F)
    (components : list string) (kind : string) :
  if Request.known_kind kind then
    match Request.first_unknown_component components with
    | Some comp =>
        Instaseis._get_seismograms_sanity_checks pkg self
          (Instaseis.IsSource pkg s) (Instaseis.IsReceiver pkg r)
          components kind
        = ([], inl (ValueError ("Invalid component: " +:+ comp)))
    | None =>
        Forall (fun comp => In comp ["N"; "E"; "Z"; "R"; "T"]) components
    end
  else
    Instaseis._get_seismograms_sanity_checks pkg self
      (Instaseis.IsSource pkg s) (Instaseis.IsReceiver pkg r)
      components kind
    = ([], inl (ValueError ("unknown kind " +:+ kind))).
Proof.
  unfold Instaseis._get_seismograms_sanity_checks, Request.known_kind.
  rewrite !bind_ret_l, component_checks.
  destruct (Instaseis.mem_str kind _); [rewrite bind_ret_l | reflexivity].
  destruct (Request.first_unknown_component components) as [bad |] eqn:Hbad;
    [reflexivity |].
  apply first_unknown_none in Hbad. rewrite forallb_forall in Hbad.
  apply List.Forall_forall. intros comp Hin. apply mem_str_true.
  apply Hbad. exact Hin.
Qed.

(** ** [get_seismograms] *)

Section GetSeismogramsFacts.
Import Instaseis Pipeline Epilogue Request.
Context {F : Type} `{Numeric F} `{Libs F}.
Variable pkg : Package F.
Variable self : DB F.

Abbreviation one_station_only :=
  (ValueError
     "Receiver object/file contains multiple stations. Please parse outside the get_seismograms() function and call in a loop.").

(** X8: a source and a receiver given in a form that has to be parsed are
    treated like the objects they parse to, as long as the receiver parses
    to exactly one station: the whole call has the same events and the same
    result. *)
Theorem parsed_arguments_equivalent
    (raw_source raw_receiver : Raw pkg) (s : SourceObj F) (r : ReceiverObj F)
    components kind remove reconv return_obspy_stream dt a_lanczos :
  parse_source pkg raw_source = inr s ->
  parse_receiver pkg raw_receiver = inr [r] ->
  get_seismograms pkg self (ToParseSource pkg raw_source)
    (ToParseReceiver pkg raw_receiver) components kind
    remove reconv return_obspy_stream dt a_lanczos
  = get_seismograms pkg self (IsSource pkg s) (IsReceiver pkg r)
      components kind remove reconv return_obspy_stream dt a_lanczos.
Proof.
  intros Hs Hr. unfold get_seismograms, _get_seismograms_sanity_checks.
  rewrite Hs, Hr, !bind_lift_inr, !bind_ret_l. reflexivity.
Qed.

(** X9: a receiver that parses to anything but one station, none
    included, is rejected with the multiple-stations [ValueError] as soon
    as the source is at hand: only the parsing of the source comes before
    it, and an exception from it is the outcome instead.  The checks of
    kind and components come later, nothing is warned about and the
    database is not read. *)
Theorem unparsed_receiver_needs_one_station
    (source : SourceArg pkg) (raw_receiver : Raw pkg)
    (stations : list (ReceiverObj F))
    components kind remove reconv return_obspy_stream dt a_lanczos :
  parse_receiver pkg raw_receiver = inr stations ->
  length stations <> 1%nat ->
  get_seismograms pkg self source
    (ToParseReceiver pkg raw_receiver) components kind
    remove reconv return_obspy_stream dt a_lanczos
  = ([],
     match source with
     | IsSource _ _ => inl one_station_only
     | ToParseSource _ raw_source =>
         match parse_source pkg raw_source with
         | inl e => inl e
         | inr _ => inl one_station_only
         end
     end).
Proof.
  intros Hr Hlen. unfold get_seismograms, _get_seismograms_sanity_checks.
  assert (Hrec : (let* rec := lift (parse_receiver pkg raw_receiver) in
                  match rec with
                  | [r0] => ret (E := Event F) r0
                  | _ => raise one_station_only
                  end)
                 = raise one_station_only).
  { rewrite Hr, bind_lift_inr.
    destruct stations as [| r0 [| r1 stations]];
      [reflexivity | contradiction | reflexivity]. }
  rewrite Hrec. destruct source as [s | raw_source].
  - rewrite bind_ret_l. reflexivity.
  - destruct (parse_source pkg raw_source) as [e | s]; reflexivity.
Qed.

Lemma dict_get_unknown {V} (d : list (string * V)) (k : string) :
  mem_str k (map fst d) = false ->
  dict_get (F := F) d k = raise (KeyError k).
Proof.
  unfold mem_str. induction d as [| [k' v] d IH]; [reflexivity |].
  cbn [map fst existsb dict_get]. destruct (String.eqb k k'); [discriminate |].
  exact IH.
Qed.

(** X10: a database whose source time function is none of the six known
    tags cannot be read at all: every call that passes the sanity checks
    extracts the data and then ends in a [KeyError] for that tag, whatever
    kind, components and options are. *)
Theorem unknown_stf_is_key_error
    source receiver components kind remove reconv return_obspy_stream dt
    a_lanczos w s r data :
  _get_seismograms_sanity_checks pkg self source receiver components kind
  = (w, inr (s, r)) ->
  _get_seismograms self s r components = inr data ->
  mem_str (stf (info self))
          ["errorf"; "quheavi"; "dirac_0"; "gauss_0"; "gauss_1"; "gauss_2"]
  = false ->
  get_seismograms pkg self source receiver components kind
    remove reconv return_obspy_stream dt a_lanczos
  = (w ++ [Extract components], inl (KeyError (stf (info self)))).
Proof.
  intros Hs Hx Htag.
  destruct (dict_get_kind_map (F := F) kind (sanity_checks_kind _ _ _ _ _ _ _ _ Hs))
    as (ko & Hk & _).
  unfold get_seismograms. rewrite (bind_ok _ _ _ _ Hs). cbn beta iota.
  rewrite bind_emit, Hx, bind_lift_inr, Hk, bind_ret_l.
  rewrite (dict_get_unknown stf_map _ Htag). reflexivity.
Qed.

(** A pass of the loop body that has nothing to do. *)
Lemma idle_pass (s : SourceObj F) dt_out a_lanczos comp (d : Data F) ts :
  process_component pkg self s 0 dt_out None a_lanczos false false comp (d, ts)
  = ret (d, Some (src_shift (info self))).
Proof. reflexivity. Qed.

Lemma idle_loop (s : SourceObj F) dt_out a_lanczos components (d : Data F) ts :
  for_each components
    (process_component pkg self s 0 dt_out None a_lanczos false false) (d, ts)
  = ret (d, match components with
            | [] => ts
            | _ => Some (src_shift (info self))
            end).
Proof.
  revert ts. induction components as [| comp components IH]; intros ts;
    [reflexivity |].
  rewrite for_each_cons, idle_pass, bind_ret_l, IH.
  destruct components; reflexivity.
Qed.

(** X11: with no resampling, no reconvolution, no removal of the source
    shift, and a kind whose order equals that of the source time function
    of the database, the dictionary returned is the extracted one, entry
    for entry, and the only events are the warnings and the extraction. *)
Theorem plain_request_returns_extraction
    source receiver components kind a_lanczos w s r data ko so :
  _get_seismograms_sanity_checks pkg self source receiver components kind
  = (w, inr (s, r)) ->
  _get_seismograms self s r components = inr data ->
  dict_get (F := F) kind_map kind = ret ko ->
  dict_get (F := F) stf_map (stf (info self)) = ret so ->
  derivative_order ko so (is_force_source s) = 0 ->
  get_seismograms pkg self source receiver components kind
    false false false None a_lanczos
  = (w ++ [Extract components], inr (RetData data)).
Proof.
  intros Hs Hx Hk Ht Hn.
  rewrite (get_seismograms_unfold _ _ _ _ _ _ _ _ _ _ _ _ _ _ _ _ _
             Hs Hx Hk Ht).
  cbn [andb]. cbv zeta. rewrite Hn, idle_loop, bind_ret_l. reflexivity.
Qed.

Lemma foldl_alter_distinct (f : list F -> list F) (components : list string)
    (m : gmap string (list F)) :
  NoDup components ->
  foldl (fun m comp => alter f comp m) m components
  = process_requested f components m.
Proof.
  intros Hnd. revert m.
  induction Hnd as [| comp components Hnotin Hnd IH]; intros m.
  - cbn [foldl]. apply map_eq. intros k. unfold process_requested.
    rewrite map_lookup_imap. destruct (m !! k) as [x |]; [| reflexivity].
    cbn. rewrite decide_False by apply not_elem_of_nil. reflexivity.
  - cbn [foldl]. rewrite IH. apply map_eq. intros k.
    unfold process_requested. rewrite !map_lookup_imap, lookup_alter.
    destruct (decide (comp = k)) as [<- |Hne].
    + destruct (m !! comp) as [x |]; [| reflexivity]. cbn.
      rewrite decide_False by exact Hnotin.
      rewrite decide_True by (apply elem_of_cons; auto). reflexivity.
    + destruct (m !! k) as [x |]; [| reflexivity]. cbn.
      destruct (decide (k ∈ components)) as [Hin | Hout].
      * rewrite decide_True by (apply elem_of_cons; auto). reflexivity.
      * rewrite decide_False; [reflexivity |].
        intros Hin. apply elem_of_cons in Hin as [-> | Hin]; auto.
Qed.

(** X12: when no component is requested twice, a successful call hands
    out, for every requested component, the extracted series passed once
    through the whole chain (reconvolution, resampling, differentiation or
    integration, removal of the source shift); in the dictionary format the
    entries of all other components are the extracted ones. *)
Theorem distinct_components_processed_once
    source receiver components kind remove reconv return_obspy_stream dt
    a_lanczos w s r data ko so l res :
  _get_seismograms_sanity_checks pkg self source receiver components kind
  = (w, inr (s, r)) ->
  _get_seismograms self s r components = inr data ->
  dict_get (F := F) kind_map kind = ret ko ->
  dict_get (F := F) stf_map (stf (info self)) = ret so ->
  NoDup components ->
  get_seismograms pkg self source receiver components kind
    remove reconv return_obspy_stream dt a_lanczos
  = (l, inr res) ->
  delivers res components
    (process_requested
       (processed pkg self s so (derivative_order ko so (is_force_source s))
                  dt a_lanczos remove reconv)
       components (series data)).
Proof.
  intros Hs Hx Hk Ht Hnd Hrun.
  rewrite <- (foldl_alter_distinct _ _ _ Hnd).
  exact (proj1 (get_seismograms_inr _ _ _ _ _ _ _ _ _ _ _ _ _ _ _ _ _ _ _
                  Hs Hx Hk Ht Hrun)).
Qed.

Lemma convert_to_stream_headers (s : SourceObj F) r components (d : Data F)
    dt_out ts l st :
  _convert_to_stream pkg s r components d dt_out ts = (l, inr st) ->
  map channel st
  = map (fun comp => get_band_code pkg dt_out +:+ "X" +:+ comp) components
  /\ Forall (fun tr => delta tr = dt_out
                       /\ tr_station tr = station r
                       /\ tr_network tr = network r
                       /\ instaseis_mu tr = Some (mu d)) st.
Proof.
  unfold _convert_to_stream.
  set (body := fun (comp : string) (st : list (Trace F)) => _).
  assert (Hgen : forall comps acc l st,
             for_each comps body acc = (l, inr st) ->
             exists new,
               st = acc ++ new
               /\ map channel new
                  = map (fun comp => get_band_code pkg dt_out +:+ "X" +:+ comp)
                        comps
               /\ Forall (fun tr => delta tr = dt_out
                                    /\ tr_station tr = station r
                                    /\ tr_network tr = network r
                                    /\ instaseis_mu tr = Some (mu d)) new).
  { induction comps as [| comp comps IH]; intros acc l0 st0.
    - cbn [for_each]. intros Hr. injection Hr as _ <-.
      exists []. rewrite app_nil_r. auto.
    - rewrite for_each_cons. intros Hr. bind_split Hr as acc1 Hone Hrest.
      subst body. cbn beta in Hone. bind_split Hone as xc Hget Hone.
      injection Hone as _ <-.
      apply IH in Hrest as (new & -> & Hch & Hall).
      eexists (_ :: new). rewrite <- app_assoc. split; [reflexivity |].
      split; [cbn [map channel]; rewrite Hch; reflexivity |].
      constructor; [cbn; auto | exact Hall]. }
  intros Hr. apply Hgen in Hr as (new & -> & Hch & Hall). auto.
Qed.

(** X13: a stream returned by [get_seismograms] has one trace per
    requested component, in the order of the request, repeated components
    included; the channel of a trace is the band code of the output
    sampling interval, the letter X and the component, its sampling
    interval is the requested [dt] (that of the database without one), its
    station and network are those of the receiver, and its header carries
    the shear modulus the database returned. *)
Theorem stream_headers
    source receiver components kind remove reconv dt a_lanczos
    w s r data l st :
  _get_seismograms_sanity_checks pkg self source receiver components kind
  = (w, inr (s, r)) ->
  _get_seismograms self s r components = inr data ->
  get_seismograms pkg self source receiver components kind
    remove reconv true dt a_lanczos
  = (l, inr (RetStream st)) ->
  map channel st
  = map (fun comp => get_band_code pkg (output_dt self dt) +:+ "X" +:+ comp)
        components
  /\ Forall (fun tr => delta tr = output_dt self dt
                       /\ tr_station tr = station r
                       /\ tr_network tr = network r
                       /\ instaseis_mu tr = Some (mu data)) st.
Proof.
  intros Hs Hx Hrun.
  destruct (dict_get_kind_map (F := F) kind (sanity_checks_kind _ _ _ _ _ _ _ _ Hs))
    as (ko & Hk & _).
  destruct (dict_get (F := F) stf_map (stf (info self))) as [lt [e | so]]
    eqn:Ht.
  { exfalso. unfold get_seismograms in Hrun.
    rewrite (bind_ok _ _ _ _ Hs) in Hrun. cbn beta iota in Hrun.
    rewrite bind_emit, Hx, bind_lift_inr, Hk, bind_ret_l, Ht in Hrun.
    discriminate Hrun. }
  assert (Hlt : lt = []).
  { pose proof (log_sat_dict_get (F := F) (fun _ => False) stf_map (stf (info self)))
      as Hsat.
    unfold log_sat in Hsat. rewrite Ht in Hsat. cbn [fst] in Hsat.
    destruct lt as [| ev lt]; [reflexivity |]. inversion Hsat; contradiction. }
  subst lt.
  rewrite (get_seismograms_unfold _ _ _ _ _ _ _ _ _ _ _ _ _ _ _ _ _
             Hs Hx Hk Ht) in Hrun.
  destruct (reconv && remove); [discriminate |].
  cbv zeta in Hrun. injection Hrun as _ Hr.
  match type of Hr with
  | snd ?m = _ => destruct m as [l' o] eqn:Hm
  end.
  cbn [snd] in Hr. subst o.
  bind_split Hm as st1 Hloop Hfin. destruct st1 as [d' ts'].
  apply (component_loop_inr _ _ _ _ _ _ _ _ _ _ _ _ _ _ _ Ht) in Hloop
    as (_ & Hmu & _).
  unfold epilogue in Hfin.
  bind_split Hfin as t Hbound Hfin. bind_split Hfin as tr Hconv Hfin.
  injection Hfin as _ <-.
  apply convert_to_stream_headers in Hconv. rewrite Hmu in Hconv.
  exact Hconv.
Qed.

(** X14: with no component requested the loop body never runs, so
    nothing about the source or the series is checked: the call ends in the
    mutual-exclusion error when both options are set, in an
    [UnboundLocalError] for [time_shift] when a stream is asked for, and
    otherwise returns the extracted dictionary as it is. *)
Theorem no_components_outcome
    source receiver kind remove reconv return_obspy_stream dt a_lanczos
    w s r data so :
  _get_seismograms_sanity_checks pkg self source receiver [] kind
  = (w, inr (s, r)) ->
  _get_seismograms self s r [] = inr data ->
  dict_get (F := F) stf_map (stf (info self)) = ret so ->
  get_seismograms pkg self source receiver [] kind
    remove reconv return_obspy_stream dt a_lanczos
  = (w ++ [Extract []],
     if reconv && remove
     then inl (ValueError
            "'remove_source_shift' argument not compatible with 'reconvolve_stf'.")
     else if return_obspy_stream then inl (UnboundLocalError "time_shift")
     else inr (RetData data)).
Proof.
  intros Hs Hx Ht.
  destruct (dict_get_kind_map (F := F) kind (sanity_checks_kind _ _ _ _ _ _ _ _ Hs))
    as (ko & Hk & _).
  rewrite (get_seismograms_unfold _ _ _ _ _ _ _ _ _ _ _ _ _ _ _ _ _
             Hs Hx Hk Ht).
  destruct (reconv && remove), return_obspy_stream; reflexivity.
Qed.

Lemma first_pass_key_error (s : SourceObj F) n dt_out a_lanczos remove
    comp (d : Data F) ts :
  series d !! comp = None ->
  reads_series n remove false = true ->
  process_component pkg self s n dt_out None a_lanczos remove false comp (d, ts)
  = raise (KeyError comp).
Proof.
  intros Hmiss Hreads.
  assert (Hget : get_series d comp = raise (KeyError comp)).
  { unfold get_series. rewrite Hmiss. reflexivity. }
  unfold process_component. cbn [fst resample]. rewrite !bind_ret_l.
  unfold reads_series in Hreads. rewrite orb_false_r in Hreads.
  destruct (Z.eqb_spec n 0) as [-> | Hn]; cbn [negb orb] in Hreads.
  - subst remove. change (np_arange (- 0)) with 0%nat.
    change (np_arange 0) with 0%nat. cbn [repeat_step].
    rewrite !bind_ret_l. unfold remove_shift. rewrite Hget. reflexivity.
  - destruct (Z.to_nat n) as [| k] eqn:Hk.
    + unfold np_arange. rewrite Hk. cbn [repeat_step]. rewrite bind_ret_l.
      destruct (Z.to_nat (- n)) as [| k'] eqn:Hk'; [lia |].
      cbn [repeat_step]. unfold integrate at 1. rewrite Hget. reflexivity.
    + unfold np_arange. rewrite Hk. cbn [repeat_step].
      unfold differentiate at 1. rewrite Hget. reflexivity.
Qed.

(** X15: when the database returns no series for the first requested
    component, a call without reconvolution and without resampling ends in
    a [KeyError] for that component as soon as anything reads the series:
    differentiation or integration, removal of the source shift, or the
    conversion to a stream.  Only the plain dictionary request does not
    notice and returns the extracted dictionary. *)
Theorem missing_series_is_key_error
    source receiver comp components kind remove return_obspy_stream
    a_lanczos w s r data ko so :
  _get_seismograms_sanity_checks pkg self source receiver
    (comp :: components) kind
  = (w, inr (s, r)) ->
  _get_seismograms self s r (comp :: components) = inr data ->
  dict_get (F := F) kind_map kind = ret ko ->
  dict_get (F := F) stf_map (stf (info self)) = ret so ->
  series data !! comp = None ->
  get_seismograms pkg self source receiver (comp :: components) kind
    remove false return_obspy_stream None a_lanczos
  = (w ++ [Extract (comp :: components)],
     if reads_series (derivative_order ko so (is_force_source s)) remove
                     return_obspy_stream
     then inl (KeyError comp)
     else inr (RetData data)).
Proof.
  intros Hs Hx Hk Ht Hmiss.
  rewrite (get_seismograms_unfold _ _ _ _ _ _ _ _ _ _ _ _ _ _ _ _ _
             Hs Hx Hk Ht).
  cbn [andb]. cbv zeta.
  destruct (reads_series (derivative_order ko so (is_force_source s))
                         remove false) eqn:Hreads.
  - rewrite for_each_cons, (first_pass_key_error _ _ _ _ _ _ _ _ Hmiss Hreads).
    assert (Hany : reads_series (derivative_order ko so (is_force_source s))
                                remove return_obspy_stream = true).
    { revert Hreads. unfold reads_series.
      rewrite orb_false_r. intros ->. reflexivity. }
    rewrite Hany. reflexivity.
  - unfold reads_series in Hreads |- *.
    rewrite orb_false_r in Hreads. apply orb_false_elim in Hreads as [Hn ->].
    apply negb_false_iff, Z.eqb_eq in Hn. rewrite Hn. cbn [Z.eqb negb orb].
    rewrite idle_loop, bind_ret_l.
    destruct return_obspy_stream; [| reflexivity].
    unfold epilogue. rewrite bind_ret_l.
    assert (Hget : get_series data comp = raise (KeyError comp)).
    { unfold get_series. rewrite Hmiss. reflexivity. }
    unfold _convert_to_stream. rewrite for_each_cons, Hget. reflexivity.
Qed.

End GetSeismogramsFacts.

(** ** [get_seismograms_finite_source] *)

Section MonadLaws.
Context {E : Type}.

Lemma bind_assoc {A B C} (m : M E A) (f : A -> M E B) (g : B -> M E C) :
  bind (bind m f) g = bind m (fun a => bind (f a) g).
Proof.
  destruct m as [l [e | a]]; [reflexivity |]. cbn [bind].
  destruct (f a) as [l1 [e | b]]; cbn [bind fst snd]; [reflexivity |].
  rewrite app_assoc. reflexivity.
Qed.

Lemma bind_ext {A B} (m : M E A) (f g : A -> M E B) :
  (forall a, f a = g a) -> bind m f = bind m g.
Proof.
  intros Hfg. destruct m as [l [e | a]]; [reflexivity |]. cbn [bind].
  rewrite Hfg. reflexivity.
Qed.

End MonadLaws.

(** Goes through a computation whose events are given one by one. *)
Ltac log_sat_walk :=
  repeat first
    [ apply log_sat_get_series
    | apply log_sat_ret
    | apply log_sat_raise
    | apply log_sat_lift
    | apply log_sat_emit; reflexivity
    | apply log_sat_bind; [| intros ? ]
    | match goal with
      | |- Epilogue.log_sat _ (if ?b then _ else _) => destruct b
      | |- Epilogue.log_sat _ (match ?x with _ => _ end) => destruct x
      end ].

Section FiniteSourceMore.
Import Instaseis Pipeline Epilogue Request.
Context {F : Type} `{Numeric F} `{Libs F}.
Variable pkg : Package F.
Variable self : DB F.

Abbreviation reports_from i count k :=
  (map (fun j : nat => (i + Z.of_nat j, count)) (seq 1 k)).

Abbreviation not_cancelled_from callback i count k :=
  (Forall (fun j : nat => callback (i + Z.of_nat j) count = false) (seq 1 k)).

Lemma progress_reports_app (l1 l2 : list (Event F)) :
  progress_reports (l1 ++ l2) = progress_reports l1 ++ progress_reports l2.
Proof. unfold progress_reports. apply flat_map_app. Qed.

Lemma progress_reports_none {A} (m : M (Event F) A) :
  log_sat (fun ev => is_progress ev = false) m ->
  progress_reports (fst m) = [].
Proof.
  unfold log_sat. generalize (fst m) as l.
  induction 1 as [| ev l Hev _ IH]; [reflexivity |].
  cbn [progress_reports flat_map]. fold (progress_reports l). rewrite IH.
  destruct ev; try reflexivity. discriminate Hev.
Qed.

Lemma point_source_call_reports source receiver components :
  progress_reports
    (fst (get_seismograms pkg self source receiver components "displacement"
            false true false None 5))
  = [].
Proof.
  apply progress_reports_none.
  apply log_sat_get_seismograms; intros; reflexivity.
Qed.

Lemma accumulate_reports (d : Data F) (c : CorrFac F) components m :
  progress_reports (fst (for_each components (accumulate d c) m)) = [].
Proof.
  apply progress_reports_none. apply log_sat_for_each. intros comp m0.
  unfold accumulate, np_iadd. log_sat_walk.
Qed.

Lemma reports_from_S (i count : Z) (k : nat) :
  reports_from i count (S k) = (i + 1, count) :: reports_from (i + 1) count k.
Proof.
  cbn [seq map]. f_equal. rewrite <- seq_shift, map_map.
  apply map_ext. intros j. f_equal. lia.
Qed.

Lemma not_cancelled_from_S (callback : Z -> Z -> bool) (i count : Z) (k : nat) :
  callback (i + 1) count = false ->
  not_cancelled_from callback (i + 1) count k ->
  not_cancelled_from callback i count (S k).
Proof.
  intros Hfirst Hrest. cbn [seq]. constructor; [exact Hfirst |].
  rewrite <- seq_shift. apply List.Forall_map.
  eapply List.Forall_impl; [| exact Hrest].
  intros j Hj. cbn beta in *. rewrite <- Hj. f_equal. lia.
Qed.

Lemma sum_sources_reports receiver components correct_mu callback count i
    sources st l res :
  sum_sources pkg self receiver components correct_mu (Some callback) count i
              sources st
  = (l, inr res) ->
  match res with
  | Some _ =>
      progress_reports l = reports_from i count (length sources)
      /\ not_cancelled_from callback i count (length sources)
  | None =>
      exists k : nat,
        (k < length sources)%nat
        /\ progress_reports l = reports_from i count (S k)
        /\ not_cancelled_from callback i count k
        /\ callback (i + Z.of_nat (S k)) count = true
  end.
Proof.
  revert i st l. induction sources as [| source sources IH]; intros i st l.
  - cbn [sum_sources]. intros Hr. injection Hr as <- <-.
    split; [reflexivity | constructor].
  - cbn [sum_sources]. intros Hr.
    bind_cut Hr as l1 r0 l2 Hcall Hr Hl. subst l.
    bind_cut Hr as l3 d l4 Hdata Hr Hl. subst l2.
    assert (l3 = []) as ->.
    { destruct r0; [discriminate | injection Hdata as <- _; reflexivity]. }
    bind_cut Hr as l5 m1 l6 Hacc Hr Hl. subst l4.
    rewrite bind_assoc, bind_emit in Hr. cbn beta in Hr.
    rewrite !bind_ret_l in Hr.
    pose proof (point_source_call_reports source receiver components) as Hl1.
    rewrite Hcall in Hl1. cbn [fst] in Hl1.
    pose proof (accumulate_reports d
                  (if correct_mu then CorrTuple (fdiv (mu d) DEFAULT_MU)
                   else CorrInt 1) components (fst st)) as Hl5.
    rewrite Hacc in Hl5. cbn [fst] in Hl5.
    destruct (callback (i + 1) count) eqn:Hcb.
    + cbn [fst snd ret] in Hr. injection Hr as <- <-.
      exists 0%nat. split; [cbn [length]; lia |].
      rewrite !progress_reports_app, Hl1, Hl5.
      split; [reflexivity |]. split; [constructor | exact Hcb].
    + cbn [fst snd] in Hr.
      destruct (sum_sources pkg self receiver components correct_mu
                  (Some callback) count (i + 1) sources (m1, Some d))
        as [l7 o] eqn:Hrest.
      cbn [fst snd] in Hr. injection Hr as <- ->.
      apply IH in Hrest.
      assert (Hlog : progress_reports (l1 ++ [] ++ l5 ++ Progress (i + 1) count :: l7)
                     = (i + 1, count) :: progress_reports l7).
      { rewrite !progress_reports_app, Hl1, Hl5. reflexivity. }
      rewrite Hlog. destruct res as [st' |].
      * destruct Hrest as [Hrep Hnc]. cbn [length].
        rewrite reports_from_S, Hrep. split; [reflexivity |].
        apply not_cancelled_from_S; assumption.
      * destruct Hrest as (k & Hlt & Hrep & Hnc & Hlast).
        exists (S k). cbn [length]. split; [lia |].
        rewrite (reports_from_S i count (S k)), Hrep.
        split; [reflexivity |].
        split; [apply not_cancelled_from_S; assumption |].
        rewrite <- Hlast. f_equal. lia.
Qed.

Lemma final_pass_reports (d : option (Data F)) dt a_lanczos components m :
  progress_reports
    (fst (for_each components (final_resample pkg self d dt a_lanczos) m))
  = [].
Proof.
  apply progress_reports_none. apply log_sat_for_each. intros comp m0.
  unfold final_resample. log_sat_walk.
Qed.

(** X16: the progress callback is called once after every point source,
    with the number of sources done so far and the total number of
    sources.  A run that returns a stream has reported 1, 2, ... up to the
    number of sources and the callback never asked to cancel; a run that
    returns [None] has stopped right after the first report for which the
    callback returned true, with no report for any later source. *)
Theorem progress_is_reported_per_source
    sources receiver components kind dt a_lanczos correct_mu
    (callback : Z -> Z -> bool) l res :
  get_seismograms_finite_source pkg self sources receiver components kind
    dt a_lanczos correct_mu (Some callback)
  = (l, inr res) ->
  match res with
  | Some _ =>
      progress_reports l
      = map (fun j : nat => (Z.of_nat j, Z.of_nat (length sources)))
            (seq 1 (length sources))
      /\ Forall (fun j : nat =>
                   callback (Z.of_nat j) (Z.of_nat (length sources)) = false)
                (seq 1 (length sources))
  | None =>
      exists k : nat,
        (k < length sources)%nat
        /\ progress_reports l
           = map (fun j : nat => (Z.of_nat j, Z.of_nat (length sources)))
                 (seq 1 (S k))
        /\ Forall (fun j : nat =>
                     callback (Z.of_nat j) (Z.of_nat (length sources)) = false)
                  (seq 1 k)
        /\ callback (Z.of_nat (S k)) (Z.of_nat (length sources)) = true
  end.
Proof.
  unfold get_seismograms_finite_source.
  destruct (is_reciprocal (info self)); [| discriminate]. cbn [negb].
  intros Hr. bind_cut Hr as l1 r0 l2 Hsum Hr Hl. subst l.
  apply sum_sources_reports in Hsum.
  destruct r0 as [[m d] |].
  - bind_cut Hr as l3 m1 l4 Hfin Hr Hl. subst l2.
    bind_cut Hr as l5 st l6 Htr Hr Hl. subst l4.
    injection Hr as <- <-.
    assert (Hl3 : progress_reports l3 = []).
    { destruct dt as [dt0 |].
      - pose proof (final_pass_reports d dt0 a_lanczos components m) as Hp.
        rewrite Hfin in Hp. exact Hp.
      - injection Hfin as <- _. reflexivity. }
    assert (Hl5 : progress_reports l5 = []).
    { match type of Htr with
      | ?run = _ =>
          assert (Hsat : log_sat (fun ev => is_progress ev = false) run)
      end.
      { apply log_sat_for_each. intros comp st0. log_sat_walk. }
      apply progress_reports_none in Hsat. rewrite Htr in Hsat. exact Hsat. }
    destruct Hsum as [Hrep Hnc].
    rewrite !progress_reports_app, Hl3, Hl5, Hrep, !app_nil_r. split.
    + apply map_ext. intros j. reflexivity.
    + eapply List.Forall_impl; [| exact Hnc]. intros j Hj. exact Hj.
  - injection Hr as <- <-. destruct Hsum as (k & Hlt & Hrep & Hnc & Hlast).
    exists k. split; [exact Hlt |].
    rewrite progress_reports_app, Hrep, app_nil_r.
    split; [apply map_ext; intros j; reflexivity |].
    split; [| exact Hlast].
    eapply List.Forall_impl; [| exact Hnc]. intros j Hj. exact Hj.
Qed.

(** X17: without sources there is nothing to sum.  A forward database is
    refused; on a reciprocal one a call without a requested [dt] yields an
    empty stream when no component is requested and a [KeyError] for the
    first component otherwise; nothing is read from the database. *)
Theorem no_sources_outcome
    receiver components kind a_lanczos correct_mu callback :
  get_seismograms_finite_source pkg self [] receiver components kind
    None a_lanczos correct_mu callback
  = ([],
     if is_reciprocal (info self) then
       match components with
       | [] => inr (Some [])
       | comp :: _ => inl (KeyError comp)
       end
     else inl (NotImplementedError "")).
Proof.
  unfold get_seismograms_finite_source.
  destruct (is_reciprocal (info self)); [| reflexivity]. cbn [negb].
  cbn [length sum_sources]. rewrite !bind_ret_l.
  destruct components; reflexivity.
Qed.

Lemma sum_sources_app receiver components correct_mu callback count i
    sources_done sources_left st :
  sum_sources pkg self receiver components correct_mu callback count i
              (sources_done ++ sources_left) st
  = bind (sum_sources pkg self receiver components correct_mu callback count
                      i sources_done st)
         (fun r =>
            match r with
            | Some st' =>
                sum_sources pkg self receiver components correct_mu callback
                            count (i + Z.of_nat (length sources_done))
                            sources_left st'
            | None => ret None
            end).
Proof.
  revert i st.
  induction sources_done as [| source sources_done IH]; intros i st.
  - cbn [app length sum_sources]. rewrite bind_ret_l.
    replace (i + Z.of_nat 0) with i by lia. reflexivity.
  - cbn [app sum_sources]. rewrite !bind_assoc.
    apply bind_ext. intros r. rewrite !bind_assoc.
    apply bind_ext. intros d. rewrite !bind_assoc.
    apply bind_ext. intros m. rewrite !bind_assoc.
    apply bind_ext. intros cancel. destruct cancel.
    + rewrite bind_ret_l. reflexivity.
    + rewrite IH. apply bind_ext. intros [st' |]; [| reflexivity].
      replace (i + 1 + Z.of_nat (length sources_done))
        with (i + Z.of_nat (length (source :: sources_done)))
        by (cbn [length]; lia).
      reflexivity.
Qed.

(** X18: the sources are processed in order and an exception from one of
    them ends the whole call: when the sources before it went through
    without a cancellation and the call of [get_seismograms] for it raises,
    [get_seismograms_finite_source] raises the same exception, after the
    events of the sources before it and of the failed call; no later source
    is looked at and no partial sum is returned. *)
Theorem failing_source_ends_the_sum
    sources_done source sources_left receiver components kind dt a_lanczos
    correct_mu callback l1 st1 l2 e :
  is_reciprocal (info self) = true ->
  sum_sources pkg self receiver components correct_mu callback
    (Z.of_nat (length (sources_done ++ source :: sources_left))) 0
    sources_done (∅, None)
  = (l1, inr (Some st1)) ->
  get_seismograms pkg self source receiver components "displacement"
    false true false None 5
  = (l2, inl e) ->
  get_seismograms_finite_source pkg self
    (sources_done ++ source :: sources_left) receiver components kind
    dt a_lanczos correct_mu callback
  = (l1 ++ l2, inl e).
Proof.
  intros Hrec Hdone Hfail. unfold get_seismograms_finite_source.
  rewrite Hrec. cbn [negb]. cbv zeta.
  rewrite sum_sources_app, Hdone. cbn [bind sum_sources].
  rewrite Hfail. reflexivity.
Qed.

(** X19: the stream of [get_seismograms_finite_source] has one trace per
    requested component, in the order of the request; the channel is the
    band code of the output interval, the letter X and the component, the
    sampling interval is the requested [dt] (that of the database without
    one), station and network are those of the receiver.  Unlike the traces
    of [get_seismograms], these carry no start time and no shear modulus. *)
Theorem finite_stream_headers
    sources (r : ReceiverObj F) components kind dt a_lanczos correct_mu
    callback l st :
  get_seismograms_finite_source pkg self sources (IsReceiver pkg r)
    components kind dt a_lanczos correct_mu callback
  = (l, inr (Some st)) ->
  map channel st
  = map (fun comp => get_band_code pkg (output_dt self dt) +:+ "X" +:+ comp)
        components
  /\ Forall (fun tr => delta tr = output_dt self dt
                       /\ tr_station tr = station r
                       /\ tr_network tr = network r
                       /\ starttime tr = None
                       /\ instaseis_mu tr = None) st.
Proof.
  unfold get_seismograms_finite_source.
  destruct (is_reciprocal (info self)); [| discriminate]. cbn [negb].
  intros Hr. bind_split Hr as r0 Hsum Hr.
  destruct r0 as [[m d] |]; [| discriminate].
  bind_split Hr as m1 Hfin Hr. bind_split Hr as st' Htr Hr.
  injection Hr as _ <-. clear Hsum Hfin.
  fold (output_dt self dt) in Htr.
  set (body := fun (comp : string) (st : list (Trace F)) => _) in Htr.
  assert (Hgen : forall comps acc l st,
             for_each comps body acc = (l, inr st) ->
             exists new,
               st = acc ++ new
               /\ map channel new
                  = map (fun comp =>
                           get_band_code pkg (output_dt self dt)
                           +:+ "X" +:+ comp) comps
               /\ Forall (fun tr => delta tr = output_dt self dt
                                    /\ tr_station tr = station r
                                    /\ tr_network tr = network r
                                    /\ starttime tr = None
                                    /\ instaseis_mu tr = None) new).
  { induction comps as [| comp comps IH]; intros acc l0 st0.
    - cbn [for_each]. intros Hr. injection Hr as _ <-.
      exists []. rewrite app_nil_r. auto.
    - rewrite for_each_cons. intros Hr. bind_split Hr as acc1 Hone Hrest.
      subst body. cbn beta in Hone.
      destruct (m1 !! comp) as [x |]; [| discriminate].
      injection Hone as _ <-.
      apply IH in Hrest as (new & -> & Hch & Hall).
      eexists (_ :: new). rewrite <- app_assoc. split; [reflexivity |].
      split; [cbn [map channel]; rewrite Hch; reflexivity |].
      constructor; [cbn; auto | exact Hall]. }
  apply Hgen in Htr as (new & -> & Hch & Hall). auto.
Qed.

(** X20: with a requested [dt], every trace that
    [get_seismograms_finite_source] returns holds the resampled series of
    the source processed last, for any number of sources; the sum over the
    sources does not enter the result. *)
Theorem resampled_stream_holds_last_source
    sources receiver components kind dt a_lanczos correct_mu callback l st :
  components <> [] ->
  get_seismograms_finite_source pkg self sources receiver components kind
    (Some dt) a_lanczos correct_mu callback
  = (l, inr (Some st)) ->
  exists datas d_last,
    Forall2 (fun source d =>
               outcome (get_seismograms pkg self source receiver components
                          "displacement" false true false None 5)
               = inr (RetData d))
            sources datas
    /\ last datas = Some d_last
    /\ Forall2 (fun comp tr =>
                  exists x,
                    series d_last !! comp = Some x
                    /\ tr_data tr = finite_resampled pkg self dt a_lanczos x)
               components st.
Proof.
  intros Hne Hrun.
  exact (finite_source_resampled_inr pkg self _ _ _ _ _ _ _ _ _ _ Hne Hrun).
Qed.

End FiniteSourceMore.

(** ** The further properties on the demonstration database *)

Section MoreRuns.
Import Instaseis Fixed9 Demo Pipeline Epilogue Request.

Lemma parsed_arguments_equivalent_witness :
  parse_source parsing_pkg 3%nat = inr (point_source 3)
  /\ parse_receiver parsing_pkg 1%nat = inr [demo_receiver]
  /\ get_seismograms parsing_pkg (demo_db "errorf")
       (ToParseSource parsing_pkg 3%nat) (ToParseReceiver parsing_pkg 1%nat)
       ["Z"] "velocity" true false true (Some (1 * unit9)) 5
     = get_seismograms parsing_pkg (demo_db "errorf")
         (IsSource parsing_pkg (point_source 3))
         (IsReceiver parsing_pkg demo_receiver)
         ["Z"] "velocity" true false true (Some (1 * unit9)) 5.
Proof.
  split; [reflexivity |]. split; [reflexivity |].
  apply (parsed_arguments_equivalent parsing_pkg (demo_db "errorf")
           3%nat 1%nat (point_source 3) demo_receiver ["Z"] "velocity"
           true false true (Some (1 * unit9)) 5);
    reflexivity.
Defined.

Lemma unparsed_receiver_needs_one_station_witness :
  parse_receiver parsing_pkg 2%nat = inr [demo_receiver; demo_receiver]
  /\ length [demo_receiver; demo_receiver] <> 1%nat
  /\ get_seismograms parsing_pkg (demo_db "errorf")
       (ToParseSource parsing_pkg 3%nat)
       (ToParseReceiver parsing_pkg 2%nat)
       ["Z"] "speed" true false true None 5
     = ([],
        inl (ValueError
               "Receiver object/file contains multiple stations. Please parse outside the get_seismograms() function and call in a loop.")).
Proof.
  split; [reflexivity |]. split; [discriminate |].
  apply (unparsed_receiver_needs_one_station parsing_pkg (demo_db "errorf")
           (ToParseSource parsing_pkg 3%nat) 2%nat
           [demo_receiver; demo_receiver] ["Z"] "speed" true false true
           None 5);
    [reflexivity | discriminate].
Defined.

Lemma unknown_stf_is_key_error_witness :
  _get_seismograms_sanity_checks demo_pkg (demo_db "sinc") strong_source
    the_receiver ["Z"] "displacement"
  = ([], inr (point_source 3, demo_receiver))
  /\ get_seismograms demo_pkg (demo_db "sinc") strong_source the_receiver
       ["Z"] "displacement" false false true None 5
     = ([] ++ [Extract ["Z"]], inl (KeyError "sinc")).
Proof.
  split; [reflexivity |].
  apply (unknown_stf_is_key_error demo_pkg (demo_db "sinc") strong_source
           the_receiver ["Z"] "displacement" false false true None 5
           [] (point_source 3) demo_receiver (strong_data ["Z"]));
    reflexivity.
Defined.

Lemma plain_request_returns_extraction_witness :
  derivative_order 0 0 (is_force_source (point_source 3)) = 0
  /\ get_seismograms demo_pkg (demo_db "errorf") strong_source the_receiver
       ["Z"; "N"] "displacement" false false false None 5
     = ([] ++ [Extract ["Z"; "N"]], inr (RetData (strong_data ["Z"; "N"]))).
Proof.
  split; [reflexivity |].
  apply (plain_request_returns_extraction demo_pkg (demo_db "errorf")
           strong_source the_receiver ["Z"; "N"] "displacement" 5
           [] (point_source 3) demo_receiver (strong_data ["Z"; "N"]) 0 0);
    reflexivity.
Defined.

Lemma distinct_components_processed_once_witness :
  NoDup ["Z"; "N"]
  /\ get_seismograms demo_pkg (demo_db "errorf") strong_source the_receiver
       ["Z"; "N"] "velocity" false false false None 5
     = (fst two_component_run,
        inr (value_or (RetStream []) two_component_run))
  /\ delivers (value_or (RetStream []) two_component_run) ["Z"; "N"]
       (process_requested
          (processed demo_pkg (demo_db "errorf") (point_source 3) 0 1 None 5
                     false false)
          ["Z"; "N"] (series (strong_data ["Z"; "N"]))).
Proof.
  assert (Hnd : NoDup ["Z"; "N"]).
  { apply NoDup_cons. split; [| apply NoDup_singleton].
    intros Hin. apply list_elem_of_singleton in Hin. discriminate Hin. }
  assert (Hrun : get_seismograms demo_pkg (demo_db "errorf") strong_source
                   the_receiver ["Z"; "N"] "velocity" false false false
                   None 5
                 = (fst two_component_run,
                    inr (value_or (RetStream []) two_component_run)))
    by (reflexivity).
  split; [exact Hnd |]. split; [exact Hrun |].
  apply (distinct_components_processed_once demo_pkg (demo_db "errorf")
           strong_source the_receiver ["Z"; "N"] "velocity" false false
           false None 5 [] (point_source 3) demo_receiver
           (strong_data ["Z"; "N"]) 1 0 (fst two_component_run)
           (value_or (RetStream []) two_component_run));
    solve [reflexivity | exact Hnd].
Defined.

Lemma stream_headers_witness :
  get_seismograms demo_pkg (demo_db "errorf") strong_source the_receiver
    ["Z"] "velocity" true false true (Some (1 * unit9)) 5
  = (fst velocity_run, inr (RetStream (stream_of velocity_run)))
  /\ map channel (stream_of velocity_run) = ["LXZ"]
  /\ Forall (fun tr => delta tr = 1 * unit9
                       /\ tr_station tr = "STA"
                       /\ tr_network tr = "NW"
                       /\ instaseis_mu tr = Some (64 * 10 ^ 18))
            (stream_of velocity_run).
Proof.
  assert (Hrun : get_seismograms demo_pkg (demo_db "errorf") strong_source
                   the_receiver ["Z"] "velocity" true false true
                   (Some (1 * unit9)) 5
                 = (fst velocity_run, inr (RetStream (stream_of velocity_run))))
    by (reflexivity).
  split; [exact Hrun |].
  exact (stream_headers demo_pkg (demo_db "errorf") strong_source
           the_receiver ["Z"] "velocity" true false (Some (1 * unit9)) 5
           [] (point_source 3) demo_receiver (strong_data ["Z"])
           (fst velocity_run) (stream_of velocity_run)
           velocity_run_sanity velocity_run_extract Hrun).
Defined.

Lemma no_components_outcome_witness :
  _get_seismograms_sanity_checks demo_pkg (demo_db "errorf") stf_less_source
    the_receiver [] "velocity"
  = ([], inr (bare_source, demo_receiver))
  /\ get_seismograms demo_pkg (demo_db "errorf") stf_less_source
       the_receiver [] "velocity" false true false None 5
     = ([] ++ [Extract []], inr (RetData (strong_data []))).
Proof.
  split; [reflexivity |].
  apply (no_components_outcome demo_pkg (demo_db "errorf") stf_less_source
           the_receiver "velocity" false true false None 5
           [] bare_source demo_receiver (strong_data []) 0);
    reflexivity.
Defined.

Lemma missing_series_is_key_error_witness :
  series no_series !! "Z" = None
  /\ get_seismograms demo_pkg silent_db strong_source the_receiver
       ["Z"; "N"] "velocity" false false false None 5
     = ([] ++ [Extract ["Z"; "N"]], inl (KeyError "Z")).
Proof.
  split; [reflexivity |].
  apply (missing_series_is_key_error demo_pkg silent_db strong_source
           the_receiver "Z" ["N"] "velocity" false false 5
           [] (point_source 3) demo_receiver no_series 1 0);
    reflexivity.
Defined.

Lemma progress_is_reported_per_source_witness :
  get_seismograms_finite_source demo_pkg (demo_db "errorf")
    [strong_source; weak_source; strong_source] the_receiver ["Z"]
    "displacement" None 5 false (Some stop_at_second)
  = (fst cancelled_run, inr None)
  /\ exists k : nat,
       (k < 3)%nat
       /\ progress_reports (fst cancelled_run)
          = map (fun j : nat => (Z.of_nat j, 3)) (seq 1 (S k))
       /\ Forall (fun j : nat => stop_at_second (Z.of_nat j) 3 = false)
                 (seq 1 k)
       /\ stop_at_second (Z.of_nat (S k)) 3 = true.
Proof.
  assert (Hrun : get_seismograms_finite_source demo_pkg (demo_db "errorf")
                   [strong_source; weak_source; strong_source] the_receiver
                   ["Z"] "displacement" None 5 false (Some stop_at_second)
                 = (fst cancelled_run, inr None))
    by (reflexivity).
  split; [exact Hrun |].
  exact (progress_is_reported_per_source demo_pkg (demo_db "errorf")
           [strong_source; weak_source; strong_source] the_receiver ["Z"]
           "displacement" None 5 false stop_at_second (fst cancelled_run)
           None Hrun).
Defined.

Lemma failing_source_ends_the_sum_witness :
  is_reciprocal (info (demo_db "errorf")) = true
  /\ first_of_three = (fst first_of_three, inr (Some (sum_state_of first_of_three)))
  /\ get_seismograms demo_pkg (demo_db "errorf") stf_less_source
       the_receiver ["Z"] "displacement" false true false None 5
     = ([Extract ["Z"]],
        inl (ValueError "source has no source time function"))
  /\ get_seismograms_finite_source demo_pkg (demo_db "errorf")
       ([strong_source] ++ stf_less_source :: [weak_source]) the_receiver
       ["Z"] "displacement" None 5 false None
     = (fst first_of_three ++ [Extract ["Z"]],
        inl (ValueError "source has no source time function")).
Proof.
  split; [reflexivity |]. split; [reflexivity |]. split; [reflexivity |].
  apply (failing_source_ends_the_sum demo_pkg (demo_db "errorf")
           [strong_source] stf_less_source [weak_source] the_receiver ["Z"]
           "displacement" None 5 false None (fst first_of_three)
           (sum_state_of first_of_three) [Extract ["Z"]]
           (ValueError "source has no source time function"));
    reflexivity.
Defined.

Lemma resampled_stream_holds_last_source_witness :
  ["Z"] <> []
  /\ get_seismograms_finite_source demo_pkg (demo_db "errorf")
       [strong_source; weak_source] the_receiver ["Z"] "displacement"
       (Some (2 * unit9)) 5 false None
     = (fst resampled_sum_run, inr (Some (traces_of resampled_sum_run)))
  /\ exists (datas : list (Data Z)) (d_last : Data Z),
       last datas = Some d_last
       /\ Forall2 (fun comp tr =>
                     exists x,
                       series d_last !! comp = Some x
                       /\ tr_data tr
                          = finite_resampled demo_pkg (demo_db "errorf")
                              (2 * unit9) 5 x)
                  ["Z"] (traces_of resampled_sum_run).
Proof.
  assert (Hrun : get_seismograms_finite_source demo_pkg (demo_db "errorf")
                   [strong_source; weak_source] the_receiver ["Z"]
                   "displacement" (Some (2 * unit9)) 5 false None
                 = (fst resampled_sum_run,
                    inr (Some (traces_of resampled_sum_run))))
    by (reflexivity).
  split; [discriminate |]. split; [exact Hrun |].
  destruct (resampled_stream_holds_last_source demo_pkg (demo_db "errorf")
              [strong_source; weak_source] the_receiver ["Z"] "displacement"
              (2 * unit9) 5 false None (fst resampled_sum_run)
              (traces_of resampled_sum_run) ltac:(discriminate) Hrun)
    as (datas & d_last & _ & Hlast & Htr).
  exists datas, d_last. split; [exact Hlast | exact Htr].
Defined.

Lemma finite_stream_headers_witness :
  get_seismograms_finite_source demo_pkg (demo_db "errorf")
    [strong_source; weak_source] (IsReceiver demo_pkg demo_receiver) ["Z"]
    "displacement" (Some (2 * unit9)) 5 false None
  = (fst resampled_sum_run, inr (Some (traces_of resampled_sum_run)))
  /\ map channel (traces_of resampled_sum_run) = ["LXZ"]
  /\ Forall (fun tr => delta tr = 2 * unit9
                       /\ tr_station tr = "STA"
                       /\ tr_network tr = "NW"
                       /\ starttime tr = None
                       /\ instaseis_mu tr = None)
            (traces_of resampled_sum_run).
Proof.
  assert (Hrun : get_seismograms_finite_source demo_pkg (demo_db "errorf")
                   [strong_source; weak_source]
                   (IsReceiver demo_pkg demo_receiver) ["Z"] "displacement"
                   (Some (2 * unit9)) 5 false None
                 = (fst resampled_sum_run,
                    inr (Some (traces_of resampled_sum_run))))
    by (reflexivity).
  split; [exact Hrun |].
  exact (finite_stream_headers demo_pkg (demo_db "errorf")
           [strong_source; weak_source] demo_receiver ["Z"] "displacement"
           (Some (2 * unit9)) 5 false None (fst resampled_sum_run)
           (traces_of resampled_sum_run) Hrun).
Defined.

End MoreRuns.
